(** * LinkGateway: a shallow embedding of the gateway core of myblog

    The development follows the Python sources of [my_blog_backend]:
    [BaseEngine/base.py], [LinkGateway/protocol.py], [inner_comm.py],
    [service_proxy.py], [api_mapper.py], [standards.py], [registry.py],
    [db.py], [gateway.py] and [plugin.py].

    Python dictionaries whose iteration order is irrelevant are finite maps
    ([gmap]); dictionaries that are iterated (plugin table, JSON objects) are
    association lists in insertion order.  Code that can raise returns in the
    [res] type; code that mutates a manager object threads that object
    explicitly.  Everything that lives outside the repository (the file
    system, the imported engine module, the clock, [uuid4], FastAPI, pydantic)
    is an explicit argument of the function that consults it. *)

From stdpp Require Import gmap strings list fin_maps.
From Stdlib Require Import ZArith Ascii.

Set Warnings "-register-all".

(* ===================================================================== *)
(** * Part I: definitions                                                 *)
(* ===================================================================== *)

(** ** Python values, exceptions and string primitives *)

Module Py.

(** The exception classes that occur in the modelled code. *)
Inductive exn_class :=
| PermissionError | TypeError | AttributeError | KeyError | ValueError
| JSONDecodeError | ValidationError | OtherError.

Record exn := mk_exn { exn_cls : exn_class; exn_msg : string }.

(** Result of running code that may raise. *)
Inductive res (A : Type) :=
| Ok (a : A)
| Raise (e : exn).
Arguments Ok {A} a.
Arguments Raise {A} e.

Definition bind {A B} (m : res A) (k : A -> res B) : res B :=
  match m with Ok a => k a | Raise e => Raise e end.

Definition is_ok {A} (m : res A) : bool :=
  match m with Ok _ => true | Raise _ => false end.

(** Decoded JSON / plain Python data.  A [dict] keeps insertion order. *)
Inductive pyval :=
| PNone
| PBool (b : bool)
| PInt (z : Z)
| PStr (s : string)
| PList (l : list pyval)
| PDict (d : list (string * pyval)).

Abbreviation dict := (list (string * pyval)).

(** [bool(v)] *)
Definition truthy (v : pyval) : bool :=
  match v with
  | PNone => false
  | PBool b => b
  | PInt z => negb (Z.eqb z 0)
  | PStr s => negb (String.eqb s "")
  | PList l => match l with [] => false | _ => true end
  | PDict d => match d with [] => false | _ => true end
  end.

(** [d.get(k)] reads the binding of [k]. *)
Fixpoint dict_get {V} (k : string) (d : list (string * V)) : option V :=
  match d with
  | [] => None
  | (k', v) :: d' => if String.eqb k k' then Some v else dict_get k d'
  end.

(** [k in d] *)
Definition dict_mem {V} (k : string) (d : list (string * V)) : bool :=
  match dict_get k d with Some _ => true | None => false end.

(** [d.get(k, default)] *)
Definition dict_get_default {V} (k : string) (default : V)
    (d : list (string * V)) : V :=
  match dict_get k d with Some v => v | None => default end.

(** [d[k] = v]: an existing key keeps its position, a new one goes last. *)
Fixpoint dict_set {V} (k : string) (v : V) (d : list (string * V))
    : list (string * V) :=
  match d with
  | [] => [(k, v)]
  | (k', v') :: d' =>
      if String.eqb k k' then (k, v) :: d' else (k', v') :: dict_set k v d'
  end.

(** [del d[k]] *)
Fixpoint dict_del {V} (k : string) (d : list (string * V)) : list (string * V) :=
  match d with
  | [] => []
  | (k', v') :: d' =>
      if String.eqb k k' then d' else (k', v') :: dict_del k d'
  end.

(** [d.values()] *)
Definition dict_values {V} (d : list (string * V)) : list V := map snd d.

(** [v == "literal"] *)
Definition eq_str (v : pyval) (s : string) : bool :=
  match v with PStr t => String.eqb t s | _ => false end.

(** [v is None] *)
Definition is_none (v : pyval) : bool :=
  match v with PNone => true | _ => false end.

(** [s.startswith(p)] *)
Definition startswith (p s : string) : bool := String.prefix p s.

(** [s.endswith(suffix)] *)
Fixpoint endswith (suffix s : string) : bool :=
  String.eqb suffix s ||
  match s with
  | EmptyString => false
  | String _ s' => endswith suffix s'
  end.

(** [sub in s] for strings. *)
Fixpoint contains (sub s : string) : bool :=
  String.prefix sub s ||
  match s with
  | EmptyString => false
  | String _ s' => contains sub s'
  end.

(** [s[:-1]] *)
Fixpoint drop_last (s : string) : string :=
  match s with
  | EmptyString => EmptyString
  | String c s' =>
      match s' with
      | EmptyString => EmptyString
      | String _ _ => String c (drop_last s')
      end
  end.

(** [field in container] for a string [field]; [TypeError] when the
    container is not iterable. *)
Definition py_in (field : string) (container : pyval) : res bool :=
  match container with
  | PDict d => Ok (dict_mem field d)
  | PList l =>
      Ok (existsb (fun v => match v with PStr s => String.eqb s field | _ => false end) l)
  | PStr s => Ok (contains field s)
  | _ => Raise (mk_exn TypeError "argument is not iterable")
  end.

(** [container[key]] for a string [key]. *)
Definition py_getitem (container : pyval) (key : string) : res pyval :=
  match container with
  | PDict d =>
      match dict_get key d with
      | Some v => Ok v
      | None => Raise (mk_exn KeyError key)
      end
  | _ => Raise (mk_exn TypeError "indices must be integers or object is not subscriptable")
  end.

(** [obj.get(key, default)]; only dictionaries have [get]. *)
Definition py_get (obj : pyval) (key : string) (default : pyval) : res pyval :=
  match obj with
  | PDict d => Ok (dict_get_default key default d)
  | _ => Raise (mk_exn AttributeError "object has no attribute 'get'")
  end.

(** The string methods of the interpreter that the code relies on:
    [str.upper], [str.lower], and [str(v)] as used by f-strings. *)
Record host := mk_host {
  upper : string -> string;
  lower : string -> string;
  format : pyval -> string
}.

(** Case mapping restricted to the ASCII letters. *)
Definition ascii_upper (c : ascii) : ascii :=
  let n := nat_of_ascii c in
  if (97 <=? n)%nat && (n <=? 122)%nat then ascii_of_nat (n - 32) else c.

Definition ascii_lower (c : ascii) : ascii :=
  let n := nat_of_ascii c in
  if (65 <=? n)%nat && (n <=? 90)%nat then ascii_of_nat (n + 32) else c.

Fixpoint map_chars (f : ascii -> ascii) (s : string) : string :=
  match s with
  | EmptyString => EmptyString
  | String c s' => String (f c) (map_chars f s')
  end.

(** A host for strings of ASCII text; [str(v)] of a string is the string. *)
Definition ascii_host : host :=
  {| upper := map_chars ascii_upper;
     lower := map_chars ascii_lower;
     format := fun v => match v with PStr s => s | _ => "<object>" end |}.

(** *** Code that mutates an object of type [S] and may raise

    The object is returned in both cases: what was assigned before an
    exception stays assigned. *)
Definition M (S A : Type) : Type := S -> res A * S.

Definition ret {S A} (a : A) : M S A := fun self => (Ok a, self).
Definition raise {S A} (e : exn) : M S A := fun self => (Raise e, self).
Definition lift {S A} (r : res A) : M S A := fun self => (r, self).
Definition modify {S} (f : S -> S) : M S unit := fun self => (Ok tt, f self).
Definition gets {S A} (f : S -> A) : M S A := fun self => (Ok (f self), self).

Definition se_bind {S A B} (m : M S A) (k : A -> M S B) : M S B :=
  fun self =>
    match m self with
    | (Ok a, self') => k a self'
    | (Raise e, self') => (Raise e, self')
    end.

(** [try: m except Exception as e: handler(e)] *)
Definition try_except {S A} (m : M S A) (handler : exn -> M S A) : M S A :=
  fun self =>
    match m self with
    | (Ok a, self') => (Ok a, self')
    | (Raise e, self') => handler e self'
    end.

Notation "x <- m ;; k" := (se_bind m (fun x => k))
  (at level 100, m at next level, right associativity).
Notation "m ;;; k" := (se_bind m (fun _ => k))
  (at level 100, right associativity).

(** [x in l] for a list of strings. *)
Definition str_in (x : string) (l : list string) : bool :=
  existsb (String.eqb x) l.

(** [set(a) & set(b)] is non-empty. *)
Definition intersects (a b : list string) : bool :=
  existsb (fun x => str_in x b) a.

End Py.

Export Py.

(** ** [BaseEngine/base.py] *)

Module BaseEngine.

(** One entry of [inspect.stack()]. *)
Record frame_info := mk_frame { filename : string; function : string }.

(** The attributes that [BaseEngine.__init__] sets on an instance
    ([project_root] is a file-system path that no modelled function reads).
    The name, version and type hold whatever the caller passes, which for
    the registry are values read from the manifest. *)
Record attrs := mk_attrs {
  service_id : string;
  service_name : pyval;
  version : pyval;
  engine_type : pyval;
  status : string;
  error_message : option string;
  _allow_direct_call : bool;
  config : dict
}.

(** What the thread that runs [engine.start()] has done when the caller
    looks at it again: it returned or raised, or it is still running.  In
    each case the attributes are those the caller then reads. *)
Inductive start_run :=
| Finished (outcome : res pyval) (after : attrs)
| StillRunning (seen : attrs).

(** The thread that is to run [start()] is a resource of the host: either it
    cannot be created ([thread.start()] raises) or it runs. *)
Inductive thread_run :=
| NotStarted (e : exn)
| Started (r : start_run).

(** The subclass of [BaseEngine] an instance belongs to: its constructor
    (applied to the [uuid4()] that [BaseEngine.__init__] draws, and to the
    two positional arguments), and its implementations of the abstract
    methods that the gateway calls. *)
Record engine_class := mk_class {
  cls_name : string;
  cls_new : string -> pyval -> pyval -> res attrs;
  cls_start : attrs -> thread_run;
  cls_handle_request_impl : attrs -> string -> dict -> res pyval
}.

Record engine := mk_engine { self : attrs; cls : engine_class }.

(** [BaseEngine.__init__(self, service_name, version, engine_type="kernel")];
    [uuid4] is the string that [str(uuid.uuid4())] returned. *)
Definition __init__ (uuid4 : string)
    (service_name version engine_type : pyval) : attrs :=
  {| service_id := uuid4;
     service_name := service_name;
     version := version;
     engine_type := engine_type;
     status := "stopped";
     error_message := None;
     _allow_direct_call := false;
     config := [] |}.

Definition set_service_name (a : attrs) (n : pyval) : attrs :=
  {| service_id := service_id a; service_name := n; version := version a;
     engine_type := engine_type a; status := status a;
     error_message := error_message a;
     _allow_direct_call := _allow_direct_call a; config := config a |}.

Definition set_engine_type (a : attrs) (t : pyval) : attrs :=
  {| service_id := service_id a; service_name := service_name a;
     version := version a; engine_type := t; status := status a;
     error_message := error_message a;
     _allow_direct_call := _allow_direct_call a; config := config a |}.

Definition set_status_attr (a : attrs) (st : string) : attrs :=
  {| service_id := service_id a; service_name := service_name a;
     version := version a; engine_type := engine_type a; status := st;
     error_message := error_message a;
     _allow_direct_call := _allow_direct_call a; config := config a |}.

Definition set_allow_direct_call (a : attrs) (b : bool) : attrs :=
  {| service_id := service_id a; service_name := service_name a;
     version := version a; engine_type := engine_type a; status := status a;
     error_message := error_message a;
     _allow_direct_call := b; config := config a |}.

Definition with_self (e : engine) (a : attrs) : engine :=
  {| self := a; cls := cls e |}.

(** The names accepted by [_validate_caller]. *)
Definition sanctioned_functions : list string :=
  ["forward_request"; "send_request"; "proxy_request"; "send_async_request"].

(** [if "LinkGateway" in filename or "gateway.py" in filename:]
    [    if func_name in [...]: return True] *)
Definition sanctioned_frame (f : frame_info) : bool :=
  (contains "LinkGateway" (filename f) || contains "gateway.py" (filename f))
  && str_in (function f) sanctioned_functions.

(** [BaseEngine._validate_caller]; [stack] is the value of
    [inspect.stack()]. *)
Definition _validate_caller (a : attrs) (stack : list frame_info) : bool :=
  if existsb sanctioned_frame stack then true
  else if _allow_direct_call a then true
  else false.

Definition illegal_call_message (a : attrs) : string :=
  "非法调用引擎 " +:+ service_id a +:+ "！请通过 LinkGateway 的内部通信机制调用。".

(** The body of [BaseEngine.handle_request]; [stack] is the call chain
    that [inspect.stack()] sees inside [_validate_caller].  The method is
    declared abstract: an engine class that can be instantiated overrides
    it, and it is through the override that this body runs. *)
Definition handle_request (e : engine) (stack : list frame_info)
    (action : string) (data : dict) : res pyval :=
  if negb (_validate_caller (self e) stack)
  then Raise (mk_exn PermissionError (illegal_call_message (self e)))
  else cls_handle_request_impl (cls e) (self e) action data.

Definition opt_str (o : option string) : pyval :=
  match o with Some s => PStr s | None => PNone end.

(** [BaseEngine.get_metadata] *)
Definition get_metadata (a : attrs) : dict :=
  [ ("service_id", PStr (service_id a));
    ("service_name", service_name a);
    ("version", version a);
    ("engine_type", engine_type a);
    ("status", PStr (status a));
    ("error_message", opt_str (error_message a));
    ("config", PDict (config a)) ].

(** The two frames that [inspect.stack()] reports for [_validate_caller]
    and [handle_request] themselves, followed by the frames of the
    callers.  [base_py] is the path of [BaseEngine/base.py]. *)
Definition stack_in_validate (base_py : string) (callers : list frame_info)
    : list frame_info :=
  mk_frame base_py "_validate_caller" :: mk_frame base_py "handle_request"
    :: callers.

(** *** Version compatibility *)

(** [s.split(sep)] for a separator of one character. *)
Fixpoint split_on (sep : ascii) (s : string) : list string :=
  match s with
  | EmptyString => [EmptyString]
  | String c s' =>
      if Ascii.eqb c sep then EmptyString :: split_on sep s'
      else
        match split_on sep s' with
        | [] => [String c EmptyString]
        | word :: words => String c word :: words
        end
  end.

Section Versions.
(** [int(s)] for a string [s]; [None] stands for [ValueError]. *)
Variable int_ : string -> option Z.

(** [[int(x) for x in words]] *)
Fixpoint int_each (words : list string) : res (list Z) :=
  match words with
  | [] => Ok []
  | word :: rest =>
      match int_ word with
      | None => Raise (mk_exn ValueError "invalid literal for int() with base 10")
      | Some n => bind (int_each rest) (fun ns => Ok (n :: ns))
      end
  end.

(** [list(map(int, v.split('.')))] *)
Definition version_numbers (v : pyval) : res (list Z) :=
  match v with
  | PStr s => int_each (split_on "." s)
  | _ => Raise (mk_exn AttributeError "object has no attribute 'split'")
  end.

(** The loop of [is_compatible] over the indices [indices]. *)
Fixpoint compare_versions (current_version required_version : list Z)
    (indices : list nat) : bool :=
  match indices with
  | [] => true
  | i :: rest =>
      let current :=
        if (i <? length current_version)%nat then nth i current_version 0%Z else 0%Z in
      let required :=
        if (i <? length required_version)%nat then nth i required_version 0%Z else 0%Z in
      if (current >? required)%Z then true
      else if (current <? required)%Z then false
      else compare_versions current_version required_version rest
  end.

(** [BaseEngine.is_compatible(min_version)] *)
Definition is_compatible (a : attrs) (min_version : pyval) : bool :=
  match
    bind (version_numbers (version a)) (fun current_version =>
    bind (version_numbers min_version) (fun required_version =>
      Ok (compare_versions current_version required_version
            (seq 0 (max (length current_version) (length required_version))))))
  with
  | Ok compatible => compatible
  | Raise _ => false
  end.

(** A version that [is_compatible] can read: a string whose components
    between the dots are all accepted by [int()]. *)
Definition numeric (v : pyval) : Prop :=
  exists numbers, version_numbers v = Ok numbers.
End Versions.

(** The comparison that the loop performs, on lists read as sequences that
    continue with zeros. *)
Fixpoint lex_ge (n : nat) (cur req : list Z) : bool :=
  match n with
  | O => true
  | S n =>
      let c := hd 0%Z cur in
      let r := hd 0%Z req in
      if (c >? r)%Z then true
      else if (c <? r)%Z then false
      else lex_ge n (tl cur) (tl req)
  end.

End BaseEngine.

(** ** [LinkGateway/protocol.py] *)

Module Request.
Record t := mk {
  request_id : string;
  service_id : option string;
  timestamp : Z;
  action : string;
  data : dict;
  auth : option dict
}.
End Request.

Module Response.
Record t := mk {
  request_id : string;
  timestamp : Z;
  status : string;
  code : Z;
  data : dict;
  error : option string
}.

Section Validation.
(** pydantic's validator of a [Dict[str, Any]] field. *)
Variable validate_dict : pyval -> res dict.

(** [data or {}] *)
Definition or_empty (v : pyval) : pyval :=
  if truthy v then v else PDict [].

(** [Response.success(request_id, data)]; [now] is [datetime.utcnow()]. *)
Definition success (now : Z) (request_id : string) (data : pyval) : res t :=
  bind (validate_dict (or_empty data)) (fun d =>
    Ok {| request_id := request_id; timestamp := now;
          status := "success"; code := 200; data := d; error := None |}).
End Validation.

(** [Response.error(request_id, code, error)] *)
Definition error_ (now : Z) (request_id : string) (code : Z) (msg : string) : t :=
  {| request_id := request_id; timestamp := now; status := "error";
     code := code; data := []; error := Some msg |}.

(** [response.dict()] *)
Definition dict_ (r : t) : dict :=
  [ ("request_id", PStr (request_id r));
    ("timestamp", PInt (timestamp r));
    ("status", PStr (status r));
    ("code", PInt (code r));
    ("data", PDict (data r));
    ("error", match error r with Some m => PStr m | None => PNone end) ].
End Response.

(** ** [LinkGateway/inner_comm.py] and [LinkGateway/service_comm.py] *)

Module InnerCommunicator.

Record t := mk {
  engine_registry : gmap string BaseEngine.engine;
  message_queue : list (Request.t * string)
}.

(** [InnerCommunicator.register_engine] *)
Definition register_engine (ic : t) (engine_id : string)
    (engine : BaseEngine.engine) : bool * t :=
  (true, {| engine_registry := <[engine_id := engine]> (engine_registry ic);
            message_queue := message_queue ic |}).

(** [InnerCommunicator.get_engine] *)
Definition get_engine (ic : t) (engine_id : string) : option BaseEngine.engine :=
  engine_registry ic !! engine_id.

(** [data or {}] for the optional [data] argument. *)
Definition data_or_empty (data : option dict) : dict :=
  match data with Some d => d | None => [] end.

Section SendRequest.
Variable validate_dict : pyval -> res dict.
(** Paths of [BaseEngine/base.py] and [LinkGateway/inner_comm.py]. *)
Variables base_py inner_comm_py : string.

(** [InnerCommunicator.send_request].  [uuid4] is the id drawn for the
    [Request], [now] and [now'] the two readings of the clock, [callers]
    the frames below [send_request] on the stack. *)
Definition send_request (ic : t) (uuid4 : string) (now now' : Z)
    (callers : list BaseEngine.frame_info)
    (target_engine_id action : string) (data : option dict)
    : option dict :=
  match engine_registry ic !! target_engine_id with
  | None => None
  | Some engine =>
      let request :=
        {| Request.request_id := uuid4;
           Request.service_id := Some target_engine_id;
           Request.timestamp := now;
           Request.action := action;
           Request.data := data_or_empty data;
           Request.auth := None |} in
      let stack :=
        BaseEngine.stack_in_validate base_py
          (BaseEngine.mk_frame inner_comm_py "send_request" :: callers) in
      match
        bind (BaseEngine.handle_request engine stack action (data_or_empty data))
          (fun response_data =>
             Response.success validate_dict now'
               (Request.request_id request) response_data)
      with
      | Ok response => Some (Response.dict_ response)
      | Raise e =>
          Some (Response.dict_
                  (Response.error_ now' (Request.request_id request) 500
                     (exn_msg e)))
      end
  end.

(** [ServiceCommunicator.call_engine]: the service-layer entry point
    that wraps [send_request]. *)
Definition call_engine (ic : t) (uuid4 : string) (now now' : Z)
    (callers : list BaseEngine.frame_info)
    (engine_id action : string) (data : option dict) : dict :=
  match send_request ic uuid4 now now' callers engine_id action
          (Some (data_or_empty data)) with
  | None =>
      [ ("status", PStr "error");
        ("error", PStr ("Engine " +:+ engine_id +:+ " not found or not registered")) ]
  | Some result => result
  end.
End SendRequest.

(** *** The message queue, broadcasting and removal *)

(** [InnerCommunicator.unregister_engine] *)
Definition unregister_engine (ic : t) (engine_id : string) : bool * t :=
  match engine_registry ic !! engine_id with
  | Some _ =>
      (true, {| engine_registry := delete engine_id (engine_registry ic);
                message_queue := message_queue ic |})
  | None => (false, ic)
  end.

(** [InnerCommunicator.list_engines]; the table is kept without its
    insertion order, so only the members of the list are meaningful. *)
Definition list_engines (ic : t) : list string :=
  (map_to_list (engine_registry ic)).*1.

(** [InnerCommunicator.send_async_request]: the id of the request, and the
    communicator with the request queued. *)
Definition send_async_request (ic : t) (uuid4 : string) (now : Z)
    (target_engine_id action : string) (data : option dict) : string * t :=
  let request :=
    {| Request.request_id := uuid4;
       Request.service_id := Some target_engine_id;
       Request.timestamp := now;
       Request.action := action;
       Request.data := data_or_empty data;
       Request.auth := None |} in
  (Request.request_id request,
   {| engine_registry := engine_registry ic;
      message_queue := message_queue ic ++ [(request, "pending")] |}).

(** [str(target_engine_id)] for the optional [service_id] of a request. *)
Definition str_of_target (target_engine_id : option string) : string :=
  match target_engine_id with Some s => s | None => "None" end.

Section Delivery.
Variable validate_dict : pyval -> res dict.
Variables base_py inner_comm_py : string.

(** [InnerCommunicator._process_single_message]; [now'] is the reading of
    the clock when the response is built, [callers] the frames below
    [_process_single_message] on the stack. *)
Definition _process_single_message (ic : t) (now' : Z)
    (callers : list BaseEngine.frame_info)
    (request : Request.t) (target_engine_id : option string) : dict :=
  match target_engine_id ≫= (fun id => engine_registry ic !! id) with
  | None =>
      let response :=
        Response.error_ now' (Request.request_id request) 404
          ("Engine " +:+ str_of_target target_engine_id +:+ " not found") in
      [ ("request_id", PStr (Request.request_id request));
        ("status", PStr "error");
        ("response", PDict (Response.dict_ response)) ]
  | Some engine =>
      let stack :=
        BaseEngine.stack_in_validate base_py
          (BaseEngine.mk_frame inner_comm_py "_process_single_message" :: callers) in
      match
        bind (BaseEngine.handle_request engine stack
                (Request.action request) (Request.data request))
          (fun response_data =>
             Response.success validate_dict now'
               (Request.request_id request) response_data)
      with
      | Ok response =>
          [ ("request_id", PStr (Request.request_id request));
            ("status", PStr "success");
            ("response", PDict (Response.dict_ response)) ]
      | Raise e =>
          let response :=
            Response.error_ now' (Request.request_id request) 500 (exn_msg e) in
          [ ("request_id", PStr (Request.request_id request));
            ("status", PStr "error");
            ("response", PDict (Response.dict_ response)) ]
      end
  end.

(** [InnerCommunicator.process_message_queue]; [clock i] is the reading of
    the clock while the [i]-th message is processed. *)
Definition process_message_queue (ic : t) (clock : nat -> Z)
    (callers : list BaseEngine.frame_info) : list dict * t :=
  (imap (fun i message =>
           _process_single_message ic (clock i)
             (BaseEngine.mk_frame inner_comm_py "process_message_queue" :: callers)
             (fst message) (Request.service_id (fst message)))
     (message_queue ic),
   {| engine_registry := engine_registry ic; message_queue := [] |}).

(** [InnerCommunicator.broadcast]: the entry of every engine. *)
Definition broadcast (ic : t) (callers : list BaseEngine.frame_info)
    (action : string) (data : option dict) : gmap string dict :=
  (fun engine =>
     let stack :=
       BaseEngine.stack_in_validate base_py
         (BaseEngine.mk_frame inner_comm_py "broadcast" :: callers) in
     match BaseEngine.handle_request engine stack action (data_or_empty data) with
     | Ok response_data =>
         [ ("status", PStr "success"); ("data", response_data) ]
     | Raise e =>
         [ ("status", PStr "error"); ("error", PStr (exn_msg e)) ]
     end) <$> engine_registry ic.
End Delivery.

(** The request id that a result of [process_message_queue] carries, at
    the top and inside its response. *)
Definition result_ids (result : dict) : option (pyval * pyval) :=
  match dict_get "request_id" result, dict_get "response" result with
  | Some id, Some (PDict response) =>
      match dict_get "request_id" response with
      | Some id' => Some (id, id')
      | None => None
      end
  | _, _ => None
  end.

End InnerCommunicator.

(** ** [LinkGateway/db.py]: the service descriptor store *)

Module DB.

Inductive ServiceType := BUSINESS | ENGINE.
Inductive EngineType := NETWORK | KERNEL.
Inductive ServiceStatus := VALID | INVALID | UNKNOWN.

(** A row of table [service_registry].  Text columns hold the value that
    was handed to the ORM; [service_name] and [version] are declared
    [nullable=False]. *)
Record row := mk_row {
  service_id : string;
  service_name : pyval;
  service_type : ServiceType;
  version : pyval;
  status : ServiceStatus;
  reason : pyval;
  description : pyval;
  last_check_at : option Z;
  database_config : option string;
  api_config : option string;
  business_path : option string;
  engine_type : option EngineType;
  engine_path : option string
}.

(** The [db_service_info] dictionary that [_register_engine_to_db] builds. *)
Record engine_info := mk_engine_info {
  i_service_id : string;
  i_service_name : pyval;
  i_version : pyval;
  i_status : ServiceStatus;
  i_reason : pyval;
  i_description : pyval;
  i_engine_type : EngineType;
  i_engine_path : string
}.

(** The table, keyed by the unique column [service_id]. *)
Abbreviation t := (gmap string row).

(** [DatabaseManager.get_service] *)
Definition get_service (db : t) (service_id : string) : option row :=
  db !! service_id.

(** [DatabaseManager.service_exists] *)
Definition service_exists (db : t) (service_id : string) : bool :=
  match db !! service_id with Some _ => true | None => false end.

(** A value that SQLite binds to a text column: of the decoded JSON
    values, a list or a dictionary is refused by the driver. *)
Definition bindable (v : pyval) : bool :=
  match v with
  | PList _ | PDict _ => false
  | _ => true
  end.

(** A value that a text column declared [nullable=False] accepts. *)
Definition not_null (v : pyval) : bool := negb (is_none v) && bindable v.

(** What leaves a method of [DatabaseManager] whose transaction fails: the
    [except] branch reads [self.logger], an attribute that the class never
    sets, so the [return False] after it is not reached. *)
Definition no_logger : exn :=
  mk_exn AttributeError "'DatabaseManager' object has no attribute 'logger'".

(** The columns that [_register_engine_to_db] writes are accepted:
    [service_name] and [version] are not null, and every text value can be
    bound. *)
Definition engine_columns_ok (i : engine_info) : bool :=
  not_null (i_service_name i) && not_null (i_version i)
  && bindable (i_reason i) && bindable (i_description i).

(** [DatabaseManager.add_service(service_info)] for an engine.  The row is
    written when the columns are accepted and the [service_id], a unique
    column, is new; otherwise the commit fails, nothing is written and the
    method raises. *)
Definition add_service (db : t) (i : engine_info) : res bool * t :=
  if engine_columns_ok i && negb (service_exists db (i_service_id i))
  then
    (Ok true,
     <[ i_service_id i :=
          {| service_id := i_service_id i; service_name := i_service_name i;
             service_type := ENGINE; version := i_version i;
             status := i_status i; reason := i_reason i;
             description := i_description i; last_check_at := None;
             database_config := None; api_config := None;
             business_path := None;
             engine_type := Some (i_engine_type i);
             engine_path := Some (i_engine_path i) |} ]> db)
  else (Raise no_logger, db).

(** [DatabaseManager.update_service(service_id, service_info)] for an
    engine: every key of the dictionary is assigned to the row, which is
    written under the same conditions; without a row of that id the method
    returns [False]. *)
Definition update_service (db : t) (service_id : string) (i : engine_info)
    : res bool * t :=
  match db !! service_id with
  | None => (Ok false, db)
  | Some r =>
      if engine_columns_ok i
         && (String.eqb (i_service_id i) service_id
             || negb (service_exists db (i_service_id i)))
      then
        (Ok true,
         <[ i_service_id i :=
              {| DB.service_id := i_service_id i; service_name := i_service_name i;
                 service_type := ENGINE; version := i_version i;
                 status := i_status i; reason := i_reason i;
                 description := i_description i;
                 last_check_at := last_check_at r;
                 database_config := database_config r;
                 api_config := api_config r;
                 business_path := business_path r;
                 engine_type := Some (i_engine_type i);
                 engine_path := Some (i_engine_path i) |} ]>
           (delete service_id db))
      else (Raise no_logger, db)
  end.

(** [DatabaseManager.update_service_status(service_id, status, reason)];
    [now] is [datetime.now()]. *)
Definition update_service_status (db : t) (now : Z) (service_id : string)
    (st : ServiceStatus) (reason : pyval) : bool * t :=
  match db !! service_id with
  | None => (false, db)
  | Some r =>
      (true,
       <[ service_id :=
            {| DB.service_id := DB.service_id r; service_name := service_name r;
               service_type := service_type r; version := version r;
               status := st; reason := reason;
               description := description r;
               last_check_at := Some now;
               database_config := database_config r;
               api_config := api_config r;
               business_path := business_path r;
               engine_type := engine_type r;
               engine_path := engine_path r |} ]> db)
  end.

Definition is_engine (r : row) : bool :=
  match service_type r with ENGINE => true | BUSINESS => false end.

(** *** Deleting and listing rows; rows of business services *)

(** [DatabaseManager.delete_service] *)
Definition delete_service (db : t) (service_id : string) : bool * t :=
  match db !! service_id with
  | Some _ => (true, delete service_id db)
  | None => (false, db)
  end.

(** [DatabaseManager.list_services()] without filters, as the registry
    calls it; the order of the rows is the one of the query. *)
Definition list_services (db : t) : list row := (map_to_list db).*2.


(** The [db_service_info] dictionary that [_process_business] builds. *)
Record business_row := mk_business_row {
  b_service_id : string;
  b_service_name : pyval;
  b_version : pyval;
  b_status : ServiceStatus;
  b_description : pyval;
  b_database_config : string;
  b_api_config : string;
  b_business_path : string
}.

(** The columns that [_process_business] writes are accepted. *)
Definition business_columns_ok (i : business_row) : bool :=
  not_null (b_service_name i) && not_null (b_version i)
  && bindable (b_description i).

(** [DatabaseManager.add_service(service_info)] for a business, under the
    conditions of [add_service]. *)
Definition add_business (db : t) (i : business_row) : res bool * t :=
  if business_columns_ok i && negb (service_exists db (b_service_id i))
  then
    (Ok true,
     <[ b_service_id i :=
          {| service_id := b_service_id i; service_name := b_service_name i;
             service_type := BUSINESS; version := b_version i;
             status := b_status i; reason := PNone;
             description := b_description i; last_check_at := None;
             database_config := Some (b_database_config i);
             api_config := Some (b_api_config i);
             business_path := Some (b_business_path i);
             engine_type := None; engine_path := None |} ]> db)
  else (Raise no_logger, db).

(** [DatabaseManager.update_service(service_id, service_info)] for a
    business: the keys of the dictionary are assigned, the other columns
    keep their value; the conditions are those of [update_service]. *)
Definition update_business (db : t) (service_id : string) (i : business_row)
    : res bool * t :=
  match db !! service_id with
  | None => (Ok false, db)
  | Some r =>
      if business_columns_ok i
         && (String.eqb (b_service_id i) service_id
             || negb (service_exists db (b_service_id i)))
      then
        (Ok true,
         <[ b_service_id i :=
              {| DB.service_id := b_service_id i; service_name := b_service_name i;
                 service_type := BUSINESS; version := b_version i;
                 status := b_status i; reason := reason r;
                 description := b_description i;
                 last_check_at := last_check_at r;
                 database_config := Some (b_database_config i);
                 api_config := Some (b_api_config i);
                 business_path := Some (b_business_path i);
                 engine_type := engine_type r;
                 engine_path := engine_path r |} ]>
           (delete service_id db))
      else (Raise no_logger, db)
  end.

(** [status.value] *)
Definition status_value (st : ServiceStatus) : string :=
  match st with VALID => "valid" | INVALID => "invalid" | UNKNOWN => "unknown" end.

(** [engine_type.value] *)
Definition engine_type_value (t : EngineType) : string :=
  match t with NETWORK => "network" | KERNEL => "kernel" end.

(** Every row is filed under its [service_id] column, the unique key of
    the table. *)
Definition keyed (db : t) : Prop :=
  forall key r, db !! key = Some r -> service_id r = key.

End DB.

(** ** [LinkGateway/standards.py] *)

Module Standards.

(** The class attributes that the validators read through [cls]. *)
Record std_class := mk_std {
  REQUIRED_FIELDS : list string;
  DATABASE_REQUIRED_FIELDS : option (list string);
  API_REQUIRED_FIELDS : option (list string);
  ENGINE_API_REQUIRED_FIELDS : option (list string);
  ENGINE_TYPES : list string
}.

Definition ServiceStandard : std_class :=
  {| REQUIRED_FIELDS := ["service_id"; "service_name"; "version"];
     DATABASE_REQUIRED_FIELDS := Some ["type"];
     API_REQUIRED_FIELDS := Some ["path"; "method"];
     ENGINE_API_REQUIRED_FIELDS := None;
     ENGINE_TYPES := [] |}.

Definition EngineStandard : std_class :=
  {| REQUIRED_FIELDS := ["service_id"; "service_name"; "version"; "engine_type"];
     DATABASE_REQUIRED_FIELDS := None;
     API_REQUIRED_FIELDS := None;
     ENGINE_API_REQUIRED_FIELDS := None;
     ENGINE_TYPES := ["network"; "kernel"] |}.

(** [cls.NAME] for an attribute the class may not define. *)
Definition class_attr (name : string) (a : option (list string)) : res (list string) :=
  match a with
  | Some l => Ok l
  | None => Raise (mk_exn AttributeError ("type object has no attribute '" +:+ name +:+ "'"))
  end.

Definition verdict (valid : bool) (reason : string) : pyval :=
  PDict [("valid", PBool valid); ("reason", PStr reason)].

Definition verdict_ok : pyval := PDict [("valid", PBool true)].

(** [_check_required_fields(config, required_fields)] *)
Fixpoint _check_required_fields (config : pyval) (required_fields : list string)
    : res pyval :=
  match required_fields with
  | [] => Ok verdict_ok
  | field :: rest =>
      bind (py_in field config) (fun present =>
        if negb present
        then Ok (verdict false ("Missing required field: " +:+ field))
        else _check_required_fields config rest)
  end.

(** [ServiceStandard._check_service_id_format] *)
Definition _check_service_id_format (service_json : pyval) : res pyval :=
  bind (py_get service_json "service_id" PNone) (fun service_id =>
    if negb (truthy service_id)
    then Ok (verdict false "Missing service_id")
    else Ok verdict_ok).

Section WithHost.
Variable h : host.

(** [_validate_database_config] *)
Definition _validate_database_config (cls : std_class) (database_config : pyval)
    : res pyval :=
  match database_config with
  | PDict d =>
      bind (class_attr "DATABASE_REQUIRED_FIELDS" (DATABASE_REQUIRED_FIELDS cls))
        (fun fields =>
      bind (_check_required_fields database_config fields) (fun result =>
      bind (py_getitem result "valid") (fun valid =>
        if negb (truthy valid) then Ok result
        else
          let db_type := dict_get_default "type" PNone d in
          if negb (truthy db_type)
          then Ok (verdict false "Missing database type")
          else
            if negb (match db_type with
                     | PStr t => str_in t ["sqlite"; "mysql"; "postgresql"]
                     | _ => false
                     end)
            then Ok (verdict false ("Unsupported database type: " +:+ format h db_type))
            else Ok verdict_ok)))
  | _ => Ok (verdict false "Database config must be a dictionary")
  end.

(** The loop of [_validate_apis_config]. *)
Fixpoint check_each_api (apis : list pyval) (required_fields : list string)
    : res pyval :=
  match apis with
  | [] => Ok verdict_ok
  | api :: rest =>
      bind (_check_required_fields api required_fields) (fun result =>
      bind (py_getitem result "valid") (fun valid =>
        if negb (truthy valid) then Ok result
        else check_each_api rest required_fields))
  end.

(** [_validate_apis_config(apis, is_engine)] *)
Definition _validate_apis_config (cls : std_class) (apis : pyval) (is_engine : bool)
    : res pyval :=
  match apis with
  | PList l =>
      bind (if is_engine
            then class_attr "ENGINE_API_REQUIRED_FIELDS" (ENGINE_API_REQUIRED_FIELDS cls)
            else class_attr "API_REQUIRED_FIELDS" (API_REQUIRED_FIELDS cls))
        (fun required_fields => check_each_api l required_fields)
  | _ => Ok (verdict false "APIs must be a list")
  end.

(** The two optional sections, shared by both validators:
    [if "database" in j: ...] and [if "apis" in j: ...], then the final
    verdict. *)
Definition validate_optional_sections (cls : std_class) (j : pyval)
    (is_engine : bool) (final : string) : res pyval :=
  let check_apis :=
    bind (py_in "apis" j) (fun has_apis =>
      if has_apis then
        bind (py_getitem j "apis") (fun apis =>
        bind (_validate_apis_config cls apis is_engine) (fun result =>
        bind (py_getitem result "valid") (fun valid =>
          if negb (truthy valid) then Ok result else Ok (verdict true final))))
      else Ok (verdict true final)) in
  bind (py_in "database" j) (fun has_db =>
    if has_db then
      bind (py_getitem j "database") (fun db =>
      bind (_validate_database_config cls db) (fun result =>
      bind (py_getitem result "valid") (fun valid =>
        if negb (truthy valid) then Ok result else check_apis)))
    else check_apis).

(** [ServiceStandard.validate_service_json] *)
Definition validate_service_json (service_json : pyval) : res pyval :=
  bind (_check_required_fields service_json (REQUIRED_FIELDS ServiceStandard))
    (fun required =>
  if negb (truthy required)
  then Ok (verdict false "Missing required fields")
  else
    bind (_check_service_id_format service_json) (fun id_format =>
    if negb (truthy id_format)
    then Ok (verdict false "Invalid service_id format")
    else validate_optional_sections ServiceStandard service_json false
           "Service JSON format is valid")).

(** [EngineStandard._check_engine_type] *)
Definition _check_engine_type (engine_json : pyval) : res pyval :=
  bind (py_get engine_json "engine_type" (PStr "")) (fun v =>
    match v with
    | PStr t =>
        let engine_type := lower h t in
        if negb (str_in engine_type (ENGINE_TYPES EngineStandard))
        then Ok (verdict false
                   ("Invalid engine type: " +:+ engine_type +:+
                    ". Must be one of network, kernel"))
        else Ok verdict_ok
    | _ => Raise (mk_exn AttributeError "object has no attribute 'lower'")
    end).

(** [EngineStandard.validate_engine_json] *)
Definition validate_engine_json (engine_json : pyval) : res pyval :=
  bind (_check_required_fields engine_json (REQUIRED_FIELDS EngineStandard))
    (fun required =>
  if negb (truthy required)
  then Ok (verdict false "Missing required fields")
  else
    bind (_check_engine_type engine_json) (fun engine_type =>
    if negb (truthy engine_type)
    then Ok (verdict false "Invalid engine type")
    else validate_optional_sections EngineStandard engine_json true
           "Engine JSON format is valid")).
End WithHost.

(** What the unit test [test_validate_service_json_missing_required_fields]
    and the documentation of [validate_service_json] expect: the verdict of
    [_check_required_fields] is the verdict of the validator when a required
    field is missing. *)
Definition reports_missing_field (result : res pyval) : bool :=
  match result with
  | Ok (PDict d) =>
      match dict_get "valid" d, dict_get "reason" d with
      | Some (PBool false), Some (PStr reason) =>
          contains "Missing required field" reason
      | _, _ => false
      end
  | _ => false
  end.

(** *** Acceptance, templates and API paths *)

(** [validation_result["valid"]] is truthy: the test by which the callers of
    the validators tell an accepted manifest from a rejected one. *)
Definition accepted (validation_result : res pyval) : bool :=
  match validation_result with
  | Ok v =>
      match py_getitem v "valid" with
      | Ok valid => truthy valid
      | Raise _ => false
      end
  | Raise _ => false
  end.

(** [ServiceStandard.get_default_service_json] *)
Definition get_default_service_json (service_id service_name version : pyval)
    : pyval :=
  PDict [ ("service_id", service_id);
          ("service_name", service_name);
          ("version", version);
          ("description", PStr "");
          ("apis", PList []);
          ("database", PDict [("type", PStr "sqlite"); ("name", service_id)]);
          ("dependencies", PList []) ].

(** [EngineStandard.get_default_engine_json] *)
Definition get_default_engine_json
    (service_id service_name version engine_type : pyval) : pyval :=
  PDict [ ("service_id", service_id);
          ("service_name", service_name);
          ("version", version);
          ("engine_type", engine_type);
          ("description", PStr "");
          ("apis", PList []);
          ("database", PDict [("type", PStr "sqlite"); ("name", service_id)]);
          ("dependencies", PList []) ].

(** [APIStandard.format_api_path(service_type, service_id, path)] *)
Definition format_api_path (service_type service_id path : string) : string :=
  if startswith ("/api/" +:+ service_id) path then path
  else
    let path := if negb (startswith "/" path) then "/" +:+ path else path in
    if String.eqb service_type "business"
    then "/api/" +:+ service_id +:+ path
    else if String.eqb service_type "engine"
    then "/api/" +:+ service_id +:+ path
    else path.

(** The database section of a service manifest passes
    [_validate_database_config]. *)
Definition database_section_ok (d : dict) : bool :=
  match dict_get "database" d with
  | None => true
  | Some (PDict db) =>
      match dict_get "type" db with
      | Some (PStr t) => str_in t ["sqlite"; "mysql"; "postgresql"]
      | _ => false
      end
  | Some _ => false
  end.

(** [field in api] holds and does not raise. *)
Definition has_field (field : string) (api : pyval) : bool :=
  match py_in field api with Ok present => present | Raise _ => false end.

(** The [apis] section of a service manifest passes
    [_validate_apis_config]. *)
Definition apis_section_ok (d : dict) : bool :=
  match dict_get "apis" d with
  | None => true
  | Some (PList apis) =>
      forallb (fun api => has_field "path" api && has_field "method" api) apis
  | Some _ => false
  end.

End Standards.

(** ** [LinkGateway/registry.py] *)

Module ServiceRegistry.

(** An entry of [self.services]: [{"type": ..., "info": ...}]. *)
Record service_entry := mk_entry { type : string; info : dict }.

Record t := mk {
  engines : gmap string BaseEngine.engine;
  businesses : gmap string dict;
  services : gmap string service_entry;
  registered_engines : list dict;
  db_manager : option DB.t
}.

Definition set_db (self : t) (db : DB.t) : t :=
  {| engines := engines self; businesses := businesses self;
     services := services self;
     registered_engines := registered_engines self;
     db_manager := Some db |}.

(** What the registry obtains from outside while it processes one engine
    directory. *)
Inductive import_result :=
| NoSpec
| Imported (classes : res (list BaseEngine.engine_class)).

Record env := mk_env {
  os_path_isfile : string -> bool;
  os_path_dirname : string -> string;
  (** [_find_config_file(directory, name, ["{name}.json", "engine.json"])] *)
  find_config_file : string -> string -> option string;
  (** [path_manager.load_json_file(path)] *)
  load_json_file : string -> res pyval;
  (** [spec_from_file_location(name, path)] followed by [exec_module]: the
      subclasses of [BaseEngine] in the module, in definition order. *)
  import_module : pyval -> string -> import_result;
  (** [datetime.now()] *)
  now : Z;
  (** the value of [uuid.uuid4()] drawn by [BaseEngine.__init__] *)
  uuid4 : string
}.

(** Methods of the registry: they mutate [self] and may raise. *)
Abbreviation M := (Py.M t).

(** [self.db_manager.<method>(...)]: [AttributeError] when the registry
    runs without a database manager. *)
Definition with_db {A} (f : DB.t -> A * DB.t) : M A :=
  fun self =>
    match db_manager self with
    | None =>
        (Raise (mk_exn AttributeError "'NoneType' object has no attribute"), self)
    | Some db => let '(a, db') := f db in (Ok a, set_db self db')
    end.

(** [self.db_manager.<method>(...)] for a method that may raise. *)
Definition call_db {A} (f : DB.t -> res A * DB.t) : M A :=
  fun self =>
    match db_manager self with
    | None =>
        (Raise (mk_exn AttributeError "'NoneType' object has no attribute"), self)
    | Some db => let '(a, db') := f db in (a, set_db self db')
    end.

(** [self.db_manager.update_service_status(service_id, status, reason)];
    a key that is not a string matches no row. *)
Definition db_update_status (now : Z) (service_id : pyval)
    (st : DB.ServiceStatus) (reason : pyval) : M bool :=
  with_db (fun db =>
    match service_id with
    | PStr sid => DB.update_service_status db now sid st reason
    | _ => (false, db)
    end).

(** *** Look-ups *)

(** [ServiceRegistry.get_engine] *)
Definition get_engine (self : t) (engine_id : string) : option BaseEngine.engine :=
  engines self !! engine_id.

(** [ServiceRegistry.get_service] *)
Definition get_service (self : t) (service_id : string) : option service_entry :=
  services self !! service_id.

(** [ServiceRegistry._check_memory_service_health] *)
Definition _check_memory_service_health (self : t) (service_id : string)
    : option bool :=
  match services self !! service_id with
  | None => None
  | Some service_info =>
      if negb (eq_str (dict_get_default "status" PNone (info service_info)) "valid")
      then Some false
      else if negb (String.eqb (type service_info) "engine") then Some true
      else
        match engines self !! service_id with
        | None => Some false
        | Some engine =>
            Some (String.eqb (BaseEngine.status (BaseEngine.self engine)) "running")
        end
  end.

(** [ServiceRegistry._check_db_service_health] *)
Definition _check_db_service_health (self : t) (service_id : string) : bool :=
  match db_manager self with
  | None => false
  | Some db =>
      match DB.get_service db service_id with
      | Some service =>
          match DB.status service with DB.VALID => true | _ => false end
      | None => false
      end
  end.

(** [ServiceRegistry.check_service_health] *)
Definition check_service_health (self : t) (service_id : string) : bool :=
  match _check_memory_service_health self service_id with
  | Some is_healthy => is_healthy
  | None => _check_db_service_health self service_id
  end.

(** [ServiceRegistry.is_service_allowed] *)
Definition is_service_allowed (self : t)
    (source_service_id target_service_id : string) : res bool :=
  match db_manager self with
  | None => Raise (mk_exn AttributeError "'NoneType' object has no attribute 'get_service'")
  | Some db =>
      let source_service := DB.get_service db source_service_id in
      let target_service := DB.get_service db target_service_id in
      match source_service, target_service with
      | Some source, Some target =>
          if DB.is_engine source && DB.is_engine target
          then Ok false
          else Ok true
      | _, _ => Ok false
      end
  end.

(** *** Starting an engine *)

(** [ServiceRegistry._start_engine_with_timeout]: the value returned (or the
    exception of [thread.start()]), and the engine as the caller sees it
    afterwards. *)
Definition _start_engine_with_timeout (engine : BaseEngine.engine)
    : res pyval * BaseEngine.engine :=
  match BaseEngine.cls_start (BaseEngine.cls engine) (BaseEngine.self engine) with
  | BaseEngine.NotStarted e => (Raise e, engine)
  | BaseEngine.Started (BaseEngine.StillRunning seen) =>
      (Ok (PBool false), BaseEngine.with_self engine seen)
  | BaseEngine.Started (BaseEngine.Finished (Raise e) after) =>
      (Ok (if truthy (PStr (exn_msg e)) then PBool false else PBool false),
       BaseEngine.with_self engine after)
  | BaseEngine.Started (BaseEngine.Finished (Ok success) after) =>
      (Ok success, BaseEngine.with_self engine after)
  end.

(** [ServiceRegistry._start_engine_safely] *)
Definition _start_engine_safely (engine : BaseEngine.engine) : BaseEngine.engine :=
  match _start_engine_with_timeout engine with
  | (Ok _, engine') => engine'
  | (Raise _, engine') =>
      BaseEngine.with_self engine'
        (BaseEngine.set_status_attr (BaseEngine.self engine') "failed")
  end.

Section Discovery.
Variable h : host.
Variable ev : env.

(** [ServiceRegistry._get_engine_dir] *)
Definition _get_engine_dir (engine_path : string) : string :=
  if os_path_isfile ev engine_path then os_path_dirname ev engine_path
  else engine_path.

Definition missing_config_reason (engine_dir : string) : string :=
  "Missing engine configuration file. Searched directory: " +:+ engine_dir.

(** [ServiceRegistry._find_engine_config_file] *)
Definition _find_engine_config_file (engine_dir engine_name : string)
    : M (option string) :=
  match find_config_file ev engine_dir engine_name with
  | Some p => ret (Some p)
  | None =>
      db_update_status (now ev) (PStr engine_name) DB.INVALID
        (PStr (missing_config_reason engine_dir)) ;;;
      ret None
  end.

(** [ServiceRegistry._build_engine_error_result] *)
Definition _build_engine_error_result (service_id service_name reason : string)
    : M dict :=
  db_update_status (now ev) (PStr service_id) DB.INVALID (PStr reason) ;;;
  ret [ ("service_id", PStr service_id);
        ("service_name", PStr service_name);
        ("status", PStr "invalid");
        ("reason", PStr reason) ].

(** [ServiceRegistry._load_and_validate_engine_config]; [None] is the
    Python [None]. *)
Definition _load_and_validate_engine_config (engine_json_path engine_name : string)
    : M (option pyval) :=
  engine_config <- lift (load_json_file ev engine_json_path) ;;
  validation_result <- lift (Standards.validate_engine_json h engine_config) ;;
  valid <- lift (py_getitem validation_result "valid") ;;
  if negb (truthy valid) then
    service_id <- lift (py_get engine_config "service_id" (PStr engine_name)) ;;
    reason <- lift (py_getitem validation_result "reason") ;;
    db_update_status (now ev) service_id DB.INVALID reason ;;;
    ret None
  else ret (Some engine_config).

(** [ServiceRegistry._create_engine_instance] *)
Definition _create_engine_instance (engine_class : BaseEngine.engine_class)
    (service_id service_name engine_config : pyval) : res BaseEngine.engine :=
  bind (py_getitem engine_config "version") (fun version =>
  bind (BaseEngine.cls_new engine_class (uuid4 ev) service_id version) (fun a =>
  let a := BaseEngine.set_service_name a service_name in
  bind (py_getitem engine_config "engine_type") (fun engine_type =>
  Ok (BaseEngine.mk_engine (BaseEngine.set_engine_type a engine_type) engine_class)))).

(** [ServiceRegistry._find_engine_class] *)
Definition _find_engine_class (classes : list BaseEngine.engine_class)
    (service_id : pyval) : M (option BaseEngine.engine_class) :=
  match classes with
  | cls :: _ => ret (Some cls)
  | [] =>
      db_update_status (now ev) service_id DB.INVALID
        (PStr "No class inheriting from BaseEngine found") ;;;
      ret None
  end.

(** [engine_config.get("service_id", engine_name)] and
    [engine_config.get("service_name", service_id)] for a manifest that is
    a JSON object. *)
Definition manifest_service_id (engine_name : string) (cfg : dict) : pyval :=
  dict_get_default "service_id" (PStr engine_name) cfg.

Definition manifest_service_name (engine_name : string) (cfg : dict) : pyval :=
  dict_get_default "service_name" (manifest_service_id engine_name cfg) cfg.

(** The instance that [_create_engine_instance] returns when the
    constructor of the class yields the attributes [a0]. *)
Definition created_engine (engine_name : string) (cfg : dict)
    (engine_type : pyval) (cls : BaseEngine.engine_class)
    (a0 : BaseEngine.attrs) : BaseEngine.engine :=
  BaseEngine.mk_engine
    (BaseEngine.set_engine_type
       (BaseEngine.set_service_name a0 (manifest_service_name engine_name cfg))
       engine_type)
    cls.

(** [ServiceRegistry._load_and_create_engine] *)
Definition _load_and_create_engine (engine_config : pyval)
    (engine_path engine_name : string) : M (option BaseEngine.engine) :=
  service_id <- lift (py_get engine_config "service_id" (PStr engine_name)) ;;
  service_name <- lift (py_get engine_config "service_name" service_id) ;;
  match import_module ev service_id engine_path with
  | NoSpec =>
      db_update_status (now ev) service_id DB.INVALID
        (PStr "Failed to load engine module") ;;;
      ret None
  | Imported loaded =>
      classes <- lift loaded ;;
      engine_class <- _find_engine_class classes service_id ;;
      match engine_class with
      | None => ret None
      | Some engine_class =>
          engine <- lift (_create_engine_instance engine_class service_id
                            service_name engine_config) ;;
          ret (Some (_start_engine_safely engine))
      end
  end.

(** [ServiceRegistry._register_engine_to_memory] *)
Definition _register_engine_to_memory (engine_metadata : dict)
    (engine : BaseEngine.engine) : M unit :=
  key <- lift (py_getitem (PDict engine_metadata) "service_id") ;;
  match key with
  | PStr sid =>
      fun self =>
        (Ok tt,
         {| engines := <[sid := engine]> (engines self);
            businesses := businesses self;
            services :=
              <[sid := {| type := "engine"; info := engine_metadata |}]>
                (services self);
            registered_engines := registered_engines self;
            db_manager := db_manager self |})
  | _ => raise (mk_exn TypeError "service_id is not a string")
  end.

(** [EngineType(value)] *)
Definition EngineType_of (value : string) : res DB.EngineType :=
  if String.eqb value "network" then Ok DB.NETWORK
  else if String.eqb value "kernel" then Ok DB.KERNEL
  else Raise (mk_exn ValueError ("'" +:+ value +:+ "' is not a valid EngineType")).

Definition startup_failed_reason (status : pyval) : string :=
  "Engine startup failed, current status: " +:+ format h status.

(** [ServiceRegistry._register_engine_to_db] *)
Definition _register_engine_to_db (engine_metadata : dict)
    (engine_config : pyval) (engine_path : string) : M unit :=
  let status := dict_get_default "status" PNone engine_metadata in
  let running := eq_str status "running" in
  let service_status := if running then DB.VALID else DB.INVALID in
  let reason := if running then PNone else PStr (startup_failed_reason status) in
  service_id <- lift (py_getitem (PDict engine_metadata) "service_id") ;;
  service_name <- lift (py_getitem (PDict engine_metadata) "service_name") ;;
  version <- lift (py_getitem (PDict engine_metadata) "version") ;;
  description <- lift (py_get engine_config "description" (PStr "")) ;;
  engine_type <- lift (py_getitem (PDict engine_metadata) "engine_type") ;;
  engine_type <-
    lift (match engine_type with
          | PStr t => EngineType_of (lower h t)
          | _ => Raise (mk_exn AttributeError "object has no attribute 'lower'")
          end) ;;
  match service_id with
  | PStr sid =>
      let db_service_info :=
        {| DB.i_service_id := sid; DB.i_service_name := service_name;
           DB.i_version := version; DB.i_status := service_status;
           DB.i_reason := reason; DB.i_description := description;
           DB.i_engine_type := engine_type; DB.i_engine_path := engine_path |} in
      call_db (fun db =>
        if DB.service_exists db sid
        then DB.update_service db sid db_service_info
        else DB.add_service db db_service_info) ;;;
      ret tt
  | _ => raise (mk_exn TypeError "service_id is not a string")
  end.

(** [ServiceRegistry._start_and_register_engine] *)
Definition _start_and_register_engine (engine : BaseEngine.engine)
    (engine_config : pyval) (engine_path : string) : M dict :=
  let engine_metadata := BaseEngine.get_metadata (BaseEngine.self engine) in
  _register_engine_to_memory engine_metadata engine ;;;
  _register_engine_to_db engine_metadata engine_config engine_path ;;;
  (fun self =>
     (Ok engine_metadata,
      {| engines := engines self; businesses := businesses self;
         services := services self;
         registered_engines := registered_engines self ++ [engine_metadata];
         db_manager := db_manager self |})).

(** The body of the [try] block of [_process_engine]. *)
Definition process_engine_body (engine_name engine_path engine_json_path : string)
    : M dict :=
  engine_config <- _load_and_validate_engine_config engine_json_path engine_name ;;
  match engine_config with
  | None => _build_engine_error_result engine_name engine_name "Unknown error"
  | Some engine_config =>
      if negb (truthy engine_config)
      then _build_engine_error_result engine_name engine_name "Unknown error"
      else
        engine <- _load_and_create_engine engine_config engine_path engine_name ;;
        match engine with
        | None => _build_engine_error_result engine_name engine_name "Unknown error"
        | Some engine =>
            engine_metadata <-
              _start_and_register_engine engine engine_config engine_path ;;
            service_id <- lift (py_getitem (PDict engine_metadata) "service_id") ;;
            service_name <- lift (py_getitem (PDict engine_metadata) "service_name") ;;
            version <- lift (py_getitem (PDict engine_metadata) "version") ;;
            engine_type <- lift (py_getitem (PDict engine_metadata) "engine_type") ;;
            ret [ ("service_id", service_id);
                  ("service_name", service_name);
                  ("version", version);
                  ("engine_type", engine_type);
                  ("status", PStr "valid") ]
        end
  end.

(** [ServiceRegistry._process_engine] *)
Definition _process_engine (engine_name engine_path : string) : M dict :=
  let engine_dir := _get_engine_dir engine_path in
  engine_json_path <- _find_engine_config_file engine_dir engine_name ;;
  match engine_json_path with
  | None =>
      _build_engine_error_result engine_name engine_name
        (missing_config_reason engine_dir)
  | Some engine_json_path =>
      try_except (process_engine_body engine_name engine_path engine_json_path)
        (fun e =>
           match exn_cls e with
           | JSONDecodeError =>
               _build_engine_error_result engine_name engine_name
                 ("Invalid engine.json format: " +:+ exn_msg e)
           | _ =>
               _build_engine_error_result engine_name engine_name
                 ("Error loading engine: " +:+ exn_msg e)
           end)
  end.
End Discovery.

(** [ServiceRegistry.discover_engines]: the directory walk yields, in order,
    the engine directories that have a manifest and an implementation file;
    each comes with what the outside world answers while it is processed. *)
Fixpoint discover_engines (h : host)
    (found : list (string * string * env)) : M (list dict) :=
  match found with
  | [] => ret []
  | (engine_name, engine_file, ev) :: rest =>
      engine_info <- _process_engine h ev engine_name engine_file ;;
      result <- discover_engines h rest ;;
      ret (engine_info :: result)
  end.

(** *** Removal, health and the services of the store *)

(** [ServiceRegistry.get_business] *)
Definition get_business (self : t) (business_id : string) : option dict :=
  businesses self !! business_id.

(** [ServiceRegistry.unregister_service] *)
Definition unregister_service (service_id : string) : M bool :=
  modify (fun self =>
    {| engines := delete service_id (engines self);
       businesses := delete service_id (businesses self);
       services := delete service_id (services self);
       registered_engines := registered_engines self;
       db_manager := db_manager self |}) ;;;
  with_db (fun db => DB.delete_service db service_id) ;;;
  ret true.

(** The two assignments [d["status"] = ...] and [if reason: d["reason"] =
    reason] that [update_service_health] performs on a dictionary. *)
Definition set_health (is_healthy : bool) (reason : pyval) (d : dict) : dict :=
  let d := dict_set "status" (PStr (if is_healthy then "valid" else "invalid")) d in
  if truthy reason then dict_set "reason" reason d else d.

(** [ServiceRegistry.update_service_health(service_id, is_healthy, reason)];
    [now] is the reading of the clock in [update_service_status]. *)
Definition update_service_health (now : Z) (service_id : string)
    (is_healthy : bool) (reason : pyval) : M bool :=
  let status := if is_healthy then DB.VALID else DB.INVALID in
  db_update_result <- db_update_status now (PStr service_id) status reason ;;
  (if (db_update_result : bool) then
     modify (fun self =>
       match services self !! service_id with
       | None => self
       | Some service_info =>
           {| engines :=
                match engines self !! service_id with
                | Some engine =>
                    <[service_id :=
                        BaseEngine.with_self engine
                          (BaseEngine.set_status_attr (BaseEngine.self engine)
                             (if is_healthy then "running" else "failed"))]>
                      (engines self)
                | None => engines self
                end;
              businesses :=
                match businesses self !! service_id with
                | Some business =>
                    <[service_id := set_health is_healthy reason business]>
                      (businesses self)
                | None => businesses self
                end;
              services :=
                <[service_id :=
                    {| type := type service_info;
                       info := set_health is_healthy reason (info service_info) |}]>
                  (services self);
              registered_engines := registered_engines self;
              db_manager := db_manager self |}
       end)
   else ret tt) ;;;
  ret db_update_result.

(** The dictionary [{"healthy": [...], "unhealthy": [...]}] that
    [check_all_services_health] fills: the ids, and the ids with their
    reasons. *)
Record health_report := mk_report {
  healthy : list string;
  unhealthy : list (string * pyval)
}.

(** [result["healthy"].append(service_id)] or
    [result["unhealthy"].append({"service_id": ..., "reason": reason or default})] *)
Definition record_health (service_id : string) (is_healthy : bool)
    (reason : pyval) (default : string) (result : health_report) : health_report :=
  if is_healthy
  then {| healthy := healthy result ++ [service_id]; unhealthy := unhealthy result |}
  else {| healthy := healthy result;
          unhealthy :=
            unhealthy result
              ++ [(service_id, if truthy reason then reason else PStr default)] |}.

(** [ServiceRegistry._check_single_memory_service_health] *)
Definition _check_single_memory_service_health (self : t) (service_id : string)
    (service_info : service_entry) : bool * pyval :=
  let status := dict_get_default "status" PNone (info service_info) in
  let reason := dict_get_default "reason" PNone (info service_info) in
  let is_healthy := eq_str status "valid" in
  let '(is_healthy, reason) :=
    if negb is_healthy then
      match db_manager self with
      | Some db =>
          match DB.get_service db service_id with
          | Some service =>
              (match DB.status service with DB.VALID => true | _ => false end,
               DB.reason service)
          | None => (is_healthy, reason)
          end
      | None => (is_healthy, reason)
      end
    else (is_healthy, reason) in
  if String.eqb (type service_info) "engine" then
    match engines self !! service_id with
    | Some engine =>
        if negb (String.eqb (BaseEngine.status (BaseEngine.self engine)) "running")
        then (false,
              PStr ("Engine status: " +:+ BaseEngine.status (BaseEngine.self engine)))
        else (is_healthy, reason)
    | None => (is_healthy, reason)
    end
  else (is_healthy, reason).

(** [ServiceRegistry._check_memory_services_health] *)
Definition _check_memory_services_health (self : t) (result : health_report)
    : health_report :=
  fold_left
    (fun result entry =>
       let verdict := _check_single_memory_service_health self (fst entry) (snd entry) in
       record_health (fst entry) (fst verdict) (snd verdict)
         "Unknown health issue" result)
    (map_to_list (services self)) result.

(** [ServiceRegistry._check_single_db_service_health] *)
Definition _check_single_db_service_health (db : DB.t) (service_id : string)
    (result : health_report) : health_report :=
  match DB.get_service db service_id with
  | None => result
  | Some service =>
      match DB.status service with
      | DB.VALID => record_health service_id true PNone "" result
      | _ =>
          record_health service_id false (DB.reason service)
            "Service not in memory" result
      end
  end.

(** [ServiceRegistry._check_db_services_health]: the rows whose id is not
    in memory, in the order in which the set difference is traversed. *)
Definition _check_db_services_health (self : t) (result : health_report)
    : health_report :=
  match db_manager self with
  | None => result
  | Some db =>
      let db_service_ids := map DB.service_id (DB.list_services db) in
      let missing_services :=
        filter (fun service_id => services self !! service_id = None)
          (remove_dups db_service_ids) in
      fold_left (fun result service_id =>
                   _check_single_db_service_health db service_id result)
        missing_services result
  end.

(** [ServiceRegistry.check_all_services_health] *)
Definition check_all_services_health (self : t) : health_report :=
  _check_db_services_health self
    (_check_memory_services_health self {| healthy := []; unhealthy := [] |}).

(** The ids that a report mentions. *)
Definition reported (result : health_report) : list string :=
  healthy result ++ (unhealthy result).*1.


(** What the registry obtains from outside while it processes one business
    directory. *)
Record business_env := mk_business_env {
  (** [os.path.exists(business_path/service.json)] *)
  service_json_exists : bool;
  (** [json.load(open(business_path/service.json))] *)
  read_service_json : res pyval;
  (** [json.dumps(value)] *)
  json_dumps : pyval -> string;
  (** [datetime.now()] *)
  business_now : Z
}.

Section Businesses.
Variable h : host.
Variable bw : business_env.

(** The result of [_process_business] for a directory that is not
    registered. *)
Definition business_error_result (service_id service_name reason : pyval) : dict :=
  [ ("service_id", service_id);
    ("service_name", service_name);
    ("status", PStr "invalid");
    ("reason", reason) ].

(** The body of the [try] block of [_process_business].  The registries
    are keyed by strings: a manifest whose [service_id] is of another type
    ends in the [except] branch.  The list [registered_businesses], which
    only feeds the log of [discover_services], is not kept. *)
Definition process_business_body (business_name business_path : string) : M dict :=
  service_info <- lift (read_service_json bw) ;;
  validation_result <- lift (Standards.validate_service_json h service_info) ;;
  valid <- lift (py_getitem validation_result "valid") ;;
  if negb (truthy valid) then
    service_id <- lift (py_get service_info "service_id" (PStr business_name)) ;;
    reason <- lift (py_getitem validation_result "reason") ;;
    db_update_status (business_now bw) service_id DB.INVALID reason ;;;
    service_name <- lift (py_get service_info "service_name" service_id) ;;
    reason <- lift (py_getitem validation_result "reason") ;;
    ret (business_error_result service_id service_name reason)
  else
    has_database <- lift (py_in "database" service_info) ;;
    no_database <-
      (if negb has_database then ret true
       else database <- lift (py_getitem service_info "database") ;;
            ret (negb (truthy database))) ;;
    if (no_database : bool) then
      service_id <- lift (py_getitem service_info "service_id") ;;
      db_update_status (business_now bw) service_id DB.INVALID
        (PStr "Missing database configuration") ;;;
      service_name <- lift (py_getitem service_info "service_name") ;;
      version <- lift (py_getitem service_info "version") ;;
      ret [ ("service_id", service_id);
            ("service_name", service_name);
            ("version", version);
            ("status", PStr "invalid");
            ("reason", PStr "Missing database configuration") ]
    else
      db_config <- lift (py_getitem service_info "database") ;;
      service_id <- lift (py_getitem service_info "service_id") ;;
      service_name <- lift (py_getitem service_info "service_name") ;;
      version <- lift (py_getitem service_info "version") ;;
      description <- lift (py_get service_info "description" (PStr "")) ;;
      apis <- lift (py_get service_info "apis" (PList [])) ;;
      let business_info :=
        [ ("service_id", service_id);
          ("service_name", service_name);
          ("version", version);
          ("description", description);
          ("database", db_config);
          ("apis", apis);
          ("status", PStr "valid");
          ("business_path", PStr business_path) ] in
      match service_id with
      | PStr sid =>
          modify (fun self =>
            {| engines := engines self;
               businesses := <[sid := business_info]> (businesses self);
               services :=
                 <[sid := {| type := "business"; info := business_info |}]>
                   (services self);
               registered_engines := registered_engines self;
               db_manager := db_manager self |}) ;;;
          let db_service_info :=
            {| DB.b_service_id := sid; DB.b_service_name := service_name;
               DB.b_version := version; DB.b_status := DB.VALID;
               DB.b_description := description;
               DB.b_database_config := json_dumps bw db_config;
               DB.b_api_config := json_dumps bw apis;
               DB.b_business_path := business_path |} in
          call_db (fun db =>
            if DB.service_exists db sid
            then DB.update_business db sid db_service_info
            else DB.add_business db db_service_info) ;;;
          ret business_info
      | _ => raise (mk_exn TypeError "service_id is not a string")
      end.

(** [ServiceRegistry._process_business] *)
Definition _process_business (business_name business_path : string) : M dict :=
  if negb (service_json_exists bw) then
    db_update_status (business_now bw) (PStr business_name) DB.INVALID
      (PStr "Missing service.json file") ;;;
    ret (business_error_result (PStr business_name) (PStr business_name)
           (PStr "Missing service.json file"))
  else
    try_except (process_business_body business_name business_path)
      (fun e =>
         let reason :=
           match exn_cls e with
           | JSONDecodeError => "Invalid service.json format: " +:+ exn_msg e
           | _ => "Error processing business: " +:+ exn_msg e
           end in
         db_update_status (business_now bw) (PStr business_name) DB.INVALID
           (PStr reason) ;;;
         ret (business_error_result (PStr business_name) (PStr business_name)
                (PStr reason))).
End Businesses.


Section LoadFromStore.
(** [json.loads(text)] *)
Variable json_loads : string -> res pyval.

(** The dictionary [service_info] that [_process_business_service] and
    [_process_engine_service] build from a row. *)
Definition row_info (db_service : DB.row) : dict :=
  [ ("service_id", PStr (DB.service_id db_service));
    ("service_name", DB.service_name db_service);
    ("version", DB.version db_service);
    ("status", PStr (DB.status_value (DB.status db_service)));
    ("reason", DB.reason db_service);
    ("description", DB.description db_service) ].

(** [json.loads(column)] guarded by [except json.JSONDecodeError], which
    puts [fallback] in its place. *)
Definition loads_or (column : string) (fallback : pyval) : res pyval :=
  match json_loads column with
  | Ok v => Ok v
  | Raise e =>
      match exn_cls e with
      | JSONDecodeError => Ok fallback
      | _ => Raise e
      end
  end.

(** [ServiceRegistry._process_business_service] *)
Definition _process_business_service (db_service : DB.row) (service_id : string)
    : M unit :=
  let business_info := row_info db_service in
  business_info <-
    match DB.database_config db_service with
    | Some column =>
        if truthy (PStr column)
        then database <- lift (loads_or column (PDict [])) ;;
             ret (dict_set "database" database business_info)
        else ret business_info
    | None => ret business_info
    end ;;
  business_info <-
    match DB.api_config db_service with
    | Some column =>
        if truthy (PStr column)
        then apis <- lift (loads_or column (PList [])) ;;
             ret (dict_set "apis" apis business_info)
        else ret business_info
    | None => ret business_info
    end ;;
  let business_info :=
    dict_set "business_path"
      (match DB.business_path db_service with Some p => PStr p | None => PNone end)
      business_info in
  modify (fun self =>
    {| engines := engines self;
       businesses := <[service_id := business_info]> (businesses self);
       services :=
         <[service_id := {| type := "business"; info := business_info |}]>
           (services self);
       registered_engines := registered_engines self;
       db_manager := db_manager self |}).

(** [ServiceRegistry._process_engine_service] *)
Definition _process_engine_service (db_service : DB.row) (service_id : string)
    : M unit :=
  let engine_info :=
    dict_set "engine_type"
      (match DB.engine_type db_service with
       | Some t => PStr (DB.engine_type_value t)
       | None => PNone
       end)
      (row_info db_service) in
  modify (fun self =>
    {| engines := engines self;
       businesses := businesses self;
       services :=
         <[service_id := {| type := "engine"; info := engine_info |}]>
           (services self);
       registered_engines := registered_engines self;
       db_manager := db_manager self |}).

(** [ServiceRegistry._process_db_service]: an exception is logged, the row
    is skipped. *)
Definition _process_db_service (db_service : DB.row) (self : t) : t :=
  let service_id := DB.service_id db_service in
  if negb (truthy (PStr service_id)) then self
  else
    snd (try_except
           (match DB.service_type db_service with
            | DB.BUSINESS => _process_business_service db_service service_id
            | DB.ENGINE => _process_engine_service db_service service_id
            end)
           (fun _ => ret tt) self).

(** [ServiceRegistry._load_services_from_db] *)
Definition _load_services_from_db (self : t) : t :=
  let self :=
    {| engines := ∅; businesses := ∅; services := ∅;
       registered_engines := registered_engines self;
       db_manager := db_manager self |} in
  match db_manager self with
  | None => self
  | Some db =>
      fold_left (fun self db_service => _process_db_service db_service self)
        (DB.list_services db) self
  end.
End LoadFromStore.

(** [ServiceRegistry.list_services()] without a filter, as [map_apis]
    calls it: the id of every service with its type and the copy of its
    info, to which the [business_path] column is added for a business that
    has a row.  The [database_info] entry, which [map_all_apis] does not
    read, is not kept, and the services come in the order of the table, not
    in the order of their registration.  The first service makes the
    method read the store. *)
Definition list_services (self : t) : res (list (string * service_entry)) :=
  match map_to_list (services self) with
  | [] => Ok []
  | entries =>
      match db_manager self with
      | None => Raise (mk_exn AttributeError "'NoneType' object has no attribute")
      | Some db =>
          Ok (map (fun entry : string * service_entry =>
                     let service_info := snd entry in
                     (fst entry,
                      {| type := type service_info;
                         info :=
                           if String.eqb (type service_info) "business" then
                             match DB.get_service db (fst entry) with
                             | Some db_service =>
                                 dict_set "business_path"
                                   (match DB.business_path db_service with
                                    | Some p => PStr p
                                    | None => PNone
                                    end)
                                   (info service_info)
                             | None => info service_info
                             end
                           else info service_info |}))
                entries)
      end
  end.

(** No engine of the registry has an [apis] entry in its info. *)
Definition undocumented (self : t) : Prop :=
  forall service_id service_info,
    services self !! service_id = Some service_info ->
    type service_info = "engine" ->
    dict_mem "apis" (info service_info) = false.

(** A method writes no engine with an [apis] entry. *)
Definition keeps_undocumented {A} (m : M A) : Prop :=
  forall self, undocumented self -> undocumented (snd (m self)).

(** A method keeps the database manager of the registry in place. *)
Definition keeps_db {A} (m : M A) : Prop :=
  forall self, is_Some (db_manager self) -> is_Some (db_manager (snd (m self))).

(** The status that an entry of the discovery result carries. *)
Definition entry_status (entry : dict) : option pyval := dict_get "status" entry.

End ServiceRegistry.

(** ** [LinkGateway/service_proxy.py] *)

Module ServiceProxy.

Section ForwardRequest.
(** Paths of [BaseEngine/base.py] and [LinkGateway/service_proxy.py]. *)
Variables base_py service_proxy_py : string.

(** [ServiceProxy.forward_request(engine_id, action, data)] *)
Definition forward_request (registry : ServiceRegistry.t)
    (callers : list BaseEngine.frame_info)
    (engine_id action : string) (data : pyval) : dict :=
  if negb (truthy (PStr engine_id)) then
    [ ("status", PStr "error"); ("error", PStr "Engine ID cannot be empty") ]
  else if negb (truthy (PStr action)) then
    [ ("status", PStr "error"); ("error", PStr "Action cannot be empty") ]
  else
    let data := match data with PDict d => d | _ => [("data", data)] end in
    match ServiceRegistry.get_engine registry engine_id with
    | None =>
        [ ("status", PStr "error");
          ("error", PStr ("Engine " +:+ engine_id +:+ " not found"));
          ("engine_id", PStr engine_id) ]
    | Some engine =>
        if negb (ServiceRegistry.check_service_health registry engine_id) then
          [ ("status", PStr "error");
            ("error", PStr ("Engine " +:+ engine_id +:+ " is not healthy"));
            ("engine_id", PStr engine_id) ]
        else
          let stack :=
            BaseEngine.stack_in_validate base_py
              (BaseEngine.mk_frame service_proxy_py "forward_request" :: callers) in
          match BaseEngine.handle_request engine stack action data with
          | Ok result =>
              let result :=
                match result with PDict d => d | _ => [("result", result)] end in
              let result :=
                if negb (dict_mem "status" result)
                then dict_set "status" (PStr "success") result else result in
              let result := dict_set "engine_id" (PStr engine_id) result in
              dict_set "action" (PStr action) result
          | Raise e =>
              [ ("status", PStr "error");
                ("error", PStr (exn_msg e));
                ("action", PStr action);
                ("engine_id", PStr engine_id) ]
          end
    end.
End ForwardRequest.

(** *** The proxy route *)

(** What the proxy route reads from FastAPI's [Request]: the HTTP method
    and the query parameters in the order of the URL. *)
Record http_request := mk_request {
  method : string;
  query_params : list (string * string)
}.

(** [dict(request.query_params)]: a repeated parameter keeps the position
    of its first occurrence and the value of its last. *)
Definition dict_of_params (params : list (string * string)) : dict :=
  fold_left (fun d kv => dict_set (fst kv) (PStr (snd kv)) d) params [].

(** [ServiceProxy._extract_action_and_data(request, body)]; [body] is what
    [_parse_request_body] returned. *)
Definition _extract_action_and_data (request : http_request) (body : pyval)
    : res (pyval * pyval) :=
  if String.eqb (method request) "GET" then
    let action := dict_get_default "action" PNone (dict_of_params (query_params request)) in
    let data := dict_of_params (query_params request) in
    let data := if dict_mem "action" data then dict_del "action" data else data in
    let data := dict_set "request_method" (PStr (method request)) data in
    Ok (action, PDict data)
  else
    match body with
    | PDict b =>
        let action := dict_get_default "action" PNone b in
        let data := dict_get_default "data" (PDict []) b in
        let '(action, data) :=
          if negb (truthy action) then
            let action := dict_get_default "action" PNone b in
            if truthy action
            then (action,
                  PDict (filter (fun kv => negb (String.eqb (fst kv) "action")) b))
            else (action, data)
          else (action, data) in
        match data with
        | PDict d =>
            Ok (action, PDict (dict_set "request_method" (PStr (method request)) d))
        | _ => Raise (mk_exn TypeError "object does not support item assignment")
        end
    | _ => Ok (PNone, PDict [])
    end.

(** How a call of the proxy route ends: it returns a value, it raises an
    [HTTPException], or it returns the [HTTPException] object that
    [_handle_proxy_error] built. *)
Inductive outcome :=
| Returned (result : pyval)
| HTTPException (status_code : Z) (detail : dict)
| ReturnedHTTPException (status_code : Z) (detail : dict).

(** [ServiceProxy._validate_action]: the exception it raises, if any. *)
Definition _validate_action (action : pyval) : option (Z * dict) :=
  if negb (truthy action)
  then Some (400%Z, [("error", PStr "Missing 'action' field")])
  else None.

(** [ServiceProxy._validate_engine_health]: the exception it raises, if
    any. *)
Definition _validate_engine_health (registry : ServiceRegistry.t)
    (engine_id : string) : option (Z * dict) :=
  match ServiceRegistry.get_engine registry engine_id with
  | None =>
      Some (404%Z, [("error", PStr ("Engine " +:+ engine_id +:+ " not found"))])
  | Some _ =>
      if negb (ServiceRegistry.check_service_health registry engine_id)
      then Some (503%Z,
                 [("error", PStr ("Engine " +:+ engine_id +:+ " is not healthy"))])
      else None
  end.

(** [ServiceProxy._handle_proxy_error]: the detail of the exception object. *)
Definition _handle_proxy_error (error : exn) (engine_id : string) : dict :=
  [ ("status", PStr "error");
    ("error", PStr ("Proxy request failed: " +:+ exn_msg error));
    ("engine_id", PStr engine_id) ].

Section ProxyRoute.
(** Paths of [BaseEngine/base.py] and [LinkGateway/service_proxy.py]. *)
Variables base_py service_proxy_py : string.

(** [ServiceProxy._call_engine(engine_id, action, data)]; [callers] are the
    frames below [_call_engine] on the stack. *)
Definition _call_engine (registry : ServiceRegistry.t)
    (callers : list BaseEngine.frame_info)
    (engine_id action : string) (data : dict) : dict :=
  match ServiceRegistry.get_engine registry engine_id with
  | None =>
      [ ("status", PStr "error");
        ("error", PStr "'NoneType' object has no attribute 'handle_request'");
        ("action", PStr action);
        ("engine_id", PStr engine_id) ]
  | Some engine =>
      let stack :=
        BaseEngine.stack_in_validate base_py
          (BaseEngine.mk_frame service_proxy_py "_call_engine" :: callers) in
      match BaseEngine.handle_request engine stack action data with
      | Ok result =>
          let result :=
            match result with PDict d => d | _ => [("result", result)] end in
          if negb (dict_mem "status" result)
          then dict_set "status" (PStr "success") result else result
      | Raise e =>
          [ ("status", PStr "error");
            ("error", PStr (exn_msg e));
            ("action", PStr action);
            ("engine_id", PStr engine_id) ]
      end
  end.

(** The route [proxy_request(engine_id, request)] that [_setup_routes]
    installs.  The engines of this development take a string as action: a
    request whose action is a true value of another type is outside of it
    ([None]). *)
Definition proxy_request (registry : ServiceRegistry.t)
    (callers : list BaseEngine.frame_info)
    (engine_id : string) (request : http_request) (body : pyval)
    : option outcome :=
  match _extract_action_and_data request body with
  | Raise e => Some (ReturnedHTTPException 500 (_handle_proxy_error e engine_id))
  | Ok (action, data) =>
      match _validate_action action with
      | Some (status_code, detail) => Some (HTTPException status_code detail)
      | None =>
          match _validate_engine_health registry engine_id with
          | Some (status_code, detail) => Some (HTTPException status_code detail)
          | None =>
              match action, data with
              | PStr action, PDict data =>
                  Some (Returned
                          (PDict (_call_engine registry
                                    (BaseEngine.mk_frame service_proxy_py "proxy_request"
                                       :: callers)
                                    engine_id action data)))
              | _, _ => None
              end
          end
      end
  end.
End ProxyRoute.

End ServiceProxy.

(** ** [LinkGateway/api_mapper.py] *)

Module APIMapper.

(** First step of [_normalize_path]: make sure the path starts with a
    slash. *)
Definition with_leading_slash (path : string) : string :=
  if negb (startswith "/" path) then "/" +:+ path else path.

(** Second step of [_normalize_path]: [path[:-1]] when the path is not the
    root and ends with a slash. *)
Definition without_trailing_slash (path : string) : string :=
  if negb (String.eqb path "/") && endswith "/" path
  then drop_last path else path.

(** [APIMapper._normalize_path] *)
Definition _normalize_path (path : string) : string :=
  if negb (truthy (PStr path)) then ""
  else without_trailing_slash (with_leading_slash path).

(** Paths whose trailing slash is not doubled, and the path ["//"]: the
    slice [path[:-1]] removes one character, so these are the inputs on
    which one pass of [_normalize_path] leaves no trailing slash behind. *)
Definition single_trailing_slash (p : string) : Prop :=
  endswith "//" p = false \/ p = "//".

(** [_normalize_path] applied to a value read from a manifest: a falsy
    value gives [""], a string is normalised, anything else has no
    [startswith]. *)
Definition normalize_value (path : pyval) : res string :=
  if negb (truthy path) then Ok ""
  else match path with
       | PStr p => Ok (_normalize_path p)
       | _ => Raise (mk_exn AttributeError "object has no attribute 'startswith'")
       end.

(** A route handler; [functools.partial] objects and the like have no
    [__name__]. *)
Record endpoint := mk_endpoint { __name__ : option string }.

(** An [APIRoute] held by a router. *)
Record route := mk_route {
  route_path : string;
  route_methods : list string;
  route_name : string;
  route_description : pyval;
  route_summary : pyval
}.

Record APIRouter := mk_router { prefix : string; routes : list route }.

(** A value of [self.api_registry]. *)
Record api_info := mk_api_info {
  ai_service_id : string;
  ai_path : string;
  ai_full_path : string;
  ai_methods : list string;
  ai_endpoint : string;
  ai_description : pyval;
  ai_tags : pyval;
  ai_responses : pyval;
  ai_request_body : pyval;
  ai_parameters : pyval;
  ai_summary : pyval;
  ai_registered_at : string
}.

(** An element of [self.registered_apis]. *)
Record api_register_info := mk_register_info {
  ri_service_id : string;
  ri_path : string;
  ri_methods : list string;
  ri_endpoint : string
}.

Record t := mk {
  routers : gmap string APIRouter;
  main_router : APIRouter;
  api_registry : gmap string api_info;
  registered_apis : list api_register_info
}.

Abbreviation M := (Py.M t).

Definition set_routers (self : t) (r : gmap string APIRouter) : t :=
  {| routers := r; main_router := main_router self;
     api_registry := api_registry self;
     registered_apis := registered_apis self |}.

Definition set_api_registry (self : t) (r : gmap string api_info) : t :=
  {| routers := routers self; main_router := main_router self;
     api_registry := r; registered_apis := registered_apis self |}.

Definition set_registered_apis (self : t) (l : list api_register_info) : t :=
  {| routers := routers self; main_router := main_router self;
     api_registry := api_registry self; registered_apis := l |}.

Definition set_main_router (self : t) (r : APIRouter) : t :=
  {| routers := routers self; main_router := r;
     api_registry := api_registry self;
     registered_apis := registered_apis self |}.

(** [APIMapper.__init__] *)
Definition __init__ : t :=
  {| routers := ∅; main_router := mk_router "" [];
     api_registry := ∅; registered_apis := [] |}.

(** What the mapper obtains from FastAPI, the file system and the route
    modules of the business services. *)
Record world := mk_world {
  (** [router.add_api_route(path, endpoint, **kwargs)] *)
  router_add_api_route : APIRouter -> string -> endpoint -> dict -> res APIRouter;
  (** [json.load(open(business_path/service.json))] *)
  read_service_json : string -> res pyval;
  (** the router after the route module of the service has been imported
      and has populated it; failures of the import are caught and logged by
      [map_business_apis] itself *)
  load_route_module : string -> string -> pyval -> APIRouter -> APIRouter;
  (** [datetime.datetime.now().isoformat()] *)
  now_iso : string
}.

(** [APIMapper._check_path_conflict]; every caller passes a list of
    strings for [methods]. *)
Definition _check_path_conflict (self : t) (full_path : string)
    (methods : list string) (service_id : string) : bool :=
  match api_registry self !! full_path with
  | Some existing_api => intersects methods (ai_methods existing_api)
  | None => false
  end.

(** [APIMapper.create_router] *)
Definition create_router (self : t) (service_id api_prefix : string)
    : APIRouter * t :=
  let normalized_prefix := _normalize_path api_prefix in
  let router := mk_router normalized_prefix [] in
  (router, set_routers self (<[service_id := router]> (routers self))).

(** An element of the [services] argument of [map_all_apis]. *)
Record service := mk_service {
  s_service_id : string;
  s_type : string;
  s_info : dict
}.

Section WithHost.
Variable h : host.
Variable w : world.

(** [[m.upper() for m in methods]] *)
Fixpoint upper_each (l : list pyval) : res (list string) :=
  match l with
  | [] => Ok []
  | PStr m :: rest => bind (upper_each rest) (fun ms => Ok (upper h m :: ms))
  | _ :: _ => Raise (mk_exn AttributeError "object has no attribute 'upper'")
  end.

(** The HTTP methods that [add_api_route] derives from its keyword
    arguments. *)
Definition requested_methods (kwargs : dict) : res (list string) :=
  let methods := dict_get_default "methods" (PList [PStr "GET"]) kwargs in
  let methods := match methods with PStr m => PList [PStr m] | _ => methods end in
  match methods with
  | PList l => upper_each l
  | PDict d => Ok (map (fun kv => upper h (fst kv)) d)
  | _ => Raise (mk_exn TypeError "object is not iterable")
  end.

(** The router that [add_api_route] uses for [service_id], creating it
    when the service has none. *)
Definition router_for (self : t) (service_id : string) : APIRouter * t :=
  match routers self !! service_id with
  | Some router => (router, self)
  | None => create_router self service_id ""
  end.

(** The full path that [add_api_route] computes. *)
Definition full_path_of (router : APIRouter) (path : string) : string :=
  let normalized_path := _normalize_path path in
  if truthy (PStr (prefix router))
  then prefix router +:+ normalized_path
  else normalized_path.

(** The full path that a call [add_api_route(service_id, path, ...)]
    targets in the mapper [self]. *)
Definition target_path (self : t) (service_id path : string) : string :=
  full_path_of (fst (router_for self service_id)) path.

(** [APIMapper.add_api_route(service_id, path, endpoint, **kwargs)] *)
Definition add_api_route (self : t) (service_id path : string)
    (endpoint : endpoint) (kwargs : dict) : bool * t :=
  let '(router, self) := router_for self service_id in
  let normalized_path := _normalize_path path in
  let full_path := full_path_of router path in
  match requested_methods kwargs with
  | Raise _ => (false, self)
  | Ok methods =>
      if _check_path_conflict self full_path methods service_id
      then (false, self)
      else
        match router_add_api_route w router normalized_path endpoint kwargs with
        | Raise _ => (false, self)
        | Ok router =>
            let self := set_routers self (<[service_id := router]> (routers self)) in
            match __name__ endpoint with
            | None => (false, self)
            | Some name =>
                let api_info :=
                  {| ai_service_id := service_id;
                     ai_path := normalized_path;
                     ai_full_path := full_path;
                     ai_methods := methods;
                     ai_endpoint := name;
                     ai_description := dict_get_default "description" (PStr "") kwargs;
                     ai_tags := dict_get_default "tags" (PList []) kwargs;
                     ai_responses := dict_get_default "responses" (PDict []) kwargs;
                     ai_request_body := dict_get_default "request_body" PNone kwargs;
                     ai_parameters := dict_get_default "parameters" (PList []) kwargs;
                     ai_summary := dict_get_default "summary" (PStr "") kwargs;
                     ai_registered_at := now_iso w |} in
                (true,
                 set_api_registry self
                   (<[full_path := api_info]> (api_registry self)))
            end
        end
  end.

(** [description.split(".")[0]] *)
Fixpoint before_dot (s : string) : string :=
  match s with
  | EmptyString => EmptyString
  | String c s' =>
      if Ascii.eqb c "."%char then EmptyString else String c (before_dot s')
  end.

(** [description.split(".")[0] if description else ""] *)
Definition default_summary (description : pyval) : res pyval :=
  if truthy description then
    match description with
    | PStr d => Ok (PStr (before_dot d))
    | _ => Raise (mk_exn AttributeError "object has no attribute 'split'")
    end
  else Ok (PStr "").

(** [APIMapper._build_api_info] *)
Definition _build_api_info (service_id normalized_path full_path method : string)
    (description tags : pyval) (api : dict) : res api_info :=
  bind (default_summary description) (fun summary =>
    Ok {| ai_service_id := service_id;
          ai_path := normalized_path;
          ai_full_path := full_path;
          ai_methods := [method];
          ai_endpoint := "default_endpoint";
          ai_description := description;
          ai_tags := tags;
          ai_responses := dict_get_default "responses" (PDict []) api;
          ai_request_body := dict_get_default "request_body" PNone api;
          ai_parameters := dict_get_default "parameters" (PList []) api;
          ai_summary := dict_get_default "summary" summary api;
          ai_registered_at := now_iso w |}).

(** The values that [_register_engine_api] reads from one [api] entry:
    the normalised path and the upper-cased method. *)
Definition engine_api_target (api : pyval) : res (string * string) :=
  bind (py_get api "path" (PStr "")) (fun path =>
  bind (py_get api "method" (PStr "GET")) (fun method =>
  bind (match method with
        | PStr m => Ok (upper h m)
        | _ => Raise (mk_exn AttributeError "object has no attribute 'upper'")
        end) (fun method =>
  bind (normalize_value path) (fun normalized_path =>
    Ok (normalized_path, method))))).

(** [APIStandard.ENGINE_API_PREFIX.format(engine_name=service_id)] and
    [APIStandard.SERVICE_API_PREFIX.format(service_id=service_id)] *)
Definition api_prefix_of (service_id : string) : string := "/api/" +:+ service_id.

(** [api.get("description", "")] *)
Definition api_description (api : pyval) : pyval :=
  match api with
  | PDict d => dict_get_default "description" (PStr "") d
  | _ => PNone
  end.

(** An [apis] entry that [_register_engine_api] reads without raising: a
    dictionary whose path, method and description are strings where they
    are present. *)
Definition readable (api : pyval) : bool :=
  is_ok (engine_api_target api) && is_ok (default_summary (api_description api)).

(** The key under which [_register_engine_api] files an entry of the
    engine [service_id], and the method it files. *)
Definition engine_full_path (service_id : string) (api : pyval) : string :=
  match engine_api_target api with
  | Ok (normalized_path, _) =>
      _normalize_path (api_prefix_of service_id) +:+ normalized_path
  | Raise _ => ""
  end.

Definition engine_method (api : pyval) : string :=
  match engine_api_target api with
  | Ok (_, method) => method
  | Raise _ => ""
  end.

(** [APIMapper._register_engine_api] ([router] is not used by the
    method). *)
Definition _register_engine_api (service_id : string) (api : pyval)
    (normalized_prefix : string) : M unit :=
  target <- lift (engine_api_target api) ;;
  let '(normalized_path, method) := target in
  description <- lift (py_get api "description" (PStr "")) ;;
  tags <- lift (py_get api "tags" (PList [PStr service_id])) ;;
  let full_path := normalized_prefix +:+ normalized_path in
  conflict <- gets (fun self => _check_path_conflict self full_path [method] service_id) ;;
  if (conflict : bool) then ret tt
  else
    api_info <-
      lift (_build_api_info service_id normalized_path full_path method
              description tags
              (match api with PDict d => d | _ => [] end)) ;;
    modify (fun self =>
      set_registered_apis
        (set_api_registry self (<[full_path := api_info]> (api_registry self)))
        (registered_apis self ++
           [ {| ri_service_id := service_id; ri_path := full_path;
                ri_methods := [method]; ri_endpoint := ai_endpoint api_info |} ])).

(** [for api in apis: self._register_engine_api(...)] *)
Fixpoint register_engine_apis (service_id : string) (apis : list pyval)
    (normalized_prefix : string) : M unit :=
  match apis with
  | [] => ret tt
  | api :: rest =>
      _register_engine_api service_id api normalized_prefix ;;;
      register_engine_apis service_id rest normalized_prefix
  end.

(** The elements that [for api in apis] visits. *)
Definition iterate (apis : pyval) : res (list pyval) :=
  match apis with
  | PList l => Ok l
  | PDict d => Ok (map (fun kv => PStr (fst kv)) d)
  | PStr s => Ok (map (fun c => PStr (String c EmptyString)) (String.list_ascii_of_string s))
  | _ => Raise (mk_exn TypeError "object is not iterable")
  end.

(** [APIMapper._map_engine_service]; the [result] dictionary is the pair
    of its two lists. *)
Definition _map_engine_service (service_id : string) (info : dict)
    (result : list string * list string) : M (list string * list string) :=
  let apis := dict_get_default "apis" (PList []) info in
  let api_prefix := api_prefix_of service_id in
  let normalized_prefix := _normalize_path api_prefix in
  modify (fun self => snd (create_router self service_id normalized_prefix)) ;;;
  apis <- lift (iterate apis) ;;
  register_engine_apis service_id apis normalized_prefix ;;;
  ret (fst result ++ [service_id], snd result).

(** The registration loop at the end of [map_business_apis]: it is the
    [else] branch of [if router.routes:] and iterates [router.routes]. *)
Definition register_router_route (service_id : string) (self : t) (r : route) : t :=
  let normalized_path := _normalize_path (route_path r) in
  let full_path := normalized_path in
  if negb (_check_path_conflict self full_path (route_methods r) service_id)
  then
    set_registered_apis
      (set_api_registry self
         (<[ full_path :=
               {| ai_service_id := service_id; ai_path := normalized_path;
                  ai_full_path := full_path; ai_methods := route_methods r;
                  ai_endpoint := route_name r;
                  ai_description := route_description r;
                  ai_tags := PList [PStr service_id];
                  ai_responses := PDict []; ai_request_body := PNone;
                  ai_parameters := PList []; ai_summary := route_summary r;
                  ai_registered_at := now_iso w |} ]> (api_registry self)))
      (registered_apis self ++
         [ {| ri_service_id := service_id; ri_path := full_path;
              ri_methods := route_methods r; ri_endpoint := route_name r |} ])
  else self.

(** [main_router.include_router(router)]: the routes of [router] are
    added to the main router. *)
Definition include_router (main router : APIRouter) : APIRouter :=
  mk_router (prefix main) (routes main ++ routes router).

(** [APIMapper.map_business_apis].  Service identifiers and paths are
    strings (they are columns of the descriptor store); a truthy value of
    another type ends in the [except] branch. *)
Definition map_business_apis (business_info : dict) (self : t) : bool * t :=
  let service_id := dict_get_default "service_id" PNone business_info in
  let business_path := dict_get_default "business_path" PNone business_info in
  if negb (truthy service_id) || negb (truthy business_path) then (false, self)
  else
    match service_id, business_path with
    | PStr service_id, PStr business_path =>
        match bind (read_service_json w business_path)
                (fun service_info => py_get service_info "apis" (PList [])) with
        | Raise _ => (false, self)
        | Ok apis =>
            let normalized_prefix := _normalize_path (api_prefix_of service_id) in
            let '(router, self) := create_router self service_id normalized_prefix in
            let router := load_route_module w service_id business_path apis router in
            let self := set_routers self (<[service_id := router]> (routers self)) in
            let self :=
              match routes router with
              | _ :: _ => self
              | [] => fold_left (register_router_route service_id) (routes router) self
              end in
            (true, set_main_router self (include_router (main_router self) router))
        end
    | _, _ => (false, self)
    end.

(** [APIMapper._map_business_service] *)
Definition _map_business_service (service_id : string) (info : dict)
    (result : list string * list string) : M (list string * list string) :=
  fun self =>
    let '(ok, self) := map_business_apis info self in
    if ok then (Ok (fst result ++ [service_id], snd result), self)
    else (Ok (fst result, snd result ++ [service_id]), self).

(** One iteration of the loop of [map_all_apis]. *)
Definition map_service (service : service) (result : list string * list string)
    : M (list string * list string) :=
  try_except
    (if String.eqb (s_type service) "business"
     then _map_business_service (s_service_id service) (s_info service) result
     else if String.eqb (s_type service) "engine"
     then _map_engine_service (s_service_id service) (s_info service) result
     else ret result)
    (fun _ => ret (fst result, snd result ++ [s_service_id service])).

Fixpoint map_services (services : list service) (result : list string * list string)
    (self : t) : (list string * list string) * t :=
  match services with
  | [] => (result, self)
  | service :: rest =>
      match map_service service result self with
      | (Ok result, self) => map_services rest result self
      | (Raise _, self) => map_services rest result self
      end
  end.

(** [APIMapper.map_all_apis(services)]: the lists [success] and [failed]
    of the returned dictionary, and the mapper afterwards. *)
Definition map_all_apis (services : list service) (self : t)
    : (list string * list string) * t :=
  map_services services ([], []) (set_registered_apis self []).
End WithHost.

(** [service["type"] == "engine"] *)
Definition is_engine_service (s : service) : bool := String.eqb (s_type s) "engine".

(** [APIMapper.list_apis] *)
Definition list_apis (self : t) : list api_info :=
  (map_to_list (api_registry self)).*2.

(** [APIMapper.clear_apis] *)
Definition clear_apis (self : t) : t :=
  {| routers := ∅; main_router := mk_router "" [];
     api_registry := ∅; registered_apis := registered_apis self |}.

(** *** Looking up a registered route *)

(** [APIMapper.get_api_info(path, method)]; an entry of the registry is a
    dictionary with twelve keys, hence true. *)
Definition get_api_info (self : t) (path method : string) : option api_info :=
  match api_registry self !! path with
  | Some api_info =>
      if str_in method (ai_methods api_info) then Some api_info else None
  | None => None
  end.

(** The services that [map_all_apis] maps: those of type ["business"] or
    ["engine"]. *)
Definition is_mapped (s : service) : bool :=
  String.eqb (s_type s) "business" || String.eqb (s_type s) "engine".

End APIMapper.

(** ** [LinkGateway/plugin.py]: the hook chain *)

Module PluginManager.

Section Plugins.
(** Everything a plugin can read and write when one of its hooks runs:
    its own attributes and the gateway it holds a reference to. *)
Context {W : Type}.

(** A loaded plugin: its class name and its five request hooks.  A hook
    returns a value ([PNone] for [None]) or raises. *)
Record Plugin := mk_plugin {
  get_name : string;
  on_request_incoming : pyval -> W -> res pyval * W;
  on_service_calling_engine : string -> string -> string -> dict -> W -> res pyval * W;
  on_engine_responding : string -> string -> dict -> W -> res pyval * W;
  on_route_matching : string -> string -> W -> res pyval * W;
  on_response_outgoing : pyval -> W -> res pyval * W
}.

(** The manager: the plugin table in insertion order and what it wrote to
    its error log.  [invoked] lists the plugins whose hook was called, in
    call order; the code keeps no such list, it is what an observer of the
    calls sees. *)
Record t := mk {
  plugins : list (string * Plugin);
  errors : list string;
  invoked : list string
}.

Definition log_error (self : t) (msg : string) : t :=
  {| plugins := plugins self; errors := errors self ++ [msg];
     invoked := invoked self |}.

Definition note_call (self : t) (p : Plugin) : t :=
  {| plugins := plugins self; errors := errors self;
     invoked := invoked self ++ [get_name p] |}.

(** [PluginManager._register_plugin]: [self.plugins[plugin.get_name()] = plugin] *)
Definition _register_plugin (self : t) (plugin : Plugin) : t :=
  {| plugins := dict_set (get_name plugin) plugin (plugins self);
     errors := errors self; invoked := invoked self |}.

(** The loop shared by [notify_request_incoming], [notify_route_matching]
    and [notify_response_outgoing]:
    [for plugin in self.plugins.values(): try: r = plugin.hook(...);]
    [if r is not None: return r; except Exception as e: log]; [return None]. *)
Fixpoint first_response (call : Plugin -> W -> res pyval * W) (what : string)
    (ps : list Plugin) (self : t) (w : W) : pyval * t * W :=
  match ps with
  | [] => (PNone, self, w)
  | plugin :: rest =>
      let self := note_call self plugin in
      match call plugin w with
      | (Ok response, w) =>
          if negb (is_none response) then (response, self, w)
          else first_response call what rest self w
      | (Raise e, w) =>
          first_response call what rest
            (log_error self
               (what +:+ "，插件: " +:+ get_name plugin +:+ "，错误: " +:+ exn_msg e))
            w
      end
  end.

(** The loop shared by [notify_service_calling_engine] and
    [notify_engine_responding]:
    [for plugin in self.plugins.values(): try: plugin.hook(...);]
    [except Exception as e: log]. *)
Fixpoint notify_each (call : Plugin -> W -> res pyval * W) (what : string)
    (ps : list Plugin) (self : t) (w : W) : t * W :=
  match ps with
  | [] => (self, w)
  | plugin :: rest =>
      let self := note_call self plugin in
      match call plugin w with
      | (Ok _, w) => notify_each call what rest self w
      | (Raise e, w) =>
          notify_each call what rest
            (log_error self
               (what +:+ "，插件: " +:+ get_name plugin +:+ "，错误: " +:+ exn_msg e))
            w
      end
  end.

(** [PluginManager.notify_request_incoming] *)
Definition notify_request_incoming (self : t) (request : pyval) (w : W)
    : pyval * t * W :=
  first_response (fun p => on_request_incoming p request)
    "通知插件请求进入时发生错误" (dict_values (plugins self)) self w.

(** [PluginManager.notify_route_matching] *)
Definition notify_route_matching (self : t) (path method : string) (w : W)
    : pyval * t * W :=
  first_response (fun p => on_route_matching p path method)
    "通知插件路由匹配时发生错误" (dict_values (plugins self)) self w.

(** [PluginManager.notify_response_outgoing] *)
Definition notify_response_outgoing (self : t) (response : pyval) (w : W)
    : pyval * t * W :=
  first_response (fun p => on_response_outgoing p response)
    "通知插件响应返回时发生错误" (dict_values (plugins self)) self w.

(** [PluginManager.notify_service_calling_engine] *)
Definition notify_service_calling_engine (self : t)
    (service_id engine_id action : string) (data : dict) (w : W) : t * W :=
  notify_each (fun p => on_service_calling_engine p service_id engine_id action data)
    "通知插件服务调用引擎时发生错误" (dict_values (plugins self)) self w.

(** [PluginManager.notify_engine_responding] *)
Definition notify_engine_responding (self : t)
    (engine_id action : string) (response : dict) (w : W) : t * W :=
  notify_each (fun p => on_engine_responding p engine_id action response)
    "通知插件引擎响应时发生错误" (dict_values (plugins self)) self w.

(** A plugin lets the chain continue when its hook returns [None] or
    raises. *)
Definition passes (call : Plugin -> W -> res pyval * W) (p : Plugin) (w : W) : bool :=
  match fst (call p w) with
  | Ok response => is_none response
  | Raise _ => true
  end.

(** The state of the world after the hooks of [ps] have run one after the
    other. *)
Definition world_after (call : Plugin -> W -> res pyval * W)
    (ps : list Plugin) (w : W) : W :=
  fold_left (fun w p => snd (call p w)) ps w.

(** Every plugin of [ps] lets the chain continue, each one running in the
    world its predecessors left. *)
Fixpoint all_pass (call : Plugin -> W -> res pyval * W) (ps : list Plugin) (w : W)
    : Prop :=
  match ps with
  | [] => True
  | p :: rest => passes call p w = true /\ all_pass call rest (snd (call p w))
  end.

(** The outcome [out] of a short-circuiting hook over the plugins [ps]:
    either some plugin is the first to return a value, the chain stops
    there and that value is the result; or every plugin passes, all of them
    have been called and the result is [None]. *)
Definition short_circuits (call : Plugin -> W -> res pyval * W)
    (ps : list Plugin) (self : t) (w : W) (out : pyval * t * W) : Prop :=
  (exists pre p post r w',
      ps = pre ++ p :: post
      /\ all_pass call pre w
      /\ call p (world_after call pre w) = (Ok r, w')
      /\ is_none r = false
      /\ out.1.1 = r /\ out.2 = w'
      /\ invoked out.1.2 = invoked self ++ map get_name (pre ++ [p]))
  \/ (all_pass call ps w
      /\ out.1.1 = PNone
      /\ out.2 = world_after call ps w
      /\ invoked out.1.2 = invoked self ++ map get_name ps).

(** The outcome [out] of an observational hook over the plugins [ps]:
    every plugin has been called, in order. *)
Definition runs_all (call : Plugin -> W -> res pyval * W)
    (ps : list Plugin) (self : t) (w : W) (out : t * W) : Prop :=
  out.2 = world_after call ps w
  /\ invoked out.1 = invoked self ++ map get_name ps.

(** The manager before any plugin is loaded. *)
Definition empty : t := {| plugins := []; errors := []; invoked := [] |}.
End Plugins.

Arguments Plugin W : clear implicits.
Arguments t W : clear implicits.

End PluginManager.

(** ** [LinkGateway/gateway.py] *)

Module LinkGateway.

(** [LinkGateway._register_engines_to_inner_comm]: every engine of the
    registry is marked callable and handed to the inner communicator; the
    registry and the communicator hold the same objects. *)
Definition _register_engines_to_inner_comm (registry : ServiceRegistry.t)
    (inner_comm : InnerCommunicator.t)
    : ServiceRegistry.t * InnerCommunicator.t :=
  let allow (e : BaseEngine.engine) :=
    BaseEngine.with_self e
      (BaseEngine.set_allow_direct_call (BaseEngine.self e) true) in
  let marked := allow <$> ServiceRegistry.engines registry in
  ({| ServiceRegistry.engines := marked;
      ServiceRegistry.businesses := ServiceRegistry.businesses registry;
      ServiceRegistry.services := ServiceRegistry.services registry;
      ServiceRegistry.registered_engines := ServiceRegistry.registered_engines registry;
      ServiceRegistry.db_manager := ServiceRegistry.db_manager registry |},
   {| InnerCommunicator.engine_registry :=
        marked ∪ InnerCommunicator.engine_registry inner_comm;
      InnerCommunicator.message_queue := InnerCommunicator.message_queue inner_comm |}).

(** [LinkGateway.map_apis]: the lists [success] and [failed] that it
    returns, and the mapper afterwards.  An exception of [list_services]
    ends in the [except] branch, after the mapper has been cleared. *)
Definition map_apis (h : host) (w : APIMapper.world)
    (registry : ServiceRegistry.t) (api_mapper : APIMapper.t)
    : (list string * list string) * APIMapper.t :=
  let api_mapper := APIMapper.clear_apis api_mapper in
  match ServiceRegistry.list_services registry with
  | Raise _ => (([], []), api_mapper)
  | Ok services =>
      APIMapper.map_all_apis h w
        (map (fun service : string * ServiceRegistry.service_entry =>
                {| APIMapper.s_service_id := fst service;
                   APIMapper.s_type := ServiceRegistry.type (snd service);
                   APIMapper.s_info := ServiceRegistry.info (snd service) |})
           services)
        api_mapper
  end.

End LinkGateway.

(** ** Concrete engines, manifests and registries

    The values on which the statements of Part II are evaluated. *)

Module Samples.
Import BaseEngine.

(** A constructor that only calls [super().__init__(service_name, version,
    engine_type)], as [PermDogEngine.__init__] does. *)
Definition plain_new (uuid4 : string) (service_name version : pyval) : res attrs :=
  Ok (__init__ uuid4 service_name version (PStr "kernel")).

(** [start()] sets the status to ["running"] and returns [True]. *)
Definition starts (a : attrs) : thread_run :=
  Started (Finished (Ok (PBool true)) (set_status_attr a "running")).

(** [start()] does not return before the timeout. *)
Definition sleeps (a : attrs) : thread_run := Started (StillRunning a).

Definition echo (a : attrs) (action : string) (data : dict) : res pyval :=
  Ok (PDict [("action", PStr action)]).

Definition EchoEngine : engine_class := mk_class "EchoEngine" plain_new starts echo.
Definition SleepyEngine : engine_class := mk_class "SleepyEngine" plain_new sleeps echo.

Definition echo_engine : engine :=
  mk_engine (__init__ "0b5e6c1a-7d7f-4a0e-9f53-2a1c8e4d9b10" (PStr "Echo")
               (PStr "1.0.0") (PStr "kernel")) EchoEngine.

Definition manifest (service_id : string) : dict :=
  [ ("service_id", PStr service_id);
    ("service_name", PStr "Echo");
    ("version", PStr "1.0.0");
    ("engine_type", PStr "kernel") ].

(** An engine directory [/srv/engines/echo] with manifest [engine.json]
    and an implementation file that defines the class [cls]. *)
Definition engine_dir (service_id : string) (cls : engine_class) : ServiceRegistry.env :=
  {| ServiceRegistry.os_path_isfile := fun _ => true;
     ServiceRegistry.os_path_dirname := fun _ => "/srv/engines/echo";
     ServiceRegistry.find_config_file := fun _ _ => Some "/srv/engines/echo/engine.json";
     ServiceRegistry.load_json_file := fun _ => Ok (PDict (manifest service_id));
     ServiceRegistry.import_module := fun _ _ => ServiceRegistry.Imported (Ok [cls]);
     ServiceRegistry.now := 0;
     ServiceRegistry.uuid4 := "0b5e6c1a-7d7f-4a0e-9f53-2a1c8e4d9b10" |}.

(** A registry with an empty descriptor store. *)
Definition fresh_registry : ServiceRegistry.t :=
  {| ServiceRegistry.engines := ∅; ServiceRegistry.businesses := ∅;
     ServiceRegistry.services := ∅; ServiceRegistry.registered_engines := [];
     ServiceRegistry.db_manager := Some ∅ |}.

Definition engine_row (service_id : string) : DB.engine_info :=
  {| DB.i_service_id := service_id; DB.i_service_name := PStr service_id;
     DB.i_version := PStr "1.0.0"; DB.i_status := DB.VALID;
     DB.i_reason := PNone; DB.i_description := PStr "";
     DB.i_engine_type := DB.KERNEL; DB.i_engine_path := "/srv/engines" |}.

(** A registry whose descriptor store knows two engines. *)
Definition two_engines : ServiceRegistry.t :=
  {| ServiceRegistry.engines := ∅; ServiceRegistry.businesses := ∅;
     ServiceRegistry.services := ∅; ServiceRegistry.registered_engines := [];
     ServiceRegistry.db_manager :=
       Some (snd (DB.add_service
                    (snd (DB.add_service ∅ (engine_row "file-engine")))
                    (engine_row "permdog"))) |}.

(** pydantic accepting exactly the dictionaries. *)
Definition strict_dict (v : pyval) : res dict :=
  match v with
  | PDict d => Ok d
  | _ => Raise (mk_exn ValidationError "value is not a valid dict")
  end.

Definition base_py : string := "/srv/BaseEngine/base.py".
Definition inner_comm_py : string := "/srv/LinkGateway/inner_comm.py".
Definition service_proxy_py : string := "/srv/LinkGateway/service_proxy.py".

(** An inner communicator that knows [echo_engine] as ["echo"]. *)
Definition one_engine : InnerCommunicator.t :=
  {| InnerCommunicator.engine_registry := {[ "echo" := echo_engine ]};
     InnerCommunicator.message_queue := [] |}.

(** FastAPI accepting every route; no business service on disk. *)
Definition plain_world : APIMapper.world :=
  {| APIMapper.router_add_api_route :=
       fun router path endpoint kwargs =>
         Ok (APIMapper.mk_router (APIMapper.prefix router)
               (APIMapper.routes router ++
                  [APIMapper.mk_route (APIMapper.prefix router +:+ path) []
                     "" PNone PNone]));
     APIMapper.read_service_json :=
       fun _ => Raise (mk_exn OtherError "No such file or directory");
     APIMapper.load_route_module := fun _ _ _ router => router;
     APIMapper.now_iso := "2024-01-01T00:00:00" |}.

Definition api (path method : string) : pyval :=
  PDict [("path", PStr path); ("method", PStr method)].

(** An engine whose documentation declares two methods on one path. *)
Definition posts_engine : APIMapper.service :=
  {| APIMapper.s_service_id := "file-engine";
     APIMapper.s_type := "engine";
     APIMapper.s_info := [("apis", PList [api "/posts" "GET"; api "/posts" "POST"])] |}.

(** An engine whose documentation declares two distinct paths. *)
Definition health_engine : APIMapper.service :=
  {| APIMapper.s_service_id := "file-engine";
     APIMapper.s_type := "engine";
     APIMapper.s_info := [("apis", PList [api "/health" "GET"; api "/posts" "POST"])] |}.

(** Three plugins over a world that counts the hooks that ran: the first
    raises, the second answers, the third passes. *)
Definition plugin (name : string) (hook : nat -> res pyval * nat)
    : PluginManager.Plugin nat :=
  {| PluginManager.get_name := name;
     PluginManager.on_request_incoming := fun _ => hook;
     PluginManager.on_service_calling_engine := fun _ _ _ _ => hook;
     PluginManager.on_engine_responding := fun _ _ _ => hook;
     PluginManager.on_route_matching := fun _ _ => hook;
     PluginManager.on_response_outgoing := fun _ => hook |}.

Definition Broken : PluginManager.Plugin nat :=
  plugin "Broken" (fun n => (Raise (mk_exn OtherError "boom"), S n)).
Definition Limiter : PluginManager.Plugin nat :=
  plugin "Limiter" (fun n => (Ok (PStr "429"), S n)).
Definition Quiet : PluginManager.Plugin nat :=
  plugin "Quiet" (fun n => (Ok PNone, S n)).

Definition three_plugins : PluginManager.t nat :=
  fold_left PluginManager._register_plugin [Broken; Limiter; Quiet]
    PluginManager.empty.
(** *** Versions, running engines and business directories *)

(** [int(s)] on the strings made of decimal digits; the sample versions
    contain no other component. *)
Definition digit (c : ascii) : option Z :=
  let n := nat_of_ascii c in
  if (48 <=? n)%nat && (n <=? 57)%nat then Some (Z.of_nat (n - 48)) else None.

Fixpoint decimal_go (acc : Z) (s : string) : option Z :=
  match s with
  | EmptyString => Some acc
  | String c s' =>
      match digit c with
      | Some d => decimal_go (10 * acc + d) s'
      | None => None
      end
  end.

Definition decimal (s : string) : option Z :=
  match s with
  | EmptyString => None
  | _ => decimal_go 0 s
  end.

(** An engine that announces version [v]. *)
Definition release (v : string) : attrs :=
  __init__ "0b5e6c1a-7d7f-4a0e-9f53-2a1c8e4d9b10" (PStr "Echo") (PStr v)
    (PStr "kernel").

(** The id that [EchoEngine] draws in [engine_dir]. *)
Definition echo_id : string := "0b5e6c1a-7d7f-4a0e-9f53-2a1c8e4d9b10".

(** The registry once discovery has processed the directory of
    [EchoEngine]. *)
Definition discovered_registry : ServiceRegistry.t :=
  snd (ServiceRegistry._process_engine ascii_host
         (engine_dir "echo-engine" EchoEngine)
         "echo" "/srv/engines/echo/echo.py" fresh_registry).

(** The same registry after [update_service_health(echo_id, True)]. *)
Definition running_registry : ServiceRegistry.t :=
  snd (ServiceRegistry.update_service_health 1 echo_id true PNone
         discovered_registry).

(** A manifest that documents the routes of its engine. *)
Definition documented_manifest : dict :=
  manifest "docs-engine" ++ [("apis", PList [api "/docs" "GET"])].

(** An engine directory [/srv/engines/docs] with that manifest. *)
Definition documented_engine_dir : ServiceRegistry.env :=
  {| ServiceRegistry.os_path_isfile := fun _ => true;
     ServiceRegistry.os_path_dirname := fun _ => "/srv/engines/docs";
     ServiceRegistry.find_config_file := fun _ _ => Some "/srv/engines/docs/engine.json";
     ServiceRegistry.load_json_file := fun _ => Ok (PDict documented_manifest);
     ServiceRegistry.import_module := fun _ _ => ServiceRegistry.Imported (Ok [EchoEngine]);
     ServiceRegistry.now := 0;
     ServiceRegistry.uuid4 := "5f0c2d1e-3b4a-4c6d-8e7f-9a0b1c2d3e4f" |}.

(** The manifest [service.json] of a business service. *)
Definition blog_manifest : dict :=
  [ ("service_id", PStr "blog");
    ("service_name", PStr "Blog");
    ("version", PStr "1.0.0");
    ("database", PDict [("type", PStr "sqlite"); ("name", PStr "blog")]) ].

(** A business directory [/srv/business/blog] with that manifest. *)
Definition blog_dir : ServiceRegistry.business_env :=
  {| ServiceRegistry.service_json_exists := true;
     ServiceRegistry.read_service_json := Ok (PDict blog_manifest);
     ServiceRegistry.json_dumps := fun _ => "{}";
     ServiceRegistry.business_now := 0 |}.

End Samples.

(* ===================================================================== *)
(** * Part II: properties                                                 *)
(* ===================================================================== *)

(** ** String primitives *)

Section StringFacts.

Lemma endswith_cons suffix c s :
  endswith suffix (String c s) =
  String.eqb suffix (String c s) || endswith suffix s.
Proof. reflexivity. Qed.

Lemma endswith_slash_cons c s :
  s <> "" -> endswith "/" (String c s) = endswith "/" s.
Proof.
  intros Hs. rewrite endswith_cons.
  destruct s as [|d s']; [done|].
  change (String.eqb "/" (String c (String d s')))
    with (Ascii.eqb "/"%char c && false).
  by rewrite andb_false_r.
Qed.

Lemma endswith_slash_nonempty s : endswith "/" s = true -> s <> "".
Proof. by destruct s. Qed.

Lemma drop_last_cons c d s :
  drop_last (String c (String d s)) = String c (drop_last (String d s)).
Proof. reflexivity. Qed.

Lemma endswith_slash_single c : endswith "/" (String c "") = true -> c = "/"%char.
Proof.
  rewrite endswith_cons. intros [H|H]%orb_true_iff.
  - apply String.eqb_eq in H. by injection H.
  - done.
Qed.

(** After [s[:-1]] a path still ends with a slash only when the original
    ended with two of them. *)
Lemma endswith_drop_last s :
  endswith "/" s = true ->
  endswith "/" (drop_last s) = true ->
  endswith "//" s = true.
Proof.
  induction s as [|c s IH]; [done|].
  destruct s as [|d s]; [done|].
  destruct s as [|e s].
  - intros H1 H2.
    rewrite endswith_slash_cons in H1 by done.
    apply endswith_slash_single in H1 as ->.
    apply endswith_slash_single in H2 as ->.
    reflexivity.
  - intros H1 H2.
    rewrite endswith_slash_cons in H1 by done.
    rewrite drop_last_cons in H2.
    rewrite endswith_slash_cons in H2 by done.
    rewrite endswith_cons. rewrite (IH H1 H2). by rewrite orb_true_r.
Qed.

Lemma startswith_slash_cons c s : startswith "/" (String c s) = Ascii.eqb c "/".
Proof.
  unfold startswith. cbn [String.prefix].
  destruct (Ascii.ascii_dec "/" c) as [<-|Hne].
  - by destruct s.
  - symmetry. apply Ascii.eqb_neq. congruence.
Qed.

Lemma endswith_2_cons c s :
  endswith "//" (String c s) = true ->
  String c s = "//" \/ endswith "//" s = true.
Proof.
  rewrite endswith_cons. intros [H|H]%orb_true_iff; [left|by right].
  by apply String.eqb_eq in H.
Qed.

Lemma drop_last_nonempty c d s : drop_last (String c (String d s)) <> "".
Proof. by rewrite drop_last_cons. Qed.

End StringFacts.

(** ** Dictionaries, lists and the state monad *)

Section DictFacts.
Context {V : Type}.
Implicit Types d : list (string * V).

Lemma dict_get_set_eq k v d : dict_get k (dict_set k v d) = Some v.
Proof.
  induction d as [|[k' v'] d IH]; cbn.
  - by rewrite String.eqb_refl.
  - destruct (String.eqb k k') eqn:E; cbn; rewrite ?String.eqb_refl, ?E; done.
Qed.

Lemma dict_get_set_ne k k' v d :
  k <> k' -> dict_get k (dict_set k' v d) = dict_get k d.
Proof.
  intros Hne. induction d as [|[k'' v''] d IH]; cbn.
  - by apply String.eqb_neq in Hne as ->.
  - destruct (String.eqb_spec k' k'') as [<-|Hne']; cbn.
    + by apply String.eqb_neq in Hne as ->.
    + destruct (String.eqb k k''); done.
Qed.

Lemma dict_get_some_truthy k (d : dict) v :
  dict_get k d = Some v -> truthy (PDict d) = true.
Proof. by destruct d. Qed.

Lemma dict_mem_set k k' v d :
  dict_mem k (dict_set k' v d) = String.eqb k k' || dict_mem k d.
Proof.
  unfold dict_mem. destruct (String.eqb_spec k k') as [->|Hne].
  - by rewrite dict_get_set_eq.
  - by rewrite dict_get_set_ne.
Qed.
End DictFacts.

Section ListFacts.
Lemma str_in_true_iff x l : str_in x l = true <-> x ∈ l.
Proof.
  unfold str_in. rewrite existsb_exists. split.
  - intros (y & Hin & ->%String.eqb_eq). by apply list_elem_of_In.
  - intros Hin. exists x.
    split; [by apply list_elem_of_In|apply String.eqb_refl].
Qed.

Lemma intersects_true_iff a b :
  intersects a b = true <-> exists m, m ∈ a /\ m ∈ b.
Proof.
  unfold intersects. rewrite existsb_exists. split.
  - intros (m & Hin & Hb). exists m.
    split; [by apply list_elem_of_In|by apply str_in_true_iff].
  - intros (m & Ha & Hb). exists m.
    split; [by apply list_elem_of_In|by apply str_in_true_iff].
Qed.
End ListFacts.

Section MonadFacts.
Context {S A B : Type}.

Lemma se_bind_ok (m : M S A) (k : A -> M S B) self a self' :
  m self = (Ok a, self') -> se_bind m k self = k a self'.
Proof. unfold se_bind. by intros ->. Qed.

Lemma se_bind_raise (m : M S A) (k : A -> M S B) self e self' :
  m self = (Raise e, self') -> se_bind m k self = (Raise e, self').
Proof. unfold se_bind. by intros ->. Qed.
End MonadFacts.

(** ** Path normalisation *)

Section NormalizePath.
Import APIMapper.

Lemma normalize_path_empty : _normalize_path "" = "".
Proof. reflexivity. Qed.

Lemma with_leading_slash_starts c s :
  exists s', with_leading_slash (String c s) = String "/" s'.
Proof.
  unfold with_leading_slash. rewrite startswith_slash_cons.
  destruct (Ascii.eqb_spec c "/") as [->|]; cbn; eauto.
Qed.

Lemma normalize_path_cons c s :
  _normalize_path (String c s) =
  let q := with_leading_slash (String c s) in
  if negb (String.eqb q "/") && endswith "/" q then drop_last q else q.
Proof. reflexivity. Qed.

Lemma normalize_starts_with_slash p :
  p <> "" -> startswith "/" (_normalize_path p) = true.
Proof.
  destruct p as [|c s]; [done|]. intros _.
  rewrite normalize_path_cons. cbn zeta.
  destruct (with_leading_slash_starts c s) as [s' ->].
  destruct s' as [|d s'].
  - reflexivity.
  - destruct (negb _ && _).
    + rewrite drop_last_cons. apply startswith_slash_cons.
    + apply startswith_slash_cons.
Qed.

Lemma with_leading_slash_id r :
  startswith "/" r = true -> with_leading_slash r = r.
Proof. unfold with_leading_slash. by intros ->. Qed.

(** Paths that already have the normal shape are fixed points. *)
Lemma normalize_path_fixed r :
  startswith "/" r = true ->
  endswith "/" r = false \/ r = "/" ->
  _normalize_path r = r.
Proof.
  intros Hs He. destruct r as [|c s]; [done|].
  rewrite normalize_path_cons, with_leading_slash_id by done. cbn zeta.
  destruct He as [->| ->]; [by rewrite andb_false_r | reflexivity].
Qed.

Lemma endswith_2_leading p :
  startswith "/" p = false ->
  endswith "//" ("/" +:+ p) = true -> endswith "//" p = true.
Proof.
  intros Hs [H|H]%endswith_2_cons; [|done].
  injection H as ->. done.
Qed.

Lemma with_leading_slash_endswith_2 p :
  endswith "//" (with_leading_slash p) = true -> endswith "//" p = true.
Proof.
  unfold with_leading_slash.
  destruct (startswith "/" p) eqn:Hs; cbn [negb]; [done|].
  by apply endswith_2_leading.
Qed.

(** What [_normalize_path] guarantees about its result on every input whose
    trailing slash is not doubled. *)
Lemma normalize_path_shape p :
  p <> "" ->
  endswith "//" p = false ->
  endswith "/" (_normalize_path p) = false \/ _normalize_path p = "/".
Proof.
  destruct p as [|c s]; [done|]. intros _ Hdbl.
  rewrite normalize_path_cons. cbn zeta.
  set (q := with_leading_slash (String c s)).
  destruct (String.eqb_spec q "/") as [->|Hne]; [by right|].
  cbn [negb andb].
  destruct (endswith "/" q) eqn:He; [|by left].
  left. destruct (endswith "/" (drop_last q)) eqn:He'; [|done].
  pose proof (endswith_drop_last q He He') as H2.
  apply with_leading_slash_endswith_2 in H2. congruence.
Qed.

Lemma endswith_2_slash s : endswith "//" s = true -> endswith "/" s = true.
Proof.
  induction s as [|c s IH]; [done|].
  rewrite endswith_cons. intros [H|H]%orb_true_iff.
  - apply String.eqb_eq in H. by rewrite <- H.
  - destruct s as [|d s]; [done|].
    rewrite endswith_slash_cons by done. by apply IH.
Qed.

Lemma endswith_2_single c : endswith "//" (String c "") = false.
Proof.
  rewrite endswith_cons. apply orb_false_iff. split; [|done].
  apply String.eqb_neq. done.
Qed.

Lemma endswith_2_drop_last s :
  endswith "//" s = true -> endswith "/" (drop_last s) = true.
Proof.
  induction s as [|c s IH]; [done|].
  destruct s as [|d s]; [by rewrite endswith_2_single|].
  rewrite endswith_cons. intros [H|H]%orb_true_iff.
  - apply String.eqb_eq in H. injection H as <- <- <-. reflexivity.
  - destruct s as [|e s]; [by rewrite endswith_2_single in H|].
    rewrite drop_last_cons, endswith_slash_cons by done. by apply IH.
Qed.

Lemma drop_last_length s : s <> "" -> S (String.length (drop_last s)) = String.length s.
Proof.
  induction s as [|c s IH]; [done|]. intros _.
  destruct s as [|d s]; [done|].
  rewrite drop_last_cons. cbn [String.length]. by rewrite IH.
Qed.

Lemma drop_last_neq s : s <> "" -> drop_last s <> s.
Proof.
  intros Hs Heq. pose proof (drop_last_length s Hs) as H. rewrite Heq in H. lia.
Qed.

Lemma endswith_2_with_leading_slash p :
  endswith "//" p = true -> endswith "//" (with_leading_slash p) = true.
Proof.
  intros H. unfold with_leading_slash.
  destruct (negb (startswith "/" p)); [|done].
  change ("/" +:+ p) with (String "/"%char p). rewrite endswith_cons, H.
  apply orb_true_r.
Qed.

Lemma with_leading_slash_eq_2 p :
  with_leading_slash p = "//" -> p = "//".
Proof.
  unfold with_leading_slash.
  destruct (startswith "/" p) eqn:Hs; cbn [negb]; [done|].
  intros H. change ("/" +:+ p) with (String "/"%char p) in H.
  injection H as ->. done.
Qed.


Lemma drop_last_eq_slash q : drop_last q = "/" -> endswith "//" q = true -> q = "//".
Proof.
  destruct q as [|c [|d [|e q]]]; try done.
  - rewrite drop_last_cons. cbn [drop_last]. intros [= ->] H.
    rewrite endswith_cons in H. apply orb_true_iff in H as [H|H].
    + apply String.eqb_eq in H. congruence.
    + by rewrite endswith_2_single in H.
Qed.

(** With a doubled trailing slash (and a path other than ["//"]) one slash
    is left at the end of the result. *)
Lemma normalize_path_double_slash_shape p :
  endswith "//" p = true -> p <> "//" ->
  endswith "/" (_normalize_path p) = true /\ _normalize_path p <> "/".
Proof.
  intros Hdbl Hne.
  destruct p as [|c s]; [done|].
  rewrite (normalize_path_cons c s). cbn zeta.
  set (q := with_leading_slash (String c s)).
  assert (endswith "//" q = true) as Hq by by apply endswith_2_with_leading_slash.
  assert (q <> "/") as Hq1 by (intros E; by rewrite E in Hq).
  apply String.eqb_neq in Hq1. rewrite Hq1. cbn [negb andb].
  rewrite (endswith_2_slash _ Hq). split.
  - by apply endswith_2_drop_last.
  - intros E. apply Hne. apply with_leading_slash_eq_2.
    by apply drop_last_eq_slash.
Qed.

(** ... and a second normalisation removes it. *)
Lemma normalize_path_double_slash p :
  endswith "//" p = true -> p <> "//" ->
  _normalize_path (_normalize_path p) <> _normalize_path p.
Proof.
  intros Hdbl Hne.
  destruct (normalize_path_double_slash_shape p Hdbl Hne) as [He H1].
  assert (p <> "") as Hp by (intros ->; done).
  pose proof (normalize_starts_with_slash p Hp) as Hs.
  destruct (_normalize_path p) as [|c' s'] eqn:Er; [done|].
  rewrite normalize_path_cons. cbn zeta.
  rewrite with_leading_slash_id by done.
  apply String.eqb_neq in H1. rewrite H1, He. cbn [negb andb].
  by apply drop_last_neq.
Qed.

Lemma single_trailing_slash_dec p :
  single_trailing_slash p \/ (endswith "//" p = true /\ p <> "//").
Proof.
  unfold single_trailing_slash.
  destruct (endswith "//" p) eqn:E; [|by left; left].
  destruct (decide (p = "//")); [left; by right | by right].
Qed.

(** [_normalize_path] applied twice gives the result of one application
    exactly on the paths whose trailing slash is not doubled (and on
    ["//"]); on exactly those non-empty paths the result ends with a slash
    only when it is the root path ["/"].  Every non-empty path is
    normalised to a path starting with a slash, and the empty path is the
    only one whose result does not start with one. *)
Lemma normalize_path_idempotent_single_slash p :
  (_normalize_path (_normalize_path p) = _normalize_path p
     <-> single_trailing_slash p)
  /\ (p <> "" ->
      (endswith "/" (_normalize_path p) = true -> _normalize_path p = "/")
        <-> single_trailing_slash p)
  /\ (p <> "" -> startswith "/" (_normalize_path p) = true)
  /\ (startswith "/" (_normalize_path p) = false <-> p = "").
Proof.
  split_and!.
  - split.
    + intros Hidem.
      destruct (single_trailing_slash_dec p) as [H|[Hd Hne]]; [done|].
      by destruct (normalize_path_double_slash p Hd Hne).
    + intros [Hdbl| ->]; [|reflexivity].
      destruct (decide (p = "")) as [->|Hne]; [done|].
      apply normalize_path_fixed.
      * by apply normalize_starts_with_slash.
      * by apply normalize_path_shape.
  - intros Hne. split.
    + intros Hshape.
      destruct (single_trailing_slash_dec p) as [H|[Hd Hne2]]; [done|].
      destruct (normalize_path_double_slash_shape p Hd Hne2) as [He H1].
      by destruct H1; apply Hshape.
    + intros [Hdbl| ->]; [|reflexivity].
      intros He.
      destruct (normalize_path_shape p Hne Hdbl) as [H|H]; congruence.
  - apply normalize_starts_with_slash.
  - split.
    + intros H. destruct (decide (p = "")) as [->|Hne]; [done|].
      rewrite normalize_starts_with_slash in H; done.
    + by intros ->.
Qed.

(** C10: [_normalize_path] fails on every path that ends with two slashes
    (other than ["//"] itself).  Its last step, commented as removing the
    trailing slash, is the slice [path[:-1]], which removes one character:
    the result still ends with a slash without being the root path, and a
    second normalisation changes it, so the function is not idempotent. *)
Theorem normalize_path_leaves_a_trailing_slash p :
  endswith "//" p = true -> p <> "//" ->
  endswith "/" (_normalize_path p) = true
  /\ _normalize_path p <> "/"
  /\ _normalize_path (_normalize_path p) <> _normalize_path p.
Proof.
  intros Hdouble Hne.
  destruct (normalize_path_double_slash_shape p Hdouble Hne) as [Hslash Hroot].
  split_and!; [exact Hslash|exact Hroot|].
  by apply normalize_path_double_slash.
Qed.

(** The path ["a//"] is normalised to ["/a/"], and ["/a/"] to ["/a"]. *)
Lemma normalize_path_leaves_a_trailing_slash_witness :
  _normalize_path "a//" = "/a/"
  /\ _normalize_path "/a/" = "/a"
  /\ endswith "/" (_normalize_path "a//") = true
  /\ _normalize_path "a//" <> "/"
  /\ _normalize_path (_normalize_path "a//") <> _normalize_path "a//".
Proof.
  split; [reflexivity|]. split; [reflexivity|].
  apply (normalize_path_leaves_a_trailing_slash "a//"); [reflexivity|discriminate].
Defined.
End NormalizePath.

(** ** Caller authorisation of [BaseEngine.handle_request] *)

Section CallerAuthorization.
Import BaseEngine.

(** The frames of [_validate_caller] and [handle_request] themselves never
    authorise a call: their function names are not in the list. *)
Lemma own_frames_not_sanctioned base_py callers :
  existsb sanctioned_frame (stack_in_validate base_py callers) =
  existsb sanctioned_frame callers.
Proof.
  unfold stack_in_validate. cbn [existsb].
  unfold sanctioned_frame at 1 2. cbn [function].
  change (str_in "_validate_caller" sanctioned_functions) with false.
  change (str_in "handle_request" sanctioned_functions) with false.
  by rewrite !andb_false_r.
Qed.

Lemma validate_caller_true_iff a stack :
  _validate_caller a stack = true <->
  (exists f, f ∈ stack /\ sanctioned_frame f = true) \/ _allow_direct_call a = true.
Proof.
  unfold _validate_caller. split.
  - destruct (existsb sanctioned_frame stack) eqn:He.
    + intros _. left. apply existsb_exists in He as (f & Hin & Hf).
      exists f. by rewrite list_elem_of_In.
    + destruct (_allow_direct_call a); [by right|done].
  - intros [(f & Hin & Hf)|Hflag].
    + assert (existsb sanctioned_frame stack = true) as ->; [|done].
      apply existsb_exists. exists f. by rewrite <- list_elem_of_In.
    + rewrite Hflag. by destruct (existsb _ _).
Qed.

(** The flag is false on every instance that [BaseEngine.__init__] has
    just initialised. *)
Lemma init_forbids_direct_call uuid4 service_name version engine_type :
  _allow_direct_call (__init__ uuid4 service_name version engine_type) = false.
Proof. reflexivity. Qed.

(** On an engine whose [_allow_direct_call] flag is false, a call of
    [handle_request(action, data)] whose call chain contains no frame that
    passes the name test (a file name containing [LinkGateway] or
    [gateway.py], and one of the function names [forward_request],
    [send_request], [proxy_request], [send_async_request]) raises
    [PermissionError]; the request logic of the engine is not run. *)
Lemma handle_request_rejects_unsanctioned_callers
    (e : engine) (base_py : string) (callers : list frame_info)
    (action : string) (data : dict) :
  _allow_direct_call (self e) = false ->
  Forall (fun f => sanctioned_frame f = false) callers ->
  handle_request e (stack_in_validate base_py callers) action data =
  Raise (mk_exn PermissionError (illegal_call_message (self e))).
Proof.
  intros Hflag Hcallers. unfold handle_request, _validate_caller.
  rewrite own_frames_not_sanctioned, Hflag.
  assert (existsb sanctioned_frame callers = false) as ->; [|done].
  apply not_true_is_false. intros (f & Hin & Hf)%existsb_exists.
  rewrite Forall_forall in Hcallers.
  apply list_elem_of_In in Hin.
  specialize (Hcallers f Hin). congruence.
Qed.

(** Through a frame that passes the name test the request logic runs. *)
Lemma handle_request_runs_for_gateway e base_py callers action data :
  existsb sanctioned_frame callers = true ->
  handle_request e (stack_in_validate base_py callers) action data =
  cls_handle_request_impl (cls e) (self e) action data.
Proof.
  intros H. unfold handle_request, _validate_caller.
  by rewrite own_frames_not_sanctioned, H.
Qed.

(** C1: the caller check of [handle_request] goes by names alone, so it
    does not keep callers outside the gateway out.  As soon as one frame of
    the call chain lies in a file whose name contains [gateway.py] (or
    [LinkGateway]) and in a function that bears one of the four forwarding
    names, the request logic of the engine runs: whether or not the file is
    one of the gateway, and whether or not the direct-call flag of the
    engine has ever been set. *)
Theorem handle_request_serves_a_caller_named_like_the_gateway
    (e : engine) (base_py : string) (caller : frame_info)
    (callers : list frame_info) (action : string) (data : dict) :
  caller ∈ callers ->
  contains "LinkGateway" (filename caller)
  || contains "gateway.py" (filename caller) = true ->
  str_in (function caller) sanctioned_functions = true ->
  handle_request e (stack_in_validate base_py callers) action data
  = cls_handle_request_impl (cls e) (self e) action data.
Proof.
  intros Hin Hfile Hname. apply handle_request_runs_for_gateway.
  apply existsb_exists. exists caller. split; [by apply list_elem_of_In|].
  unfold sanctioned_frame. by rewrite Hfile, Hname.
Qed.

(** A module [my_gateway.py] in the directory of an engine, outside the
    [LinkGateway] package, calls the engine ["echo"], whose flag is unset,
    from a function that it names [send_request]; the engine class
    overrides [handle_request] and delegates to the method of the base
    class. *)
Lemma handle_request_serves_a_caller_named_like_the_gateway_witness :
  _allow_direct_call (self Samples.echo_engine) = false
  /\ contains "LinkGateway" "/srv/engines/Evil/my_gateway.py" = false
  /\ handle_request Samples.echo_engine
       (stack_in_validate Samples.base_py
          [ mk_frame "/srv/engines/echo/echo.py" "handle_request";
            mk_frame "/srv/engines/Evil/my_gateway.py" "send_request";
            mk_frame "/srv/main.py" "<module>" ])
       "drop_all" []
     = Ok (PDict [("action", PStr "drop_all")]).
Proof.
  split; [reflexivity|]. split; [reflexivity|].
  rewrite (handle_request_serves_a_caller_named_like_the_gateway
             Samples.echo_engine Samples.base_py
             (mk_frame "/srv/engines/Evil/my_gateway.py" "send_request")).
  - reflexivity.
  - apply list_elem_of_further, list_elem_of_here.
  - reflexivity.
  - reflexivity.
Defined.
End CallerAuthorization.

(** ** Synchronous dispatch: [send_request] and [forward_request] *)

Section Dispatch.
Variable validate_dict : pyval -> res dict.
Variables base_py inner_comm_py service_proxy_py : string.

Import InnerCommunicator.

Lemma send_request_unregistered ic uuid4 now now' callers target action data :
  engine_registry ic !! target = None ->
  send_request validate_dict base_py inner_comm_py ic uuid4 now now' callers
    target action data = None.
Proof. intros H. unfold send_request. by rewrite H. Qed.

Lemma send_request_registered ic uuid4 now now' callers target action data engine :
  engine_registry ic !! target = Some engine ->
  exists r : Response.t,
    send_request validate_dict base_py inner_comm_py ic uuid4 now now' callers
      target action data = Some (Response.dict_ r)
    /\ Response.request_id r = uuid4
    /\ (Response.status r = "success" /\ Response.code r = 200%Z
          /\ Response.error r = None
        \/ Response.status r = "error" /\ Response.code r = 500%Z
          /\ is_Some (Response.error r)).
Proof.
  intros H. unfold send_request. rewrite H.
  destruct (BaseEngine.handle_request _ _ _ _) as [v|e]; cbn [bind].
  - unfold Response.success.
    destruct (validate_dict _) as [d|e]; cbn [bind].
    + eexists. split; [reflexivity|]. cbn. auto.
    + eexists. split; [reflexivity|]. cbn. eauto.
  - eexists. split; [reflexivity|]. cbn. eauto.
Qed.

Lemma call_engine_unregistered ic uuid4 now now' callers target action data :
  engine_registry ic !! target = None ->
  dict_get "status"
    (call_engine validate_dict base_py inner_comm_py ic uuid4 now now' callers
       target action data) = Some (PStr "error").
Proof.
  intros H. unfold call_engine.
  by rewrite (send_request_unregistered _ _ _ _ _ _ _ _ H).
Qed.





End Dispatch.



(** ** Route conflicts in [add_api_route] *)

Section RouteConflict.
Variable h : host.
Variable w : APIMapper.world.
Import APIMapper.

Lemma router_for_api_registry self service_id :
  api_registry (snd (router_for self service_id)) = api_registry self.
Proof. unfold router_for. by destruct (routers self !! service_id). Qed.

(** A conflicting registration is refused and leaves the registry as it
    was. *)
Lemma add_api_route_conflict self service_id path endpoint kwargs methods existing :
  requested_methods h kwargs = Ok methods ->
  api_registry self !! target_path self service_id path = Some existing ->
  intersects methods (ai_methods existing) = true ->
  exists self',
    add_api_route h w self service_id path endpoint kwargs = (false, self')
    /\ api_registry self' = api_registry self.
Proof.
  intros Hm Hex Hint. unfold add_api_route, target_path in *.
  pose proof (router_for_api_registry self service_id) as Hreg.
  destruct (router_for self service_id) as [router self1]. cbn [fst snd] in *.
  rewrite Hm. unfold _check_path_conflict. rewrite Hreg, Hex, Hint.
  by exists self1.
Qed.

(** What a successful registration has done. *)
Lemma add_api_route_success self service_id path endpoint kwargs self' :
  add_api_route h w self service_id path endpoint kwargs = (true, self') ->
  exists methods info,
    requested_methods h kwargs = Ok methods
    /\ ai_service_id info = service_id
    /\ ai_methods info = methods
    /\ ai_full_path info = target_path self service_id path
    /\ api_registry self' =
         <[target_path self service_id path := info]> (api_registry self).
Proof.
  unfold add_api_route, target_path.
  pose proof (router_for_api_registry self service_id) as Hreg.
  destruct (router_for self service_id) as [router self1]. cbn [fst snd] in *.
  destruct (requested_methods h kwargs) as [methods|]; [|done].
  destruct (_check_path_conflict _ _ _ _); [done|].
  destruct (router_add_api_route _ _ _ _ _) as [router'|]; [|done].
  destruct (__name__ endpoint) as [name|]; [|done].
  intros [= <-]. eexists methods, _. split; [reflexivity|].
  split_and!; last first.
  { unfold set_api_registry, set_routers. cbn [api_registry].
    rewrite Hreg. reflexivity. }
  all: reflexivity.
Qed.

(** When a registration has succeeded and the next one targets the same
    full path with a method set that intersects the first one, the second
    call of [add_api_route] returns [False]; the API registry is the one the
    first call left, its entry at that path is still the entry of the first
    owner, with the first method set. *)
Lemma overlapping_registration_rejected
    (self self1 : t) (s1 p1 : string) (e1 : endpoint) (kw1 : dict)
    (s2 p2 : string) (e2 : endpoint) (kw2 : dict) (m1 m2 : list string) :
  add_api_route h w self s1 p1 e1 kw1 = (true, self1) ->
  requested_methods h kw1 = Ok m1 ->
  requested_methods h kw2 = Ok m2 ->
  target_path self1 s2 p2 = target_path self s1 p1 ->
  (exists m, m ∈ m1 /\ m ∈ m2) ->
  exists self2 first,
    add_api_route h w self1 s2 p2 e2 kw2 = (false, self2)
    /\ api_registry self2 = api_registry self1
    /\ api_registry self1 !! target_path self s1 p1 = Some first
    /\ api_registry self2 !! target_path self s1 p1 = Some first
    /\ ai_service_id first = s1
    /\ ai_methods first = m1.
Proof.
  intros Hfirst Hm1 Hm2 Hpath (m & Hin1 & Hin2).
  apply add_api_route_success in Hfirst
    as (methods & info & Hm & Hsid & Hmeth & _ & Hreg).
  assert (methods = m1) as -> by congruence.
  assert (api_registry self1 !! target_path self s1 p1 = Some info) as Hlook.
  { rewrite Hreg. apply lookup_insert_eq. }
  destruct (add_api_route_conflict self1 s2 p2 e2 kw2 m2 info Hm2)
    as (self2 & Hsecond & Hsame).
  - by rewrite Hpath.
  - rewrite Hmeth. apply intersects_true_iff. eauto.
  - exists self2, info. split_and!; try done. by rewrite Hsame.
Qed.
End RouteConflict.

(** C3: the conflict guard does not keep the first owner of a route.  The
    registry holds one entry per full path, and a registration with other
    methods on that path is accepted and replaces the entry.  Service
    [svc-a] registers [GET /a]; service [svc-b] registers [POST /a] and
    then [GET /a]: all three calls return [True], although the first and
    the third target the same full path with the same method, and the
    registry ends up naming [svc-b] as the owner of [GET /a], while the
    router of [svc-a] still holds its route. *)
Theorem route_owner_lost_after_other_methods :
  let first :=
    APIMapper.add_api_route ascii_host Samples.plain_world APIMapper.__init__
      "svc-a" "/a" (APIMapper.mk_endpoint (Some "get_a"))
      [("methods", PList [PStr "GET"])] in
  let second :=
    APIMapper.add_api_route ascii_host Samples.plain_world (snd first)
      "svc-b" "/a" (APIMapper.mk_endpoint (Some "post_a"))
      [("methods", PList [PStr "POST"])] in
  let third :=
    APIMapper.add_api_route ascii_host Samples.plain_world (snd second)
      "svc-b" "/a" (APIMapper.mk_endpoint (Some "get_a_too"))
      [("methods", PList [PStr "GET"])] in
  fst first = true /\ fst second = true /\ fst third = true
  /\ APIMapper.target_path APIMapper.__init__ "svc-a" "/a" = "/a"
  /\ APIMapper.target_path (snd second) "svc-b" "/a" = "/a"
  /\ (exists entry,
        APIMapper.api_registry (snd first) !! "/a" = Some entry
        /\ APIMapper.ai_service_id entry = "svc-a"
        /\ APIMapper.ai_methods entry = ["GET"])
  /\ (exists entry,
        APIMapper.api_registry (snd third) !! "/a" = Some entry
        /\ APIMapper.ai_service_id entry = "svc-b"
        /\ APIMapper.ai_methods entry = ["GET"])
  /\ (exists router,
        APIMapper.routers (snd third) !! "svc-a" = Some router
        /\ map APIMapper.route_path (APIMapper.routes router) = ["/a"]).
Proof.
  cbn zeta. split_and!; try (vm_compute; reflexivity);
    eexists; split_and!; vm_compute; reflexivity.
Qed.

(** ** Manifest validation *)

Section Manifest.
Variable h : host.
Import Standards.

Lemma check_required_fields_truthy config fields v :
  _check_required_fields config fields = Ok v -> truthy v = true.
Proof.
  revert v. induction fields as [|f fields IH]; intros v; cbn.
  - by intros [= <-].
  - destruct (py_in f config) as [present|]; cbn; [|done].
    destruct present; cbn; [apply IH|]. by intros [= <-].
Qed.

Lemma check_required_fields_dict d fields :
  exists v, _check_required_fields (PDict d) fields = Ok v.
Proof.
  induction fields as [|f fields IH]; cbn; [eauto|].
  destruct (negb _); eauto.
Qed.

(** [validate_service_json] tests the verdict dictionaries of
    [_check_required_fields] and [_check_service_id_format] for truth, and
    both are never empty: a manifest without [database] and [apis] sections
    is always reported as valid. *)
Lemma validate_service_json_ignores_required_fields (d : dict) :
  dict_mem "database" d = false ->
  dict_mem "apis" d = false ->
  validate_service_json h (PDict d) =
  Ok (verdict true "Service JSON format is valid").
Proof.
  intros Hdb Hapis. unfold validate_service_json.
  destruct (check_required_fields_dict d (REQUIRED_FIELDS ServiceStandard))
    as [v Hv].
  rewrite Hv. cbn [bind].
  rewrite (check_required_fields_truthy _ _ _ Hv). cbn [negb].
  unfold _check_service_id_format. cbn [py_get bind].
  destruct (negb (truthy _)); cbn [bind truthy verdict verdict_ok negb];
    unfold validate_optional_sections; cbn [py_in bind];
    rewrite Hdb, Hapis; reflexivity.
Qed.

(** C6 fails on the code: for the manifest of the unit test
    [test_validate_service_json_missing_required_fields], which has no
    [service_id], [validate_service_json] answers [valid: True], although
    [_check_required_fields] has found the missing field. *)
Theorem validate_service_json_accepts_missing_service_id :
  validate_service_json h
    (PDict [("service_name", PStr "Test Service"); ("version", PStr "1.0.0")])
  = Ok (PDict [("valid", PBool true);
               ("reason", PStr "Service JSON format is valid")])
  /\ reports_missing_field
       (validate_service_json h
          (PDict [("service_name", PStr "Test Service"); ("version", PStr "1.0.0")]))
     = false
  /\ _check_required_fields
       (PDict [("service_name", PStr "Test Service"); ("version", PStr "1.0.0")])
       (REQUIRED_FIELDS ServiceStandard)
     = Ok (PDict [("valid", PBool false);
                  ("reason", PStr "Missing required field: service_id")]).
Proof. split_and!; reflexivity. Qed.
End Manifest.

(** ** The interaction rule [is_service_allowed] *)

Section Interaction.
Import ServiceRegistry.

(** C8: when the descriptor store holds both services and both are of kind
    engine, [is_service_allowed(source, target)] returns [False]. *)
Theorem engine_to_engine_never_allowed
    (self : t) (db : DB.t) (source target : string) (s r : DB.row) :
  db_manager self = Some db ->
  DB.get_service db source = Some s ->
  DB.get_service db target = Some r ->
  DB.service_type s = DB.ENGINE ->
  DB.service_type r = DB.ENGINE ->
  is_service_allowed self source target = Ok false.
Proof.
  intros Hdb Hs Hr Hse Hre. unfold is_service_allowed.
  rewrite Hdb, Hs, Hr. unfold DB.is_engine. by rewrite Hse, Hre.
Qed.

Lemma engine_to_engine_never_allowed_witness :
  is_service_allowed Samples.two_engines "file-engine" "permdog" = Ok false.
Proof.
  eapply (engine_to_engine_never_allowed Samples.two_engines _
            "file-engine" "permdog");
    [ reflexivity | vm_compute; reflexivity | vm_compute; reflexivity
    | reflexivity | reflexivity ].
Defined.

(** The predicate answers [True] only when one side is a business. *)
Lemma is_service_allowed_true_has_business self source target db s r :
  db_manager self = Some db ->
  DB.get_service db source = Some s -> DB.get_service db target = Some r ->
  is_service_allowed self source target = Ok true ->
  DB.service_type s = DB.BUSINESS \/ DB.service_type r = DB.BUSINESS.
Proof.
  intros Hdb Hs Hr. unfold is_service_allowed. rewrite Hdb, Hs, Hr.
  unfold DB.is_engine.
  destruct (DB.service_type s), (DB.service_type r); cbn; auto; done.
Qed.
End Interaction.

(** ** Engine discovery: [_process_engine] *)

Section RegistryFacts.
Import ServiceRegistry BaseEngine.
Variable h : host.
Variable ev : env.

Lemma with_db_some {A} (f : DB.t -> A * DB.t) self db :
  db_manager self = Some db ->
  with_db f self = (Ok (fst (f db)), set_db self (snd (f db))).
Proof. unfold with_db. intros ->. by destruct (f db). Qed.

Lemma start_engine_with_timeout_still_running engine seen :
  cls_start (cls engine) (self engine) = Started (StillRunning seen) ->
  _start_engine_with_timeout engine = (Ok (PBool false), with_self engine seen).
Proof. unfold _start_engine_with_timeout. by intros ->. Qed.

Lemma start_engine_safely_still_running engine seen :
  cls_start (cls engine) (self engine) = Started (StillRunning seen) ->
  _start_engine_safely engine = with_self engine seen.
Proof.
  intros H. unfold _start_engine_safely.
  by rewrite (start_engine_with_timeout_still_running _ _ H).
Qed.

(** The registry files an engine under the identifier that the instance
    carries. *)
Lemma register_engine_to_memory_spec engine self :
  exists self',
    _register_engine_to_memory (get_metadata (BaseEngine.self engine)) engine self
      = (Ok tt, self')
    /\ engines self' = <[service_id (BaseEngine.self engine) := engine]> (engines self)
    /\ db_manager self' = db_manager self.
Proof. eexists. split; [reflexivity|]. by cbn. Qed.

Lemma call_db_some {A} (f : DB.t -> res A * DB.t) self db :
  db_manager self = Some db ->
  call_db f self = (fst (f db), set_db self (snd (f db))).
Proof. unfold call_db. intros ->. by destruct (f db). Qed.

(** With a store in place, an engine type that [EngineType] knows and
    columns that the store accepts, the descriptor of the engine is
    written. *)
Lemma register_engine_to_db_spec a cfg engine_path self db et ety :
  db_manager self = Some db ->
  engine_type a = PStr et ->
  EngineType_of (lower h et) = Ok ety ->
  DB.not_null (service_name a) = true ->
  DB.not_null (version a) = true ->
  DB.bindable (dict_get_default "description" (PStr "") cfg) = true ->
  exists db' row,
    _register_engine_to_db h (get_metadata a) (PDict cfg) engine_path self
      = (Ok tt, set_db self db')
    /\ db' !! service_id a = Some row
    /\ DB.status row =
         (if String.eqb (status a) "running" then DB.VALID else DB.INVALID)
    /\ DB.reason row =
         (if String.eqb (status a) "running" then PNone
          else PStr (startup_failed_reason h (PStr (status a)))).
Proof.
  intros Hdb Het Hety Hname Hver Hdesc. unfold _register_engine_to_db.
  cbn [get_metadata py_getitem dict_get dict_get_default String.eqb Ascii.eqb
       Bool.eqb py_get lift se_bind eq_str].
  rewrite Het. cbn [lift se_bind]. rewrite Hety. cbn [lift se_bind].
  unfold se_bind at 1. rewrite (call_db_some _ _ _ Hdb).
  unfold DB.update_service, DB.add_service, DB.engine_columns_ok,
    DB.service_exists.
  cbn [DB.i_service_id DB.i_service_name DB.i_version DB.i_reason
       DB.i_description].
  rewrite Hname, Hver, Hdesc.
  assert (DB.bindable
            (if String.eqb (status a) "running" then PNone
             else PStr (startup_failed_reason h (PStr (status a)))) = true)
    as -> by by destruct (String.eqb (status a) "running").
  rewrite String.eqb_refl. cbn [andb orb negb].
  destruct (db !! service_id a) as [old|] eqn:Hold; cbn [fst snd negb ret];
    do 2 eexists; (split; [reflexivity|]);
    rewrite lookup_insert_eq; (split; [reflexivity|]); split; reflexivity.
Qed.

Lemma start_and_register_engine_spec engine cfg engine_path self db et ety :
  db_manager self = Some db ->
  engine_type (BaseEngine.self engine) = PStr et ->
  EngineType_of (lower h et) = Ok ety ->
  DB.not_null (service_name (BaseEngine.self engine)) = true ->
  DB.not_null (version (BaseEngine.self engine)) = true ->
  DB.bindable (dict_get_default "description" (PStr "") cfg) = true ->
  exists self' db' row,
    _start_and_register_engine h engine (PDict cfg) engine_path self
      = (Ok (get_metadata (BaseEngine.self engine)), self')
    /\ engines self' =
         <[service_id (BaseEngine.self engine) := engine]> (engines self)
    /\ db_manager self' = Some db'
    /\ db' !! service_id (BaseEngine.self engine) = Some row
    /\ DB.status row =
         (if String.eqb (status (BaseEngine.self engine)) "running"
          then DB.VALID else DB.INVALID)
    /\ DB.reason row =
         (if String.eqb (status (BaseEngine.self engine)) "running" then PNone
          else PStr (startup_failed_reason h (PStr (status (BaseEngine.self engine))))).
Proof.
  intros Hdb Het Hety Hname Hver Hdesc. unfold _start_and_register_engine.
  destruct (register_engine_to_memory_spec engine self) as (s1 & Hmem & Heng & Hdb1).
  rewrite (se_bind_ok _ _ _ _ _ Hmem).
  rewrite Hdb in Hdb1.
  destruct (register_engine_to_db_spec (BaseEngine.self engine) cfg engine_path
              s1 db et ety Hdb1 Het Hety Hname Hver Hdesc)
    as (db' & row & Hreg & Hrow & Hst & Hre).
  rewrite (se_bind_ok _ _ _ _ _ Hreg).
  eexists _, db', row. split; [reflexivity|]. cbn. by rewrite Heng.
Qed.
End RegistryFacts.

(** The situation of an engine directory whose manifest passes validation,
    whose module yields an engine class, and whose constructor succeeds. *)
Section EngineCreated.
Import ServiceRegistry BaseEngine.
Variable h : host.
Variable ev : env.
Variables (self : t) (db : DB.t).
Variables (engine_name engine_path engine_json_path : string).
Variable cfg : dict.
Variables (verdict valid : pyval).
Variables (cls : engine_class) (others : list engine_class).
Variables (version engine_type : pyval).
Variable a0 : attrs.

Hypothesis Hdb : db_manager self = Some db.
Hypothesis Hfind :
  find_config_file ev (_get_engine_dir ev engine_path) engine_name
  = Some engine_json_path.
Hypothesis Hload : load_json_file ev engine_json_path = Ok (PDict cfg).
Hypothesis Hvalidate : Standards.validate_engine_json h (PDict cfg) = Ok verdict.
Hypothesis Hverdict : py_getitem verdict "valid" = Ok valid.
Hypothesis Hvalid : truthy valid = true.
Hypothesis Hversion : dict_get "version" cfg = Some version.
Hypothesis Hengine_type : dict_get "engine_type" cfg = Some engine_type.
Hypothesis Himport :
  import_module ev (manifest_service_id engine_name cfg) engine_path
  = Imported (Ok (cls :: others)).
Hypothesis Hnew :
  cls_new cls (uuid4 ev) (manifest_service_id engine_name cfg) version = Ok a0.
Hypothesis Hdescription :
  DB.bindable (dict_get_default "description" (PStr "") cfg) = true.

Lemma load_and_validate_ok :
  _load_and_validate_engine_config h ev engine_json_path engine_name self
  = (Ok (Some (PDict cfg)), self).
Proof.
  unfold _load_and_validate_engine_config.
  rewrite Hload. cbn [lift se_bind]. rewrite Hvalidate. cbn [lift se_bind].
  rewrite Hverdict. cbn [lift se_bind]. by rewrite Hvalid.
Qed.

Lemma create_engine_instance_ok :
  _create_engine_instance ev cls (manifest_service_id engine_name cfg)
    (manifest_service_name engine_name cfg) (PDict cfg)
  = Ok (created_engine engine_name cfg engine_type cls a0).
Proof.
  unfold _create_engine_instance. cbn [py_getitem].
  rewrite Hversion. cbn [bind]. rewrite Hnew. cbn [bind].
  by rewrite Hengine_type.
Qed.

Lemma load_and_create_engine_ok :
  _load_and_create_engine ev (PDict cfg) engine_path engine_name self
  = (Ok (Some (_start_engine_safely
                 (created_engine engine_name cfg engine_type cls a0))), self).
Proof.
  unfold _load_and_create_engine. cbn [py_get lift se_bind].
  change (dict_get_default "service_id" (PStr engine_name) cfg)
    with (manifest_service_id engine_name cfg).
  change (dict_get_default "service_name" (manifest_service_id engine_name cfg) cfg)
    with (manifest_service_name engine_name cfg).
  rewrite Himport. cbn [lift se_bind _find_engine_class ret].
  by rewrite create_engine_instance_ok.
Qed.

Lemma manifest_truthy : truthy (PDict cfg) = true.
Proof. exact (dict_get_some_truthy _ _ _ Hversion). Qed.

(** Once the engine object exists, [_process_engine] registers it whatever
    [start()] did: in memory under the identifier the instance carries, in
    the descriptor store with a status derived from the status of the
    instance; and its entry in the discovery result says ["valid"]. *)
Lemma process_engine_created (et : string) (ety : DB.EngineType) :
  let engine :=
    _start_engine_safely (created_engine engine_name cfg engine_type cls a0) in
  BaseEngine.engine_type (BaseEngine.self engine) = PStr et ->
  EngineType_of (lower h et) = Ok ety ->
  DB.not_null (service_name (BaseEngine.self engine)) = true ->
  DB.not_null (BaseEngine.version (BaseEngine.self engine)) = true ->
  exists self' db' row,
    _process_engine h ev engine_name engine_path self
    = (Ok [ ("service_id", PStr (service_id (BaseEngine.self engine)));
            ("service_name", service_name (BaseEngine.self engine));
            ("version", BaseEngine.version (BaseEngine.self engine));
            ("engine_type", BaseEngine.engine_type (BaseEngine.self engine));
            ("status", PStr "valid") ], self')
    /\ engines self' =
         <[service_id (BaseEngine.self engine) := engine]> (engines self)
    /\ db_manager self' = Some db'
    /\ db' !! service_id (BaseEngine.self engine) = Some row
    /\ DB.status row =
         (if String.eqb (status (BaseEngine.self engine)) "running"
          then DB.VALID else DB.INVALID)
    /\ DB.reason row =
         (if String.eqb (status (BaseEngine.self engine)) "running" then PNone
          else PStr (startup_failed_reason h (PStr (status (BaseEngine.self engine))))).
Proof.
  intros engine Het Hety Hname Hver.
  destruct (start_and_register_engine_spec h engine cfg engine_path self db et ety
              Hdb Het Hety Hname Hver Hdescription)
    as (self' & db' & row & Hreg & Hrest).
  exists self', db', row. split; [|exact Hrest].
  unfold _process_engine, _find_engine_config_file. rewrite Hfind.
  cbn [ret se_bind]. unfold try_except, process_engine_body.
  rewrite (se_bind_ok _ _ _ _ _ load_and_validate_ok).
  rewrite manifest_truthy. cbn [negb].
  rewrite (se_bind_ok _ _ _ _ _ load_and_create_engine_ok).
  fold engine. rewrite (se_bind_ok _ _ _ _ _ Hreg).
  reflexivity.
Qed.

(** The registry key is the identifier of the instance: an identifier
    declared in the manifest is a key only if the two coincide. *)
Lemma process_engine_other_keys (et : string) (ety : DB.EngineType) (declared : string) :
  let engine :=
    _start_engine_safely (created_engine engine_name cfg engine_type cls a0) in
  BaseEngine.engine_type (BaseEngine.self engine) = PStr et ->
  EngineType_of (lower h et) = Ok ety ->
  DB.not_null (service_name (BaseEngine.self engine)) = true ->
  DB.not_null (BaseEngine.version (BaseEngine.self engine)) = true ->
  declared <> service_id (BaseEngine.self engine) ->
  get_engine (snd (_process_engine h ev engine_name engine_path self)) declared
  = get_engine self declared.
Proof.
  intros engine Het Hety Hname Hver Hne.
  destruct (process_engine_created et ety Het Hety Hname Hver)
    as (self' & db' & row & -> & Heng & _).
  unfold get_engine. cbn [snd]. rewrite Heng. by rewrite lookup_insert_ne.
Qed.

(** C5: an engine whose [start()] has not finished when the timeout
    expires is not treated as failed.  [_start_engine_with_timeout] answers
    [False], with a log line that says the engine is skipped, but
    [_process_engine] goes on and registers the engine: it is filed in
    memory, where [get_engine] finds it, and its entry in the discovery
    result has status [valid] and no reason.  Only the descriptor in the
    store says [invalid], and its reason names the status of the engine,
    not the timeout. *)
Theorem timed_out_engine_is_discovered_as_valid
    (seen : attrs) (et : string) (ety : DB.EngineType) :
  cls_start cls (BaseEngine.self (created_engine engine_name cfg engine_type cls a0))
  = Started (StillRunning seen) ->
  status seen <> "running" ->
  BaseEngine.engine_type seen = PStr et ->
  EngineType_of (lower h et) = Ok ety ->
  DB.not_null (service_name seen) = true ->
  DB.not_null (BaseEngine.version seen) = true ->
  _start_engine_with_timeout (created_engine engine_name cfg engine_type cls a0)
  = (Ok (PBool false),
     with_self (created_engine engine_name cfg engine_type cls a0) seen)
  /\ exists result self' db' row,
       _process_engine h ev engine_name engine_path self = (Ok result, self')
       /\ dict_get "status" result = Some (PStr "valid")
       /\ dict_get "reason" result = None
       /\ get_engine self' (service_id seen)
          = Some (with_self (created_engine engine_name cfg engine_type cls a0) seen)
       /\ db_manager self' = Some db'
       /\ db' !! service_id seen = Some row
       /\ DB.status row = DB.INVALID
       /\ DB.reason row =
            PStr ("Engine startup failed, current status: "
                  +:+ format h (PStr (status seen))).
Proof.
  intros Hstart Hstatus Het Hety Hname Hver.
  pose proof (start_engine_with_timeout_still_running _ _ Hstart) as Htimeout.
  pose proof (start_engine_safely_still_running _ _ Hstart) as Hsafe.
  split; [exact Htimeout|].
  destruct (process_engine_created et ety)
    as (self' & db' & row & Hproc & Heng & Hdb' & Hrow & Hst & Hre);
    try (by rewrite ?Hsafe).
  rewrite Hsafe in Hproc, Heng, Hrow, Hst, Hre. cbn [BaseEngine.self with_self] in *.
  apply String.eqb_neq in Hstatus. rewrite Hstatus in Hst, Hre.
  eexists _, self', db', row. split; [exact Hproc|]. split_and!; try done.
  unfold get_engine. rewrite Heng. apply lookup_insert_eq.
Qed.
End EngineCreated.

(** The engine of [/srv/engines/echo] sleeps in [start()]: it is discovered
    as valid and stays registered with status [stopped]. *)
Lemma timed_out_engine_is_discovered_as_valid_witness :
  exists result self' engine db' row,
    ServiceRegistry._process_engine ascii_host
      (Samples.engine_dir "sleepy-engine" Samples.SleepyEngine)
      "echo" "/srv/engines/echo/echo.py" Samples.fresh_registry = (Ok result, self')
    /\ dict_get "status" result = Some (PStr "valid")
    /\ dict_get "reason" result = None
    /\ ServiceRegistry.get_engine self' "0b5e6c1a-7d7f-4a0e-9f53-2a1c8e4d9b10"
       = Some engine
    /\ BaseEngine.status (BaseEngine.self engine) = "stopped"
    /\ ServiceRegistry.db_manager self' = Some db'
    /\ db' !! "0b5e6c1a-7d7f-4a0e-9f53-2a1c8e4d9b10" = Some row
    /\ DB.status row = DB.INVALID
    /\ DB.reason row = PStr "Engine startup failed, current status: stopped".
Proof.
  destruct (timed_out_engine_is_discovered_as_valid ascii_host
              (Samples.engine_dir "sleepy-engine" Samples.SleepyEngine)
              Samples.fresh_registry ∅
              "echo" "/srv/engines/echo/echo.py" "/srv/engines/echo/engine.json"
              (Samples.manifest "sleepy-engine")
              (Standards.verdict true "Engine JSON format is valid") (PBool true)
              Samples.SleepyEngine [] (PStr "1.0.0") (PStr "kernel")
              (BaseEngine.__init__ "0b5e6c1a-7d7f-4a0e-9f53-2a1c8e4d9b10"
                 (PStr "sleepy-engine") (PStr "1.0.0") (PStr "kernel")))
    with (seen := BaseEngine.self
                    (ServiceRegistry.created_engine "echo"
                       (Samples.manifest "sleepy-engine") (PStr "kernel")
                       Samples.SleepyEngine
                       (BaseEngine.__init__ "0b5e6c1a-7d7f-4a0e-9f53-2a1c8e4d9b10"
                          (PStr "sleepy-engine") (PStr "1.0.0") (PStr "kernel"))))
         (et := "kernel") (ety := DB.KERNEL)
    as (_ & result & self' & db' & row & Hproc & Hvalid & Hreason & Hget & Hdb
        & Hrow & Hst & Hre);
    try reflexivity.
  - vm_compute. discriminate.
  - eexists result, self', _, db', row. split_and!; try done.
Defined.

(** C4 fails on the code.  The manifest declares [service_id = echo-engine];
    the class is found, the constructor succeeds and [start()] returns [True].
    [_create_engine_instance] passes the declared id as [service_name] to a
    constructor that draws its own [service_id], so the engine is registered
    under that generated id and [get_engine("echo-engine")] finds nothing. *)
Theorem engine_registered_under_generated_id :
  exists result self' engine,
    ServiceRegistry._process_engine ascii_host
      (Samples.engine_dir "echo-engine" Samples.EchoEngine)
      "echo" "/srv/engines/echo/echo.py" Samples.fresh_registry = (Ok result, self')
    /\ dict_get "status" result = Some (PStr "valid")
    /\ ServiceRegistry.get_engine self' "echo-engine" = None
    /\ ServiceRegistry.get_engine self' "0b5e6c1a-7d7f-4a0e-9f53-2a1c8e4d9b10"
       = Some engine
    /\ BaseEngine.service_id (BaseEngine.self engine)
       = "0b5e6c1a-7d7f-4a0e-9f53-2a1c8e4d9b10"
    /\ BaseEngine.status (BaseEngine.self engine) = "running".
Proof.
  do 3 eexists. split; [vm_compute; reflexivity|].
  split_and!; vm_compute; reflexivity.
Qed.

(** ** The plugin hook chain *)

Section HookChain.
Import PluginManager.
Context {W : Type}.
Implicit Types (self : t W) (w : W) (ps : list (Plugin W)).

(** The observational loop calls every plugin, in order, whatever the
    plugins return or raise. *)
Lemma notify_each_runs_all call what ps self w :
  runs_all call ps self w (notify_each call what ps self w).
Proof.
  revert self w. induction ps as [|p ps IH]; intros self w.
  - split; cbn; [done|by rewrite app_nil_r].
  - cbn [notify_each]. unfold runs_all.
    destruct (call p w) as [[r|e] w1] eqn:Hc.
    + destruct (IH (note_call self p) w1) as [Hw Hi].
      split.
      * rewrite Hw. cbn [world_after fold_left]. by rewrite Hc.
      * rewrite Hi. cbn. by rewrite <- app_assoc.
    + destruct (IH (log_error (note_call self p)
                      (what +:+ "，插件: " +:+ get_name p +:+ "，错误: " +:+ exn_msg e)) w1)
        as [Hw Hi].
      split.
      * rewrite Hw. cbn [world_after fold_left]. by rewrite Hc.
      * rewrite Hi. cbn. by rewrite <- app_assoc.
Qed.

(** The short-circuiting loop stops at the first plugin that returns a
    value; plugins that return [None] or raise let it continue. *)
Lemma first_response_short_circuits call what ps self w :
  short_circuits call ps self w (first_response call what ps self w).
Proof.
  revert self w. induction ps as [|p ps IH]; intros self w.
  - right. cbn. split_and!; try done. by rewrite app_nil_r.
  - cbn [first_response].
    destruct (call p w) as [[r|e] w1] eqn:Hc.
    + destruct (is_none r) eqn:Hn; cbn [negb].
      * destruct (IH (note_call self p) w1)
          as [(pre & q & post & r' & w' & -> & Hpass & Hq & Hr & Ho1 & Ho2 & Hi)
             |(Hpass & Ho1 & Ho2 & Hi)].
        -- left. exists (p :: pre), q, post, r', w'. split_and!; try done.
           ++ cbn. unfold passes. rewrite Hc. cbn. by rewrite Hn.
           ++ cbn [world_after fold_left] in *. by rewrite Hc.
           ++ rewrite Hi. cbn. by rewrite <- app_assoc.
        -- right. split_and!; try done.
           ++ cbn. unfold passes. rewrite Hc. cbn. by rewrite Hn.
           ++ rewrite Ho2. cbn [world_after fold_left]. by rewrite Hc.
           ++ rewrite Hi. cbn. by rewrite <- app_assoc.
      * left. exists [], p, ps, r, w1. split_and!; try done.
    + set (self1 := log_error _ _).
      destruct (IH self1 w1)
          as [(pre & q & post & r' & w' & -> & Hpass & Hq & Hr & Ho1 & Ho2 & Hi)
             |(Hpass & Ho1 & Ho2 & Hi)].
      * left. exists (p :: pre), q, post, r', w'. split_and!; try done.
        -- cbn. unfold passes. by rewrite Hc.
        -- cbn [world_after fold_left] in *. by rewrite Hc.
        -- rewrite Hi. cbn. by rewrite <- app_assoc.
      * right. split_and!; try done.
        -- cbn. unfold passes. by rewrite Hc.
        -- rewrite Ho2. cbn [world_after fold_left]. by rewrite Hc.
        -- rewrite Hi. cbn. by rewrite <- app_assoc.
Qed.

(** A raising plugin is recorded in the error log and the next plugin is
    called in the world the raising one left. *)
Lemma notify_each_after_raise call what p ps self w e w1 :
  call p w = (Raise e, w1) ->
  notify_each call what (p :: ps) self w =
  notify_each call what ps
    (log_error (note_call self p)
       (what +:+ "，插件: " +:+ get_name p +:+ "，错误: " +:+ exn_msg e)) w1.
Proof. intros H. cbn [notify_each]. by rewrite H. Qed.

Lemma dict_set_fresh {V} k (v : V) d :
  dict_get k d = None -> dict_set k v d = d ++ [(k, v)].
Proof.
  induction d as [|[k' v'] d IH]; cbn; [done|].
  destruct (String.eqb k k'); [done|]. intros H. by rewrite IH.
Qed.

Lemma dict_get_app_fresh {V} k k' (v : V) d :
  k <> k' -> dict_get k d = None -> dict_get k (d ++ [(k', v)]) = None.
Proof.
  intros Hne. induction d as [|[k'' v''] d IH]; cbn.
  - by apply String.eqb_neq in Hne as ->.
  - destruct (String.eqb k k''); [done|]. exact IH.
Qed.

(** Plugins registered under distinct names are kept in registration
    order. *)
Lemma register_plugins_appends ps self :
  NoDup (map get_name ps) ->
  Forall (fun p => dict_get (get_name p) (plugins self) = None) ps ->
  plugins (fold_left _register_plugin ps self) =
  plugins self ++ map (fun p => (get_name p, p)) ps
  /\ invoked (fold_left _register_plugin ps self) = invoked self.
Proof.
  revert self. induction ps as [|p ps IH]; intros self Hnd Hfresh.
  - cbn. by rewrite app_nil_r.
  - apply NoDup_cons in Hnd as [Hnotin Hnd].
    apply Forall_cons in Hfresh as [Hp Hfresh].
    cbn [fold_left]. destruct (IH (_register_plugin self p) Hnd) as [IHp IHi].
    + cbn [_register_plugin plugins]. rewrite (dict_set_fresh _ _ _ Hp).
      rewrite Forall_forall in Hfresh |- *. intros q Hq.
      apply dict_get_app_fresh; [|by apply Hfresh].
      intros Heq. apply Hnotin. rewrite <- Heq.
      apply list_elem_of_fmap. by exists q.
    + rewrite IHp, IHi. cbn [_register_plugin plugins invoked].
      rewrite (dict_set_fresh _ _ _ Hp). by rewrite <- app_assoc.
Qed.

Lemma registered_plugins_values ps :
  NoDup (map get_name ps) ->
  dict_values (plugins (fold_left _register_plugin ps empty)) = ps.
Proof.
  intros Hnd. destruct (register_plugins_appends ps empty Hnd) as [-> _].
  - apply Forall_forall. by intros.
  - cbn [empty plugins app]. unfold dict_values. rewrite map_map. cbn.
    apply map_id.
Qed.

(** C9: with the plugins [ps] loaded in this order under distinct names,
    every hook calls the plugins in registration order.  The hooks
    request-incoming, route-matching and response-outgoing stop at the first
    plugin that returns a value and return that value, the plugins before it
    having returned [None] or raised; if there is none they call every
    plugin and return [None].  The hooks service-calling-engine and
    engine-responding call every plugin, whatever it returns or raises. *)
Theorem hooks_run_in_registration_order ps w :
  NoDup (map get_name ps) ->
  let self := fold_left _register_plugin ps empty in
  (forall request,
      short_circuits (fun p => on_request_incoming p request) ps self w
        (notify_request_incoming self request w))
  /\ (forall path method,
      short_circuits (fun p => on_route_matching p path method) ps self w
        (notify_route_matching self path method w))
  /\ (forall response,
      short_circuits (fun p => on_response_outgoing p response) ps self w
        (notify_response_outgoing self response w))
  /\ (forall service_id engine_id action data,
      runs_all (fun p => on_service_calling_engine p service_id engine_id action data)
        ps self w
        (notify_service_calling_engine self service_id engine_id action data w))
  /\ (forall engine_id action response,
      runs_all (fun p => on_engine_responding p engine_id action response)
        ps self w
        (notify_engine_responding self engine_id action response w)).
Proof.
  intros Hnd self.
  pose proof (registered_plugins_values ps Hnd) as Hvalues. fold self in Hvalues.
  unfold notify_request_incoming, notify_route_matching,
    notify_response_outgoing, notify_service_calling_engine,
    notify_engine_responding.
  rewrite Hvalues.
  split_and!; intros;
    first [apply first_response_short_circuits | apply notify_each_runs_all].
Qed.
End HookChain.

(** [Broken] raises, [Limiter] answers, [Quiet] is never asked. *)
Lemma hooks_run_in_registration_order_witness :
  PluginManager.short_circuits
    (fun p => PluginManager.on_request_incoming p PNone)
    [Samples.Broken; Samples.Limiter; Samples.Quiet] Samples.three_plugins 0
    (PluginManager.notify_request_incoming Samples.three_plugins PNone 0)
  /\ PluginManager.runs_all
       (fun p => PluginManager.on_engine_responding p "echo" "ping" [])
       [Samples.Broken; Samples.Limiter; Samples.Quiet] Samples.three_plugins 0
       (PluginManager.notify_engine_responding Samples.three_plugins "echo" "ping" [] 0).
Proof.
  destruct (hooks_run_in_registration_order
              [Samples.Broken; Samples.Limiter; Samples.Quiet] 0)
    as (Hincoming & _ & _ & _ & Hresponding).
  - apply (bool_decide_unpack _). vm_compute. exact I.
  - split; [apply Hincoming | apply Hresponding].
Defined.

(** The run of the witness, spelled out. *)
Lemma three_plugins_run :
  (PluginManager.notify_request_incoming Samples.three_plugins PNone 0).1.1 = PStr "429"
  /\ PluginManager.invoked
       (PluginManager.notify_request_incoming Samples.three_plugins PNone 0).1.2
     = ["Broken"; "Limiter"]
  /\ PluginManager.invoked
       (PluginManager.notify_engine_responding Samples.three_plugins "echo" "ping" [] 0).1
     = ["Broken"; "Limiter"; "Quiet"]
  /\ (PluginManager.notify_engine_responding Samples.three_plugins "echo" "ping" [] 0).2
     = 3.
Proof. split_and!; reflexivity. Qed.

(** ** Engine routes: documented, never mounted *)

Section EngineRoutes.
Import APIMapper.
Variable h : host.
Variable w : world.

(** One readable entry: it is skipped on a conflict and recorded
    otherwise. *)
Lemma register_engine_api_spec sid api self :
  readable h api = true ->
  exists self',
    _register_engine_api h w sid api (_normalize_path (api_prefix_of sid)) self
    = (Ok tt, self')
    /\ main_router self' = main_router self
    /\ routers self' = routers self
    /\ ((_check_path_conflict self (engine_full_path h sid api)
            [engine_method h api] sid = true
         /\ api_registry self' = api_registry self)
        \/ (_check_path_conflict self (engine_full_path h sid api)
              [engine_method h api] sid = false
            /\ exists entry,
                api_registry self' =
                  <[engine_full_path h sid api := entry]> (api_registry self)
                /\ ai_service_id entry = sid
                /\ ai_full_path entry = engine_full_path h sid api
                /\ ai_methods entry = [engine_method h api]
                /\ ai_endpoint entry = "default_endpoint")).
Proof.
  unfold readable, engine_full_path, engine_method.
  intros H. apply andb_true_iff in H as [Ht Hs].
  set (prefix := _normalize_path (api_prefix_of sid)).
  unfold _register_engine_api.
  destruct (engine_api_target h api) as [[np m]|] eqn:Htarget; [|done].
  cbn [lift se_bind].
  assert (exists d, api = PDict d) as [d ->].
  { destruct api; try done. eauto. }
  cbn [py_get lift se_bind].
  unfold api_description in Hs.
  destruct (default_summary _) as [summary|] eqn:Hsum; [|done].
  unfold gets. cbn [se_bind].
  destruct (_check_path_conflict self (prefix +:+ np) [m] sid) eqn:Hc.
  - exists self. split_and!; try done. by left.
  - unfold _build_api_info. rewrite Hsum. cbn [bind lift se_bind modify].
    eexists. split; [reflexivity|]. split_and!; try done.
    right. split; [done|]. eexists. split; [reflexivity|]. done.
Qed.

Lemma check_path_conflict_registered self full methods sid :
  _check_path_conflict self full methods sid = true ->
  is_Some (api_registry self !! full).
Proof. unfold _check_path_conflict. destruct (_ !! _); [eauto|done]. Qed.

Lemma check_path_conflict_fresh self full methods sid :
  api_registry self !! full = None ->
  _check_path_conflict self full methods sid = false.
Proof. unfold _check_path_conflict. by intros ->. Qed.

(** The loop over the [apis] of an engine: it terminates normally on
    readable entries, touches neither the routers nor the main router, keeps
    every key of the registry and leaves an entry at the key of every
    route. *)
Lemma register_engine_apis_spec sid apis self :
  Forall (fun api => readable h api = true) apis ->
  exists self',
    register_engine_apis h w sid apis (_normalize_path (api_prefix_of sid)) self
    = (Ok tt, self')
    /\ main_router self' = main_router self
    /\ routers self' = routers self
    /\ (forall k, is_Some (api_registry self !! k) -> is_Some (api_registry self' !! k))
    /\ Forall (fun api => is_Some (api_registry self' !! engine_full_path h sid api)) apis.
Proof.
  intros Hall. revert self. induction Hall as [|api apis Hapi Hall IH]; intros self.
  - exists self. split_and!; try done.
  - destruct (register_engine_api_spec sid api self Hapi)
      as (s1 & Hstep & Hmain1 & Hrouters1 & Hreg1).
    destruct (IH s1) as (s2 & Hrest & Hmain2 & Hrouters2 & Hkeep2 & Hall2).
    exists s2. cbn [register_engine_apis].
    rewrite (se_bind_ok _ _ _ _ _ Hstep). split; [done|].
    assert (forall k, is_Some (api_registry self !! k) -> is_Some (api_registry s1 !! k))
      as Hkeep1.
    { intros k Hk. destruct Hreg1 as [[_ ->]|[_ (entry & -> & _)]]; [done|].
      destruct (decide (engine_full_path h sid api = k)) as [->|Hne].
      - rewrite lookup_insert_eq. eauto.
      - by rewrite lookup_insert_ne. }
    split_and!; try congruence.
    + intros k Hk. auto.
    + constructor; [|done]. apply Hkeep2.
      destruct Hreg1 as [[Hc _]|[_ (entry & -> & _)]].
      * apply Hkeep1. by eapply check_path_conflict_registered.
      * rewrite lookup_insert_eq. eauto.
Qed.

(** When the routes of the engine have pairwise distinct keys, none of them
    registered yet, every one of them is recorded as the engine's entry. *)
Lemma register_engine_apis_distinct sid apis self :
  Forall (fun api => readable h api = true) apis ->
  NoDup (map (engine_full_path h sid) apis) ->
  Forall (fun api => api_registry self !! engine_full_path h sid api = None) apis ->
  exists self',
    register_engine_apis h w sid apis (_normalize_path (api_prefix_of sid)) self
    = (Ok tt, self')
    /\ (forall k, k ∉ map (engine_full_path h sid) apis ->
          api_registry self' !! k = api_registry self !! k)
    /\ Forall (fun api =>
         exists entry,
           api_registry self' !! engine_full_path h sid api = Some entry
           /\ ai_service_id entry = sid
           /\ ai_full_path entry = engine_full_path h sid api
           /\ ai_methods entry = [engine_method h api]) apis.
Proof.
  intros Hall. revert self.
  induction Hall as [|api apis Hapi Hall IH]; intros self Hnodup Hfresh.
  - exists self. split_and!; try done.
  - cbn [map] in Hnodup. apply NoDup_cons in Hnodup as [Hnotin Hnodup].
    apply Forall_cons in Hfresh as [Hfresh1 Hfresh].
    destruct (register_engine_api_spec sid api self Hapi)
      as (s1 & Hstep & _ & _ & Hreg1).
    destruct Hreg1 as [[Hc _]|[_ (entry & Hreg1 & Hsid & Hfull & Hm & _)]].
    { by rewrite (check_path_conflict_fresh _ _ _ _ Hfresh1) in Hc. }
    destruct (IH s1 Hnodup) as (s2 & Hrest & Hother & Hall2).
    { rewrite Forall_forall in Hfresh |- *. intros api' Hin.
      rewrite Hreg1, lookup_insert_ne; [by apply Hfresh|].
      intros Heq. apply Hnotin. rewrite Heq.
      apply list_elem_of_fmap. by exists api'. }
    exists s2. cbn [register_engine_apis].
    rewrite (se_bind_ok _ _ _ _ _ Hstep). split; [done|]. split.
    + intros k Hk. cbn [map] in Hk. apply not_elem_of_cons in Hk as [Hk1 Hk2].
      rewrite (Hother k Hk2), Hreg1. by rewrite lookup_insert_ne.
    + constructor; [|done]. exists entry. split_and!; try done.
      rewrite (Hother _ Hnotin), Hreg1. apply lookup_insert_eq.
Qed.

(** *** The main router is out of reach of the engine steps *)

Lemma register_engine_api_main_router sid api prefix self :
  main_router (snd (_register_engine_api h w sid api prefix self)) = main_router self.
Proof.
  unfold _register_engine_api, se_bind, lift, gets, modify, ret.
  destruct (engine_api_target h api) as [[np m]|]; [|done].
  destruct (py_get api "description" (PStr "")) as [description|]; [|done].
  destruct (py_get api "tags" (PList [PStr sid])) as [tags|]; [|done].
  destruct (_check_path_conflict _ _ _ _); [done|].
  destruct (_build_api_info _ _ _ _ _ _ _ _) as [info|]; done.
Qed.

Lemma register_engine_apis_main_router sid apis prefix self :
  main_router (snd (register_engine_apis h w sid apis prefix self)) = main_router self.
Proof.
  revert self. induction apis as [|api apis IH]; intros self; [done|].
  cbn [register_engine_apis]. unfold se_bind.
  pose proof (register_engine_api_main_router sid api prefix self) as Hstep.
  destruct (_register_engine_api h w sid api prefix self) as [[[]|e] s1];
    cbn [snd] in *; [|done].
  by rewrite IH.
Qed.

Lemma map_engine_service_main_router sid info result self :
  main_router (snd (_map_engine_service h w sid info result self)) = main_router self.
Proof.
  unfold _map_engine_service, se_bind, modify, lift, ret.
  destruct (iterate _) as [apis|]; [|done].
  match goal with
  | |- context [register_engine_apis h w sid apis ?p ?s] =>
      pose proof (register_engine_apis_main_router sid apis p s) as Hloop;
      destruct (register_engine_apis h w sid apis p s) as [[[]|e] s1]
  end; cbn [snd] in *; by rewrite Hloop.
Qed.

(** The effect of a business step on the main router depends on nothing
    but the main router. *)
Lemma map_business_apis_main_router info self1 self2 :
  main_router self1 = main_router self2 ->
  fst (map_business_apis w info self1) = fst (map_business_apis w info self2)
  /\ main_router (snd (map_business_apis w info self1))
     = main_router (snd (map_business_apis w info self2)).
Proof.
  intros Hmain. unfold map_business_apis.
  destruct (negb _ || negb _); [done|].
  destruct (dict_get_default "service_id" PNone info) as [| | |sid| |]; try done.
  destruct (dict_get_default "business_path" PNone info) as [| | |bp| |]; try done.
  destruct (bind _ _) as [apis|]; [|done].
  unfold create_router. cbn [fst snd].
  destruct (routes (load_route_module _ _ _ _ _)) eqn:Hroutes;
    cbn [fold_left set_main_router set_routers main_router fst snd];
    by rewrite Hmain.
Qed.

Lemma map_service_main_router service r1 r2 self1 self2 :
  main_router self1 = main_router self2 ->
  is_engine_service service = false ->
  main_router (snd (map_service h w service r1 self1))
  = main_router (snd (map_service h w service r2 self2)).
Proof.
  intros Hmain Hne. unfold map_service, try_except, is_engine_service in *.
  rewrite Hne.
  destruct (String.eqb (s_type service) "business"); [|done].
  unfold _map_business_service.
  destruct (map_business_apis_main_router (s_info service) self1 self2 Hmain)
    as [Hok Hm].
  destruct (map_business_apis w (s_info service) self1) as [ok1 s1].
  destruct (map_business_apis w (s_info service) self2) as [ok2 s2].
  cbn [fst snd] in *. subst ok2. by destruct ok1.
Qed.

Lemma map_service_engine_main_router service result self :
  is_engine_service service = true ->
  main_router (snd (map_service h w service result self)) = main_router self.
Proof.
  unfold is_engine_service. intros He%String.eqb_eq.
  unfold map_service, try_except. rewrite He. cbn [String.eqb Ascii.eqb Bool.eqb].
  pose proof (map_engine_service_main_router (s_service_id service)
                (s_info service) result self) as H.
  destruct (_map_engine_service _ _ _ _ _ _) as [[r|e] s1]; cbn [snd] in *; done.
Qed.

Lemma map_services_without_engines services r1 r2 self1 self2 :
  main_router self1 = main_router self2 ->
  main_router (snd (map_services h w services r1 self1))
  = main_router
      (snd (map_services h w
              (filter (fun s => is_engine_service s = false) services) r2 self2)).
Proof.
  revert r1 r2 self1 self2.
  induction services as [|service services IH]; intros r1 r2 self1 self2 Hmain;
    [done|].
  cbn [map_services]. rewrite filter_cons.
  destruct (decide (is_engine_service service = false)) as [Hne|He].
  - cbn [map_services].
    pose proof (map_service_main_router service r1 r2 self1 self2 Hmain Hne) as Hstep.
    destruct (map_service h w service r1 self1) as [[r1'|e1] s1];
      destruct (map_service h w service r2 self2) as [[r2'|e2] s2];
      cbn [snd] in Hstep; by apply IH.
  - apply not_false_is_true in He.
    pose proof (map_service_engine_main_router service r1 self1 He) as Hstep.
    destruct (map_service h w service r1 self1) as [[r1'|e1] s1];
      cbn [snd] in Hstep; apply IH; congruence.
Qed.

Lemma list_apis_elem self entry :
  entry ∈ list_apis self <-> exists k, api_registry self !! k = Some entry.
Proof.
  unfold list_apis. rewrite list_elem_of_fmap. split.
  - intros ([k v] & -> & Hin). exists k. by apply elem_of_map_to_list.
  - intros (k & Hk). exists (k, entry). split; [done|].
    by apply elem_of_map_to_list.
Qed.

Lemma map_engine_service_spec sid info result self apis :
  iterate (dict_get_default "apis" (PList []) info) = Ok apis ->
  Forall (fun api => readable h api = true) apis ->
  exists self',
    _map_engine_service h w sid info result self
    = (Ok (fst result ++ [sid], snd result), self')
    /\ main_router self' = main_router self
    /\ routers self' !! sid
       = Some (mk_router (_normalize_path (_normalize_path (api_prefix_of sid))) [])
    /\ Forall (fun api => is_Some (api_registry self' !! engine_full_path h sid api)) apis
    /\ (NoDup (map (engine_full_path h sid) apis) ->
        Forall (fun api => api_registry self !! engine_full_path h sid api = None) apis ->
        Forall (fun api =>
          exists entry,
            entry ∈ list_apis self'
            /\ ai_service_id entry = sid
            /\ ai_full_path entry = engine_full_path h sid api
            /\ ai_methods entry = [engine_method h api]) apis).
Proof.
  intros Hiter Hall. unfold _map_engine_service.
  unfold modify at 1. cbn [se_bind]. rewrite Hiter. cbn [lift se_bind].
  set (s0 := snd (create_router self sid (_normalize_path (api_prefix_of sid)))).
  destruct (register_engine_apis_spec sid apis s0 Hall)
    as (s1 & Hloop & Hmain & Hrouters & _ & Hsome).
  exists s1. rewrite (se_bind_ok _ _ _ _ _ Hloop). split; [reflexivity|].
  split_and!.
  - by rewrite Hmain.
  - rewrite Hrouters. unfold s0, create_router. cbn. apply lookup_insert_eq.
  - exact Hsome.
  - intros Hnodup Hfresh.
    destruct (register_engine_apis_distinct sid apis s0 Hall Hnodup Hfresh)
      as (s1' & Hloop' & _ & Hentries).
    assert (s1' = s1) as -> by congruence.
    eapply Forall_impl; [exact Hentries|].
    intros api (entry & Hlook & Hrest). exists entry. split; [|done].
    apply list_apis_elem. eauto.
Qed.

(** The step of [map_all_apis] on a service of type [engine] whose info
    has an [apis] entry, which the info of a discovered engine does not
    have.  When the [apis] entries are readable, the step succeeds and
    leaves the main router untouched; every declared route has an entry in the API registry
    at its key under the engine prefix, which is the engine's own entry with
    the declared method when the keys of the engine are pairwise distinct
    and were free (an entry whose key is taken with an intersecting method
    set is skipped, one whose key is taken with other methods replaces the
    earlier entry).  The main router after [map_all_apis] is the one that
    the same run without the engines produces. *)
Lemma engine_routes_documented_not_mounted
    (e : service) (result : list string * list string) (self : t)
    (apis : list pyval) (services : list service) (start : t) :
  is_engine_service e = true ->
  iterate (dict_get_default "apis" (PList []) (s_info e)) = Ok apis ->
  Forall (fun api => readable h api = true) apis ->
  (exists self',
      map_service h w e result self
      = (Ok (fst result ++ [s_service_id e], snd result), self')
      /\ main_router self' = main_router self
      /\ Forall (fun api =>
           is_Some (api_registry self' !! engine_full_path h (s_service_id e) api))
           apis
      /\ (NoDup (map (engine_full_path h (s_service_id e)) apis) ->
          Forall (fun api =>
            api_registry self !! engine_full_path h (s_service_id e) api = None)
            apis ->
          Forall (fun api =>
            exists entry,
              entry ∈ list_apis self'
              /\ ai_service_id entry = s_service_id e
              /\ ai_full_path entry = engine_full_path h (s_service_id e) api
              /\ ai_methods entry = [engine_method h api]) apis))
  /\ main_router (snd (map_all_apis h w services start))
     = main_router
         (snd (map_all_apis h w
                 (filter (fun s => is_engine_service s = false) services) start)).
Proof.
  intros He Hiter Hall. split.
  - destruct (map_engine_service_spec (s_service_id e) (s_info e) result self apis
                Hiter Hall) as (self' & Hstep & Hmain & _ & Hsome & Hlisted).
    exists self'. split_and!; try done.
    unfold map_service, try_except. unfold is_engine_service in He.
    apply String.eqb_eq in He. rewrite He. cbn [String.eqb Ascii.eqb Bool.eqb].
    by rewrite Hstep.
  - unfold map_all_apis. by apply map_services_without_engines.
Qed.
End EngineRoutes.

(** An engine that documents [GET /health] and [POST /posts]. *)
Lemma engine_routes_documented_not_mounted_witness :
  exists self',
    APIMapper.map_service ascii_host Samples.plain_world Samples.health_engine ([], [])
      APIMapper.__init__ = (Ok (["file-engine"], []), self')
    /\ APIMapper.main_router self' = APIMapper.main_router APIMapper.__init__
    /\ Forall (fun api =>
         exists entry,
           entry ∈ APIMapper.list_apis self'
           /\ APIMapper.ai_service_id entry = "file-engine"
           /\ APIMapper.ai_full_path entry
              = APIMapper.engine_full_path ascii_host "file-engine" api
           /\ APIMapper.ai_methods entry = [APIMapper.engine_method ascii_host api])
         [Samples.api "/health" "GET"; Samples.api "/posts" "POST"].
Proof.
  destruct (engine_routes_documented_not_mounted ascii_host Samples.plain_world
              Samples.health_engine ([], []) APIMapper.__init__
              [Samples.api "/health" "GET"; Samples.api "/posts" "POST"]
              [Samples.health_engine] APIMapper.__init__)
    as ((self' & Hstep & Hmain & _ & Hlisted) & _).
  - reflexivity.
  - reflexivity.
  - repeat constructor.
  - exists self'. split_and!; try done. apply Hlisted.
    + apply (bool_decide_unpack _). vm_compute. exact I.
    + repeat constructor.
Defined.

(** A service of type [engine] whose info documents [GET /posts] and
    [POST /posts]: after [map_all_apis] the listing holds one entry for the
    path, the [POST] one, and the [GET] route appears nowhere. *)
Lemma engine_route_replaced_in_listing :
  let listing :=
    APIMapper.list_apis
      (snd (APIMapper.map_all_apis ascii_host Samples.plain_world
              [Samples.posts_engine] APIMapper.__init__)) in
  listing
  = [ {| APIMapper.ai_service_id := "file-engine";
         APIMapper.ai_path := "/posts";
         APIMapper.ai_full_path := "/api/file-engine/posts";
         APIMapper.ai_methods := ["POST"];
         APIMapper.ai_endpoint := "default_endpoint";
         APIMapper.ai_description := PStr "";
         APIMapper.ai_tags := PList [PStr "file-engine"];
         APIMapper.ai_responses := PDict [];
         APIMapper.ai_request_body := PNone;
         APIMapper.ai_parameters := PList [];
         APIMapper.ai_summary := PStr "";
         APIMapper.ai_registered_at := "2024-01-01T00:00:00" |} ]
  /\ ~ (exists entry,
         entry ∈ listing
         /\ APIMapper.ai_full_path entry = "/api/file-engine/posts"
         /\ "GET" ∈ APIMapper.ai_methods entry).
Proof.
  intros listing.
  assert (listing
          = [ {| APIMapper.ai_service_id := "file-engine";
                 APIMapper.ai_path := "/posts";
                 APIMapper.ai_full_path := "/api/file-engine/posts";
                 APIMapper.ai_methods := ["POST"];
                 APIMapper.ai_endpoint := "default_endpoint";
                 APIMapper.ai_description := PStr "";
                 APIMapper.ai_tags := PList [PStr "file-engine"];
                 APIMapper.ai_responses := PDict [];
                 APIMapper.ai_request_body := PNone;
                 APIMapper.ai_parameters := PList [];
                 APIMapper.ai_summary := PStr "";
                 APIMapper.ai_registered_at := "2024-01-01T00:00:00" |} ]) as Hl
    by (vm_compute; reflexivity).
  split; [exact Hl|].
  intros (entry & Hin & _ & Hget). rewrite Hl in Hin.
  apply list_elem_of_singleton in Hin. subst entry. cbn in Hget.
  apply list_elem_of_singleton in Hget. discriminate.
Qed.

(** The service info that the registry keeps for a discovered engine is
    [get_metadata()], which has no [apis] entry: for such an engine
    [_map_engine_service] records nothing. *)
Lemma map_engine_service_on_metadata h w sid a result self :
  APIMapper.api_registry
    (snd (APIMapper._map_engine_service h w sid (BaseEngine.get_metadata a) result self))
  = APIMapper.api_registry self.
Proof. reflexivity. Qed.

(** ** Manifest validation, templates and API paths *)

Section StandardsFacts.
Import Standards.
Variable h : host.

Lemma prefix_app a b : String.prefix a (a +:+ b) = true.
Proof.
  induction a as [|c a IH]; [by destruct b|].
  change (String c a +:+ b) with (String c (a +:+ b)).
  cbn [String.prefix]. by destruct (ascii_dec c c).
Qed.

Lemma prefix_app_app a b c : String.prefix (a +:+ b) (a +:+ b +:+ c) = true.
Proof.
  induction a as [|x a IH]; [exact (prefix_app b c)|].
  change (String.prefix (String x (a +:+ b)) (String x (a +:+ b +:+ c)) = true).
  cbn [String.prefix]. by destruct (ascii_dec x x).
Qed.

Lemma prefix_slash_api sid p : String.prefix "/" ("/api/" +:+ sid +:+ p) = true.
Proof. reflexivity. Qed.

Lemma prefix_trans a b c :
  String.prefix a b = true -> String.prefix b c = true -> String.prefix a c = true.
Proof.
  revert b c. induction a as [|x a IH]; intros [|y b] [|z c]; cbn; try done.
  destruct (ascii_dec x y) as [->|]; [|done].
  destruct (ascii_dec y z) as [->|]; [|done].
  apply IH.
Qed.

Lemma format_api_path_prefixed service_type service_id path :
  startswith ("/api/" +:+ service_id) path = true ->
  format_api_path service_type service_id path = path.
Proof. unfold format_api_path. by intros ->. Qed.

Lemma format_api_path_adds_prefix service_type service_id path :
  service_type = "business" \/ service_type = "engine" ->
  startswith "/" path = true ->
  startswith ("/api/" +:+ service_id) ("/api/" +:+ service_id +:+ path) = true.
Proof.
  intros _ _. unfold startswith. apply prefix_app_app.
Qed.

(** X1: [APIStandard.format_api_path] is idempotent: a formatted path is
    left as it is.  The result always starts with a slash, and for the
    service types [business] and [engine] it starts with
    [/api/<service_id>]. *)
Theorem format_api_path_idempotent service_type service_id path :
  format_api_path service_type service_id
    (format_api_path service_type service_id path)
  = format_api_path service_type service_id path
  /\ startswith "/" (format_api_path service_type service_id path) = true
  /\ (service_type = "business" \/ service_type = "engine" ->
      startswith ("/api/" +:+ service_id)
        (format_api_path service_type service_id path) = true).
Proof.
  destruct (startswith ("/api/" +:+ service_id) path) eqn:Hp.
  - rewrite !(format_api_path_prefixed _ _ _ Hp). split_and!; [done| |done].
    unfold startswith in *. by eapply prefix_trans; [|exact Hp].
  - set (path' := if negb (startswith "/" path) then "/" +:+ path else path).
    assert (startswith "/" path' = true) as Hs.
    { unfold path'. destruct (startswith "/" path) eqn:E; [done|].
      change (startswith "/" (String "/"%char path) = true).
      by rewrite startswith_slash_cons. }
    assert (startswith ("/api/" +:+ service_id)
              ("/api/" +:+ service_id +:+ path') = true) as Hpre.
    { unfold startswith. apply prefix_app_app. }
    assert (format_api_path service_type service_id path =
            if String.eqb service_type "business"
            then "/api/" +:+ service_id +:+ path'
            else if String.eqb service_type "engine"
            then "/api/" +:+ service_id +:+ path'
            else path') as ->.
    { unfold format_api_path. by rewrite Hp. }
    destruct (String.eqb_spec service_type "business") as [->|Hb].
    { by rewrite (format_api_path_prefixed _ _ _ Hpre). }
    destruct (String.eqb_spec service_type "engine") as [->|He].
    { by rewrite (format_api_path_prefixed _ _ _ Hpre). }
    split_and!; [|done|by intros [?|?]].
    unfold format_api_path.
    destruct (startswith ("/api/" +:+ service_id) path'); [done|].
    rewrite Hs. cbn [negb].
    apply String.eqb_neq in Hb, He. by rewrite Hb, He.
Qed.

Lemma accepted_then (m K : res pyval) :
  accepted
    (bind m (fun result =>
     bind (py_getitem result "valid") (fun valid =>
       if negb (truthy valid) then Ok result else K)))
  = accepted m && accepted K.
Proof.
  destruct m as [result|e]; [|done]. cbn [bind accepted].
  destruct (py_getitem result "valid") as [valid|e] eqn:Hv; [|done].
  cbn [bind]. destruct (truthy valid) eqn:Ht; cbn [negb andb]; [done|].
  cbn [accepted]. by rewrite Hv.
Qed.

Lemma accepted_required_fields api fields :
  accepted (_check_required_fields api fields)
  = forallb (fun f => has_field f api) fields.
Proof.
  induction fields as [|f fields IH]; [done|].
  cbn [_check_required_fields forallb]. unfold has_field at 1.
  destruct (py_in f api) as [[]|]; cbn [bind negb andb]; done.
Qed.

Lemma accepted_check_each_api apis fields :
  accepted (check_each_api apis fields)
  = forallb (fun api => forallb (fun f => has_field f api) fields) apis.
Proof.
  induction apis as [|api apis IH]; [done|].
  cbn [check_each_api forallb].
  by rewrite accepted_then, accepted_required_fields, IH.
Qed.

Lemma accepted_optional_sections cls (d : dict) is_engine final :
  accepted (validate_optional_sections h cls (PDict d) is_engine final)
  = match dict_get "database" d with
    | Some db => accepted (_validate_database_config h cls db)
    | None => true
    end
    && match dict_get "apis" d with
       | Some apis => accepted (_validate_apis_config cls apis is_engine)
       | None => true
       end.
Proof.
  unfold validate_optional_sections. cbn [py_in py_getitem bind].
  assert (forall K : pyval -> res pyval,
            accepted
              (if dict_mem "apis" d
               then bind (match dict_get "apis" d with
                          | Some v => Ok v
                          | None => Raise (mk_exn KeyError "apis")
                          end) K
               else Ok (verdict true final))
            = match dict_get "apis" d with
              | Some apis => accepted (K apis)
              | None => true
              end) as Hapis.
  { intros K. unfold dict_mem. by destruct (dict_get "apis" d). }
  unfold dict_mem at 1. destruct (dict_get "database" d) as [db|]; cbn [bind].
  - rewrite accepted_then. f_equal. rewrite Hapis.
    destruct (dict_get "apis" d); [|done].
    rewrite accepted_then. by rewrite andb_true_r.
  - rewrite Hapis. destruct (dict_get "apis" d); [|done].
    rewrite accepted_then. by rewrite andb_true_r.
Qed.

Lemma accepted_service_database (db : pyval) :
  accepted (_validate_database_config h ServiceStandard db)
  = match db with
    | PDict db =>
        match dict_get "type" db with
        | Some (PStr t) => str_in t ["sqlite"; "mysql"; "postgresql"]
        | _ => false
        end
    | _ => false
    end.
Proof.
  destruct db as [| | | | |db]; try done.
  cbn [_validate_database_config DATABASE_REQUIRED_FIELDS ServiceStandard
       class_attr bind _check_required_fields py_in].
  unfold dict_mem, dict_get_default.
  destruct (dict_get "type" db) as [t|]; cbn [negb bind]; [|done].
  cbn [verdict_ok py_getitem dict_get String.eqb Ascii.eqb Bool.eqb bind truthy negb].
  destruct (truthy t) eqn:Ht; cbn [negb]; [|by destruct t as [| | |[]| |]].
  destruct t as [| | |t| |]; try done.
  by destruct (str_in t _).
Qed.

Lemma accepted_service_apis (apis : pyval) :
  accepted (_validate_apis_config ServiceStandard apis false)
  = match apis with
    | PList l =>
        forallb (fun api => has_field "path" api && has_field "method" api) l
    | _ => false
    end.
Proof.
  destruct apis as [| | | |l|]; try done.
  cbn [_validate_apis_config API_REQUIRED_FIELDS ServiceStandard class_attr bind].
  rewrite accepted_check_each_api.
  induction l as [|api l IH]; [done|].
  cbn [forallb] in *. by rewrite IH, andb_true_r.
Qed.

Lemma validate_service_json_optional (d : dict) :
  validate_service_json h (PDict d)
  = validate_optional_sections h ServiceStandard (PDict d) false
      "Service JSON format is valid".
Proof.
  unfold validate_service_json.
  destruct (check_required_fields_dict d (REQUIRED_FIELDS ServiceStandard))
    as [v Hv].
  rewrite Hv. cbn [bind].
  rewrite (check_required_fields_truthy _ _ _ Hv). cbn [negb].
  unfold _check_service_id_format. cbn [py_get bind].
  by destruct (negb (truthy _)).
Qed.

(** X2: whether [ServiceStandard.validate_service_json] accepts a manifest
    that is a dictionary is decided by the optional sections alone.  The
    manifest is accepted exactly when its [database] entry, if any, is a
    dictionary whose [type] is one of [sqlite], [mysql] and [postgresql],
    and its [apis] entry, if any, is a list whose elements all contain
    [path] and [method]. *)
Theorem validate_service_json_accepts_iff (d : dict) :
  accepted (validate_service_json h (PDict d))
  = database_section_ok d && apis_section_ok d.
Proof.
  rewrite validate_service_json_optional, accepted_optional_sections.
  unfold database_section_ok, apis_section_ok. f_equal.
  - destruct (dict_get "database" d) as [db|]; [|done].
    rewrite accepted_service_database. by destruct db.
  - destruct (dict_get "apis" d) as [apis|]; [|done].
    rewrite accepted_service_apis. by destruct apis.
Qed.

Lemma accepted_engine_database (db : pyval) :
  accepted (_validate_database_config h EngineStandard db) = false.
Proof. by destruct db. Qed.

Lemma accepted_engine_apis (apis : pyval) :
  accepted (_validate_apis_config EngineStandard apis true) = false.
Proof. by destruct apis. Qed.

(** With an [engine_type] that is a string, whichever it is,
    [validate_engine_json] goes on to the optional sections. *)
Lemma validate_engine_json_sections (d : dict) (t : string) :
  dict_get_default "engine_type" (PStr "") d = PStr t ->
  validate_engine_json h (PDict d)
  = validate_optional_sections h EngineStandard (PDict d) true
      "Engine JSON format is valid".
Proof.
  intros Ht. unfold validate_engine_json.
  destruct (check_required_fields_dict d (REQUIRED_FIELDS EngineStandard))
    as [v Hv].
  rewrite Hv. cbn [bind].
  rewrite (check_required_fields_truthy _ _ _ Hv). cbn [negb].
  unfold _check_engine_type. cbn [py_get bind]. rewrite Ht.
  by destruct (negb (str_in _ _)).
Qed.

(** X3: [EngineStandard.validate_engine_json] accepts a manifest that is a
    dictionary exactly when its [engine_type] (the empty string if absent)
    is a string and the manifest has neither a [database] nor an [apis] key.
    An [engine_type] that is not a string raises [AttributeError].  With
    one that is a string, whichever engine type it names, the outcome is
    decided by the two sections: a [database] that is a dictionary raises
    [AttributeError] (the validator reads a class attribute that
    [EngineStandard] does not define) and any other [database] is answered
    with the verdict "Database config must be a dictionary"; without a
    [database], an [apis] that is a list raises [AttributeError] for the
    same reason, any other [apis] is answered with the verdict "APIs must
    be a list", and a manifest without both sections is valid. *)
Theorem validate_engine_json_accepts_iff (d : dict) :
  (accepted (validate_engine_json h (PDict d)) = true
   <-> (exists t, dict_get_default "engine_type" (PStr "") d = PStr t)
       /\ dict_mem "database" d = false
       /\ dict_mem "apis" d = false)
  /\ ((forall t, dict_get_default "engine_type" (PStr "") d <> PStr t) ->
      exists e,
        validate_engine_json h (PDict d) = Raise e
        /\ exn_cls e = AttributeError)
  /\ (forall t,
        dict_get_default "engine_type" (PStr "") d = PStr t ->
        match dict_get "database" d with
        | Some (PDict _) =>
            exists e,
              validate_engine_json h (PDict d) = Raise e
              /\ exn_cls e = AttributeError
        | Some _ =>
            validate_engine_json h (PDict d)
            = Ok (verdict false "Database config must be a dictionary")
        | None =>
            match dict_get "apis" d with
            | Some (PList _) =>
                exists e,
                  validate_engine_json h (PDict d) = Raise e
                  /\ exn_cls e = AttributeError
            | Some _ =>
                validate_engine_json h (PDict d)
                = Ok (verdict false "APIs must be a list")
            | None =>
                validate_engine_json h (PDict d)
                = Ok (verdict true "Engine JSON format is valid")
            end
        end).
Proof.
  split_and!.
  - unfold validate_engine_json.
    destruct (check_required_fields_dict d (REQUIRED_FIELDS EngineStandard))
      as [v Hv].
    rewrite Hv. cbn [bind].
    rewrite (check_required_fields_truthy _ _ _ Hv). cbn [negb].
    unfold _check_engine_type. cbn [py_get bind].
    destruct (dict_get_default "engine_type" (PStr "") d) as [| | |t| |] eqn:Ht;
      try (cbn [bind accepted]; split; [done|by intros [[? [=]] _]]).
    assert (forall K : res pyval,
              bind (if negb (str_in (lower h t) (ENGINE_TYPES EngineStandard))
                    then Ok (verdict false
                               ("Invalid engine type: " +:+ lower h t +:+
                                ". Must be one of network, kernel"))
                    else Ok verdict_ok)
                (fun engine_type =>
                   if negb (truthy engine_type)
                   then Ok (verdict false "Invalid engine type") else K) = K) as ->.
    { intros K. by destruct (negb _). }
    rewrite accepted_optional_sections. unfold dict_mem.
    destruct (dict_get "database" d) as [db|].
    { rewrite accepted_engine_database. split; [done|by intros (_ & [=] & _)]. }
    destruct (dict_get "apis" d) as [apis|].
    { rewrite accepted_engine_apis. split; [done|by intros (_ & _ & [=])]. }
    split; [eauto|done].
  - intros Hnot. unfold validate_engine_json.
    destruct (check_required_fields_dict d (REQUIRED_FIELDS EngineStandard))
      as [v Hv].
    rewrite Hv. cbn [bind].
    rewrite (check_required_fields_truthy _ _ _ Hv). cbn [negb].
    unfold _check_engine_type. cbn [py_get bind].
    destruct (dict_get_default "engine_type" (PStr "") d) as [| | |t| |];
      try (cbn [bind]; eexists; split; reflexivity).
    by destruct (Hnot t).
  - intros t Ht. rewrite (validate_engine_json_sections d t Ht).
    unfold validate_optional_sections. cbn [py_in py_getitem bind].
    unfold dict_mem.
    destruct (dict_get "database" d) as [[| | | | |db]|]; cbn [bind];
      try reflexivity.
    { eexists. split; reflexivity. }
    destruct (dict_get "apis" d) as [[| | | |apis|]|]; cbn [bind];
      try reflexivity.
    eexists. split; reflexivity.
Qed.

(** X4: the template of [get_default_service_json] passes
    [validate_service_json] for every id, name and version, whereas
    [validate_engine_json] raises [AttributeError] on the template of
    [get_default_engine_json], for every choice of its arguments. *)
Theorem default_templates_validation
    (service_id service_name version engine_type : pyval) :
  validate_service_json h (get_default_service_json service_id service_name version)
  = Ok (verdict true "Service JSON format is valid")
  /\ exists e,
       validate_engine_json h
         (get_default_engine_json service_id service_name version engine_type)
       = Raise e
       /\ exn_cls e = AttributeError.
Proof.
  split.
  - unfold get_default_service_json.
    rewrite validate_service_json_optional. reflexivity.
  - unfold validate_engine_json, get_default_engine_json.
    cbn [REQUIRED_FIELDS EngineStandard _check_required_fields py_in dict_mem
         dict_get String.eqb Ascii.eqb Bool.eqb negb bind truthy verdict_ok].
    unfold _check_engine_type.
    cbn [py_get dict_get_default dict_get String.eqb Ascii.eqb Bool.eqb bind].
    destruct engine_type as [| | |t| |]; try (eexists; split; reflexivity).
    cbn [bind]. destruct (negb (str_in _ _)); eexists; split; reflexivity.
Qed.
End StandardsFacts.

(** [engine] paths without the prefix gain it once. *)
Lemma format_api_path_idempotent_witness :
  Standards.format_api_path "engine" "permdog"
    (Standards.format_api_path "engine" "permdog" "permissions")
  = Standards.format_api_path "engine" "permdog" "permissions"
  /\ startswith ("/api/" +:+ "permdog")
       (Standards.format_api_path "engine" "permdog" "permissions") = true.
Proof.
  destruct (format_api_path_idempotent "engine" "permdog" "permissions")
    as (Hidem & _ & Hprefix).
  split; [exact Hidem|]. apply Hprefix. by right.
Defined.

(** ** Version compatibility: [is_compatible] *)

Section Compatibility.
Import BaseEngine.
Variable int_ : string -> option Z.

Lemma nth_guard i (l : list Z) :
  (if (i <? length l)%nat then nth i l 0%Z else 0%Z) = hd 0%Z (skipn i l).
Proof.
  revert l. induction i as [|i IH]; intros [|x l]; try done.
  cbn [length skipn nth]. rewrite <- IH.
  by replace (S i <? S (length l))%nat with (i <? length l)%nat.
Qed.

Lemma skipn_S_tl {A} i (l : list A) : skipn (S i) l = tl (skipn i l).
Proof.
  revert l. induction i as [|i IH]; intros [|x l]; try done.
  change (skipn (S (S i)) (x :: l)) with (skipn (S i) l).
  change (skipn (S i) (x :: l)) with (skipn i l). apply IH.
Qed.

Lemma compare_versions_lex cur req k n :
  compare_versions cur req (seq k n) = lex_ge n (skipn k cur) (skipn k req).
Proof.
  revert k. induction n as [|n IH]; intros k; [done|].
  cbn [seq compare_versions lex_ge]. rewrite !nth_guard, IH, !skipn_S_tl. done.
Qed.

Lemma lex_ge_nil n : lex_ge n [] [] = true.
Proof. induction n; [done|]. cbn. done. Qed.

Lemma lex_ge_more n k cur req :
  (length cur <= n)%nat -> (length req <= n)%nat ->
  lex_ge (n + k) cur req = lex_ge n cur req.
Proof.
  revert cur req. induction n as [|n IH]; intros cur req Hc Hr.
  - destruct cur, req; cbn in *; try lia. apply lex_ge_nil.
  - cbn [Nat.add lex_ge]. rewrite IH; [done| |].
    + destruct cur; cbn in *; lia.
    + destruct req; cbn in *; lia.
Qed.

Lemma lex_ge_at n cur req :
  (length cur <= n)%nat -> (length req <= n)%nat ->
  lex_ge (max (length cur) (length req)) cur req = lex_ge n cur req.
Proof.
  intros Hc Hr.
  rewrite <- (lex_ge_more _ (n - max (length cur) (length req))) by lia.
  f_equal. lia.
Qed.

Lemma lex_ge_refl n l : lex_ge n l l = true.
Proof.
  revert l. induction n as [|n IH]; intros l; [done|].
  cbn [lex_ge]. rewrite Z.gtb_ltb, Z.ltb_irrefl. apply IH.
Qed.

Lemma lex_ge_total n a b : lex_ge n a b = true \/ lex_ge n b a = true.
Proof.
  revert a b. induction n as [|n IH]; intros a b; [by left|].
  cbn [lex_ge]. rewrite !Z.gtb_ltb.
  destruct (Z.ltb_spec (hd 0%Z b) (hd 0%Z a)); [by left|].
  destruct (Z.ltb_spec (hd 0%Z a) (hd 0%Z b)); [by right|].
  apply IH.
Qed.

Lemma lex_ge_trans n a b c :
  lex_ge n a b = true -> lex_ge n b c = true -> lex_ge n a c = true.
Proof.
  revert a b c. induction n as [|n IH]; intros a b c; [done|].
  cbn [lex_ge]. rewrite !Z.gtb_ltb.
  destruct (Z.ltb_spec (hd 0%Z b) (hd 0%Z a)),
           (Z.ltb_spec (hd 0%Z a) (hd 0%Z b)),
           (Z.ltb_spec (hd 0%Z c) (hd 0%Z b)),
           (Z.ltb_spec (hd 0%Z b) (hd 0%Z c)),
           (Z.ltb_spec (hd 0%Z c) (hd 0%Z a)),
           (Z.ltb_spec (hd 0%Z a) (hd 0%Z c)); try done; try lia.
  apply IH.
Qed.

Lemma lex_ge_zeros n l k : lex_ge n (l ++ replicate k 0%Z) l = true
                           /\ lex_ge n l (l ++ replicate k 0%Z) = true.
Proof.
  revert l k. induction n as [|n IH]; intros l k; [done|].
  cbn [lex_ge]. destruct l as [|x l].
  - cbn [app hd tl]. destruct k as [|k]; cbn [replicate hd tl].
    + split; apply lex_ge_nil.
    + rewrite Z.gtb_ltb, Z.ltb_irrefl. apply (IH [] k).
  - cbn [app hd tl]. rewrite Z.gtb_ltb, Z.ltb_irrefl. apply IH.
Qed.

Lemma is_compatible_lex a min_version cur req n :
  version_numbers int_ (version a) = Ok cur ->
  version_numbers int_ min_version = Ok req ->
  (length cur <= n)%nat -> (length req <= n)%nat ->
  is_compatible int_ a min_version = lex_ge n cur req.
Proof.
  intros Hc Hr Hn Hm. unfold is_compatible. rewrite Hc, Hr. cbn [bind].
  rewrite compare_versions_lex. cbn [skipn]. by apply lex_ge_at.
Qed.

(** X5: on versions that [is_compatible] can read, compatibility is a total
    preorder: an engine is compatible with its own version, of two engines
    one is compatible with the version of the other, and compatibility is
    transitive. *)
Theorem is_compatible_total_preorder (a1 a2 a3 : attrs) :
  numeric int_ (version a1) -> numeric int_ (version a2) ->
  numeric int_ (version a3) ->
  is_compatible int_ a1 (version a1) = true
  /\ (is_compatible int_ a1 (version a2) = true
      \/ is_compatible int_ a2 (version a1) = true)
  /\ (is_compatible int_ a1 (version a2) = true ->
      is_compatible int_ a2 (version a3) = true ->
      is_compatible int_ a1 (version a3) = true).
Proof.
  intros [l1 H1] [l2 H2] [l3 H3].
  set (n := (length l1 + length l2 + length l3)%nat).
  rewrite (is_compatible_lex a1 _ l1 l1 n H1 H1) by lia.
  rewrite (is_compatible_lex a1 _ l1 l2 n H1 H2) by lia.
  rewrite (is_compatible_lex a2 _ l2 l1 n H2 H1) by lia.
  rewrite (is_compatible_lex a2 _ l2 l3 n H2 H3) by lia.
  rewrite (is_compatible_lex a1 _ l1 l3 n H1 H3) by lia.
  split_and!; [apply lex_ge_refl|apply lex_ge_total|apply lex_ge_trans].
Qed.

Lemma int_each_app ws1 ws2 :
  int_each int_ (ws1 ++ ws2)
  = bind (int_each int_ ws1) (fun n1 =>
    bind (int_each int_ ws2) (fun n2 => Ok (n1 ++ n2))).
Proof.
  induction ws1 as [|w ws1 IH]; cbn [app int_each bind].
  - by destruct (int_each int_ ws2).
  - destruct (int_ w); [|done]. rewrite IH.
    destruct (int_each int_ ws1); [|done]. cbn [bind].
    by destruct (int_each int_ ws2).
Qed.

(** X6: [is_compatible] answers [False] as soon as one of the two versions
    cannot be read, and trailing zero components make no difference: an
    engine is compatible with its version followed by any number of [.0],
    and with its version stripped of them. *)
Theorem is_compatible_edge_cases (a : attrs) (min_version : pyval) :
  (~ numeric int_ (version a) \/ ~ numeric int_ min_version ->
   is_compatible int_ a min_version = false)
  /\ (forall numbers k,
        version_numbers int_ (version a) = Ok numbers ->
        version_numbers int_ min_version = Ok (numbers ++ replicate k 0%Z) ->
        is_compatible int_ a min_version = true)
  /\ (forall numbers k,
        version_numbers int_ min_version = Ok numbers ->
        version_numbers int_ (version a) = Ok (numbers ++ replicate k 0%Z) ->
        is_compatible int_ a min_version = true).
Proof.
  split_and!.
  - unfold numeric, is_compatible. intros [H|H].
    + destruct (version_numbers int_ (version a)); [|done].
      destruct H. eauto.
    + destruct (version_numbers int_ (version a)); [|done]. cbn [bind].
      destruct (version_numbers int_ min_version); [|done].
      destruct H. eauto.
  - intros l k Hc Hr.
    rewrite (is_compatible_lex a _ _ _ (length l + k) Hc Hr).
    + apply lex_ge_zeros.
    + lia.
    + rewrite length_app, length_replicate. lia.
  - intros l k Hr Hc.
    rewrite (is_compatible_lex a _ _ _ (length l + k) Hc Hr).
    + apply lex_ge_zeros.
    + rewrite length_app, length_replicate. lia.
    + lia.
Qed.
End Compatibility.

(** Versions [2.0], [1.10.0] and [1.9]: the second is compatible with the
    third although ["1.10.0" < "1.9"] as strings. *)
Lemma is_compatible_total_preorder_witness :
  BaseEngine.is_compatible Samples.decimal (Samples.release "2.0") (PStr "1.9")
  = true.
Proof.
  destruct (is_compatible_total_preorder Samples.decimal
              (Samples.release "2.0") (Samples.release "1.10.0")
              (Samples.release "1.9")) as (_ & _ & Htrans).
  - exists [2; 0]%Z. reflexivity.
  - exists [1; 10; 0]%Z. reflexivity.
  - exists [1; 9]%Z. reflexivity.
  - apply Htrans; reflexivity.
Defined.

(** [1.2] against [1.2.0.0], and against [1.x]. *)
Lemma is_compatible_edge_cases_witness :
  BaseEngine.is_compatible Samples.decimal (Samples.release "1.2") (PStr "1.2.0.0")
  = true
  /\ BaseEngine.is_compatible Samples.decimal (Samples.release "1.2") (PStr "1.x")
     = false.
Proof.
  split.
  - destruct (is_compatible_edge_cases Samples.decimal (Samples.release "1.2")
                (PStr "1.2.0.0")) as (_ & Hzeros & _).
    apply (Hzeros [1; 2]%Z 2%nat); reflexivity.
  - destruct (is_compatible_edge_cases Samples.decimal (Samples.release "1.2")
                (PStr "1.x")) as (Hbad & _ & _).
    apply Hbad. right. intros [numbers H]. vm_compute in H. discriminate.
Defined.

(** ** The message queue, broadcasting and removal of engines *)

Section Queue.
Import InnerCommunicator.
Variable validate_dict : pyval -> res dict.
Variables base_py inner_comm_py : string.

Lemma unsanctioned_callers callers :
  Forall (fun f => BaseEngine.sanctioned_frame f = false) callers ->
  existsb BaseEngine.sanctioned_frame callers = false.
Proof.
  intros Hcallers. apply not_true_is_false.
  intros (f & Hin & Hf)%existsb_exists.
  rewrite Forall_forall in Hcallers. apply list_elem_of_In in Hin.
  specialize (Hcallers f Hin). congruence.
Qed.

Lemma handle_request_guarded e callers action data :
  BaseEngine._allow_direct_call (BaseEngine.self e) = false ->
  existsb BaseEngine.sanctioned_frame callers = false ->
  BaseEngine.handle_request e (BaseEngine.stack_in_validate base_py callers)
    action data
  = Raise (mk_exn PermissionError (BaseEngine.illegal_call_message (BaseEngine.self e))).
Proof.
  intros Hflag Hcallers. unfold BaseEngine.handle_request, BaseEngine._validate_caller.
  by rewrite own_frames_not_sanctioned, Hflag, Hcallers.
Qed.

Lemma process_single_message_ids ic now' callers request target :
  result_ids (_process_single_message validate_dict base_py inner_comm_py ic
                now' callers request target)
  = Some (PStr (Request.request_id request), PStr (Request.request_id request)).
Proof.
  unfold _process_single_message.
  destruct (target ≫= _) as [engine|]; [|reflexivity].
  destruct (BaseEngine.handle_request _ _ _ _) as [v|e]; cbn [bind]; [|reflexivity].
  unfold Response.success.
  destruct (validate_dict _) as [d|e]; reflexivity.
Qed.

(** X7: [send_async_request] returns the id of the request that it appends
    to the queue.  [process_message_queue] answers the queued requests in
    the order of the queue, each result carrying the id of its request at
    the top and in its response; afterwards the queue is empty, the engine
    table is as before, and processing again yields no result. *)
Theorem queued_requests_answered_in_order
    (ic : t) (clock : nat -> Z) (callers : list BaseEngine.frame_info)
    (uuid4 : string) (now : Z) (target action : string) (data : option dict) :
  let sent := send_async_request ic uuid4 now target action data in
  let processed :=
    process_message_queue validate_dict base_py inner_comm_py (snd sent) clock callers in
  fst sent = uuid4
  /\ map result_ids (fst processed)
     = map (fun message =>
              Some (PStr (Request.request_id (fst message)),
                    PStr (Request.request_id (fst message))))
         (message_queue ic)
       ++ [Some (PStr uuid4, PStr uuid4)]
  /\ message_queue (snd processed) = []
  /\ engine_registry (snd processed) = engine_registry ic
  /\ fst (process_message_queue validate_dict base_py inner_comm_py
            (snd processed) clock callers) = [].
Proof.
  cbn zeta. split_and!; try reflexivity.
  unfold process_message_queue, send_async_request. cbn [fst snd message_queue].
  rewrite imap_app, map_app. f_equal.
  - generalize (message_queue ic) as queue. intros queue.
    generalize clock. induction queue as [|m queue IH]; intros clock'; [done|].
    cbn [imap map]. rewrite process_single_message_ids. f_equal.
    apply (IH (clock' ∘ S)).
  - cbn [imap map]. by rewrite process_single_message_ids.
Qed.

Lemma frame_not_sanctioned file name :
  str_in name BaseEngine.sanctioned_functions = false ->
  BaseEngine.sanctioned_frame (BaseEngine.mk_frame file name) = false.
Proof.
  intros H. unfold BaseEngine.sanctioned_frame. cbn [BaseEngine.function].
  by rewrite H, andb_false_r.
Qed.

(** X8: [broadcast] yields one entry for every registered engine.  Unless it
    is itself called from a sanctioned forwarding function, an engine whose
    direct-call flag is unset is not run, its entry being the error of the
    caller check; an engine whose flag is set contributes the outcome of its
    handler. *)
Theorem broadcast_stops_at_the_caller_check
    (ic : t) (callers : list BaseEngine.frame_info)
    (action : string) (data : option dict) :
  Forall (fun f => BaseEngine.sanctioned_frame f = false) callers ->
  dom (broadcast base_py inner_comm_py ic callers action data)
  = dom (engine_registry ic)
  /\ forall engine_id engine,
       engine_registry ic !! engine_id = Some engine ->
       broadcast base_py inner_comm_py ic callers action data !! engine_id
       = Some
           (if BaseEngine._allow_direct_call (BaseEngine.self engine)
            then
              match BaseEngine.cls_handle_request_impl (BaseEngine.cls engine)
                      (BaseEngine.self engine) action (data_or_empty data) with
              | Ok response_data =>
                  [ ("status", PStr "success"); ("data", response_data) ]
              | Raise e =>
                  [ ("status", PStr "error"); ("error", PStr (exn_msg e)) ]
              end
            else
              [ ("status", PStr "error");
                ("error",
                 PStr (BaseEngine.illegal_call_message (BaseEngine.self engine))) ]).
Proof.
  intros Hcallers%unsanctioned_callers. split.
  - unfold broadcast. apply dom_fmap_L.
  - intros engine_id engine Hreg. unfold broadcast.
    rewrite lookup_fmap, Hreg. cbn [fmap option_fmap option_map]. f_equal.
    destruct (BaseEngine._allow_direct_call (BaseEngine.self engine)) eqn:Hflag.
    + unfold BaseEngine.handle_request, BaseEngine._validate_caller.
      rewrite own_frames_not_sanctioned. cbn [existsb].
      by rewrite frame_not_sanctioned, Hcallers, Hflag.
    + rewrite handle_request_guarded; [done|done|].
      cbn [existsb]. by rewrite frame_not_sanctioned, Hcallers.
Qed.

(** X9: when [process_message_queue] is not called from a sanctioned
    forwarding function, a queued request for an unknown engine is answered
    with code 404, and a queued request for an engine whose direct-call flag
    is unset is answered with code 500 and the message of the caller check,
    the handler of the engine not being run. *)
Theorem queued_delivery_outcomes
    (ic : t) (clock : nat -> Z) (callers : list BaseEngine.frame_info)
    (i : nat) (request : Request.t) (state : string) :
  Forall (fun f => BaseEngine.sanctioned_frame f = false) callers ->
  message_queue ic !! i = Some (request, state) ->
  let results :=
    fst (process_message_queue validate_dict base_py inner_comm_py ic clock callers) in
  (Request.service_id request ≫= (fun id => engine_registry ic !! id) = None ->
   results !! i
   = Some [ ("request_id", PStr (Request.request_id request));
            ("status", PStr "error");
            ("response",
             PDict (Response.dict_
                      (Response.error_ (clock i) (Request.request_id request) 404
                         ("Engine " +:+ str_of_target (Request.service_id request)
                          +:+ " not found")))) ])
  /\ (forall engine,
        Request.service_id request ≫= (fun id => engine_registry ic !! id)
        = Some engine ->
        BaseEngine._allow_direct_call (BaseEngine.self engine) = false ->
        results !! i
        = Some [ ("request_id", PStr (Request.request_id request));
                 ("status", PStr "error");
                 ("response",
                  PDict (Response.dict_
                           (Response.error_ (clock i) (Request.request_id request) 500
                              (BaseEngine.illegal_call_message
                                 (BaseEngine.self engine))))) ]).
Proof.
  intros Hcallers%unsanctioned_callers Hq. cbn zeta.
  unfold process_message_queue. cbn [fst].
  rewrite list_lookup_imap, Hq. cbn [fmap option_fmap option_map fst].
  split.
  - intros Hnone. unfold _process_single_message. by rewrite Hnone.
  - intros engine Hsome Hflag. unfold _process_single_message. rewrite Hsome.
    rewrite handle_request_guarded; [done|done|].
    cbn [existsb]. by rewrite !frame_not_sanctioned, Hcallers.
Qed.

(** X10: unregistering an engine that has just been registered returns
    [True] and removes it from [get_engine] and from [list_engines]; every
    other id is looked up as before the registration, the queue is
    untouched, and a second unregistration returns [False] and changes
    nothing. *)
Theorem unregister_engine_round_trip
    (ic : t) (engine_id : string) (engine : BaseEngine.engine) :
  let registered := snd (register_engine ic engine_id engine) in
  let removed := unregister_engine registered engine_id in
  get_engine registered engine_id = Some engine
  /\ fst removed = true
  /\ get_engine (snd removed) engine_id = None
  /\ (engine_id ∉ list_engines (snd removed))
  /\ (forall other, other <> engine_id ->
        get_engine (snd removed) other = get_engine ic other)
  /\ message_queue (snd removed) = message_queue ic
  /\ unregister_engine (snd removed) engine_id = (false, snd removed).
Proof.
  cbn zeta. unfold unregister_engine, register_engine, get_engine, list_engines.
  cbn [fst snd engine_registry message_queue].
  rewrite lookup_insert_eq. cbn [fst snd engine_registry message_queue].
  rewrite lookup_delete_eq.
  split_and!; try done.
  - intros (kv & -> & Hin)%list_elem_of_fmap. destruct kv as [k v].
    apply elem_of_map_to_list in Hin. cbn [fst] in Hin.
    by rewrite lookup_delete_eq in Hin.
  - intros other Hne. by rewrite lookup_delete_ne, lookup_insert_ne.
Qed.
End Queue.

(** A broadcast from a business service reaches no engine. *)
Lemma broadcast_stops_at_the_caller_check_witness :
  InnerCommunicator.broadcast Samples.base_py Samples.inner_comm_py
    Samples.one_engine [BaseEngine.mk_frame "/srv/business/blog.py" "publish"]
    "ping" None !! "echo"
  = Some [ ("status", PStr "error");
           ("error",
            PStr (BaseEngine.illegal_call_message
                    (BaseEngine.self Samples.echo_engine))) ].
Proof.
  destruct (broadcast_stops_at_the_caller_check Samples.base_py
              Samples.inner_comm_py Samples.one_engine
              [BaseEngine.mk_frame "/srv/business/blog.py" "publish"]
              "ping" None) as [_ Hentry].
  - repeat constructor.
  - apply (Hentry "echo" Samples.echo_engine). reflexivity.
Defined.

(** A request queued for the engine ["echo"] and processed from a
    scheduler: the engine refuses the call. *)
Lemma queued_delivery_outcomes_witness :
  fst (InnerCommunicator.process_message_queue Samples.strict_dict
         Samples.base_py Samples.inner_comm_py
         (snd (InnerCommunicator.send_async_request Samples.one_engine
                 "req-7" 10 "echo" "ping" None))
         (fun _ => 11%Z) [BaseEngine.mk_frame "/srv/scheduler.py" "tick"]) !! 0%nat
  = Some [ ("request_id", PStr "req-7");
           ("status", PStr "error");
           ("response",
            PDict (Response.dict_
                     (Response.error_ 11 "req-7" 500
                        (BaseEngine.illegal_call_message
                           (BaseEngine.self Samples.echo_engine))))) ].
Proof.
  destruct (queued_delivery_outcomes Samples.strict_dict
              Samples.base_py Samples.inner_comm_py
              (snd (InnerCommunicator.send_async_request Samples.one_engine
                      "req-7" 10 "echo" "ping" None))
              (fun _ => 11%Z) [BaseEngine.mk_frame "/srv/scheduler.py" "tick"]
              0%nat
              {| Request.request_id := "req-7";
                 Request.service_id := Some "echo";
                 Request.timestamp := 10;
                 Request.action := "ping";
                 Request.data := [];
                 Request.auth := None |}
              "pending") as [_ Hrefused].
  - repeat constructor.
  - reflexivity.
  - apply (Hrefused Samples.echo_engine); reflexivity.
Defined.

(** ** The proxy route *)

Section ProxyFacts.
Import ServiceProxy.
Variables base_py service_proxy_py : string.

Lemma dict_get_del_ne {V} k k' (d : list (string * V)) :
  k <> k' -> dict_get k (dict_del k' d) = dict_get k d.
Proof.
  intros Hne. induction d as [|[k'' v] d IH]; [done|]. cbn.
  destruct (String.eqb_spec k' k'') as [<-|Hne'].
  - by apply String.eqb_neq in Hne as ->.
  - cbn. by rewrite IH.
Qed.

Lemma dict_get_not_in {V} k (d : list (string * V)) :
  k ∉ d.*1 -> dict_get k d = None.
Proof.
  induction d as [|[k' v] d IH]; [done|]. cbn [fmap list_fmap fst].
  intros [Hne Hd]%not_elem_of_cons. cbn.
  apply String.eqb_neq in Hne as ->. by apply IH.
Qed.

Lemma dict_get_del_eq {V} k (d : list (string * V)) :
  NoDup d.*1 -> dict_get k (dict_del k d) = None.
Proof.
  induction d as [|[k' v] d IH]; [done|]. cbn [fmap list_fmap fst].
  intros [Hk Hd]%NoDup_cons. cbn.
  destruct (String.eqb_spec k k') as [->|Hne].
  - by apply dict_get_not_in.
  - cbn. apply String.eqb_neq in Hne as ->. by apply IH.
Qed.

Lemma dict_set_keys {V} k v (d : list (string * V)) k' :
  k' ∈ (dict_set k v d).*1 <-> k' = k \/ k' ∈ d.*1.
Proof.
  induction d as [|[k'' v'] d IH]; cbn.
  - rewrite list_elem_of_singleton, elem_of_nil. tauto.
  - destruct (String.eqb_spec k k'') as [<-|Hne]; cbn.
    + rewrite !elem_of_cons. tauto.
    + rewrite !elem_of_cons, IH. tauto.
Qed.

Lemma NoDup_dict_set {V} k v (d : list (string * V)) :
  NoDup d.*1 -> NoDup (dict_set k v d).*1.
Proof.
  induction d as [|[k' v'] d IH]; cbn.
  - intros _. apply NoDup_singleton.
  - intros [Hk Hd]%NoDup_cons.
    destruct (String.eqb_spec k k') as [<-|Hne]; cbn.
    + by apply NoDup_cons.
    + apply NoDup_cons. split; [|by apply IH].
      rewrite dict_set_keys. intros [->|?]; done.
Qed.

Lemma NoDup_dict_of_params params : NoDup (dict_of_params params).*1.
Proof.
  unfold dict_of_params.
  assert (forall d : dict, NoDup d.*1 ->
            NoDup (fold_left (fun d kv => dict_set (fst kv) (PStr (snd kv)) d)
                     params d).*1) as H.
  { induction params as [|kv params IH]; intros d Hd; [done|].
    cbn [fold_left]. apply IH. by apply NoDup_dict_set. }
  apply H. constructor.
Qed.

(** X11: [_extract_action_and_data] on a GET request takes the action from
    the query parameter [action] and returns the other query parameters as
    data, with the method under [request_method].  On another method with a
    dictionary body it returns the [action] and the [data] entry of the
    body, with the method added to the data, and raises [TypeError] if the
    [data] entry is not a dictionary; a body that is not a dictionary gives
    no action and empty data. *)
Theorem extracted_data_names_the_method (request : http_request) (body : pyval) :
  (method request = "GET" ->
   exists d,
     _extract_action_and_data request body
     = Ok (dict_get_default "action" PNone (dict_of_params (query_params request)),
           PDict d)
     /\ dict_get "request_method" d = Some (PStr "GET")
     /\ dict_get "action" d = None
     /\ forall k, k <> "action" -> k <> "request_method" ->
          dict_get k d = dict_get k (dict_of_params (query_params request)))
  /\ (method request <> "GET" ->
      forall b, body = PDict b ->
        match dict_get_default "data" (PDict []) b with
        | PDict d0 =>
            _extract_action_and_data request body
            = Ok (dict_get_default "action" PNone b,
                  PDict (dict_set "request_method" (PStr (method request)) d0))
        | _ =>
            exists e,
              _extract_action_and_data request body = Raise e
              /\ exn_cls e = TypeError
        end)
  /\ (method request <> "GET" ->
      (forall b, body <> PDict b) ->
      _extract_action_and_data request body = Ok (PNone, PDict [])).
Proof.
  unfold _extract_action_and_data. split_and!.
  - intros ->. cbn [String.eqb Ascii.eqb Bool.eqb].
    eexists. split; [reflexivity|].
    set (params := dict_of_params (query_params request)).
    assert (NoDup params.*1) as Hnd by apply NoDup_dict_of_params.
    split_and!.
    + apply dict_get_set_eq.
    + rewrite dict_get_set_ne by done.
      unfold dict_mem. destruct (dict_get "action" params) eqn:E; [|done].
      by apply dict_get_del_eq.
    + intros k Ha Hm. rewrite dict_get_set_ne by done.
      destruct (dict_mem "action" params); [|done]. by apply dict_get_del_ne.
  - intros Hne%String.eqb_neq b ->. rewrite Hne.
    assert ((if negb (truthy (dict_get_default "action" PNone b))
             then
               if truthy (dict_get_default "action" PNone b)
               then (dict_get_default "action" PNone b,
                     PDict (filter (fun kv => negb (String.eqb (fst kv) "action")) b))
               else (dict_get_default "action" PNone b,
                     dict_get_default "data" (PDict []) b)
             else (dict_get_default "action" PNone b,
                   dict_get_default "data" (PDict []) b))
            = (dict_get_default "action" PNone b,
               dict_get_default "data" (PDict []) b)) as E.
    { by destruct (truthy (dict_get_default "action" PNone b)). }
    cbn zeta. rewrite E.
    destruct (dict_get_default "data" (PDict []) b); try done; by eexists.
  - intros Hne%String.eqb_neq Hb. rewrite Hne.
    destruct body as [| | | | |b]; try done. by destruct (Hb b).
Qed.

(** X12: once action and data are extracted, the proxy route raises 400 if
    the action is missing, else 404 if the engine is unknown, else 503 if
    [check_service_health] does not report it healthy.  Otherwise the
    handler of the engine runs, the caller check letting the route through,
    and the route returns a dictionary with a [status]: the answer of the
    handler (under [result] if it is not a dictionary, with status [success]
    if it has none), or an error dictionary if the handler raised. *)
Theorem proxy_request_outcomes
    (registry : ServiceRegistry.t) (callers : list BaseEngine.frame_info)
    (engine_id : string) (request : http_request) (body action data : pyval) :
  _extract_action_and_data request body = Ok (action, data) ->
  contains "LinkGateway" service_proxy_py = true ->
  (truthy action = false ->
   proxy_request base_py service_proxy_py registry callers engine_id request body
   = Some (HTTPException 400 [("error", PStr "Missing 'action' field")]))
  /\ (truthy action = true ->
      ServiceRegistry.get_engine registry engine_id = None ->
      proxy_request base_py service_proxy_py registry callers engine_id request body
      = Some (HTTPException 404
                [("error", PStr ("Engine " +:+ engine_id +:+ " not found"))]))
  /\ (truthy action = true ->
      is_Some (ServiceRegistry.get_engine registry engine_id) ->
      ServiceRegistry.check_service_health registry engine_id = false ->
      proxy_request base_py service_proxy_py registry callers engine_id request body
      = Some (HTTPException 503
                [("error", PStr ("Engine " +:+ engine_id +:+ " is not healthy"))]))
  /\ (forall a d engine,
        action = PStr a -> truthy action = true -> data = PDict d ->
        ServiceRegistry.get_engine registry engine_id = Some engine ->
        ServiceRegistry.check_service_health registry engine_id = true ->
        exists result,
          proxy_request base_py service_proxy_py registry callers engine_id
            request body
          = Some (Returned (PDict result))
          /\ dict_mem "status" result = true
          /\ result
             = match BaseEngine.cls_handle_request_impl (BaseEngine.cls engine)
                       (BaseEngine.self engine) a d with
               | Ok answer =>
                   let answer :=
                     match answer with PDict r => r | _ => [("result", answer)] end in
                   if negb (dict_mem "status" answer)
                   then dict_set "status" (PStr "success") answer else answer
               | Raise e =>
                   [ ("status", PStr "error");
                     ("error", PStr (exn_msg e));
                     ("action", PStr a);
                     ("engine_id", PStr engine_id) ]
               end).
Proof.
  intros Hextract Hfile. unfold proxy_request. rewrite Hextract.
  unfold _validate_action, _validate_engine_health. split_and!.
  - by intros ->.
  - by intros -> ->.
  - intros -> [engine ->] ->. done.
  - intros a d engine -> Ha -> Hengine Hhealth.
    rewrite Ha, Hengine, Hhealth. cbn [negb].
    eexists. split; [reflexivity|].
    unfold _call_engine. rewrite Hengine.
    rewrite handle_request_runs_for_gateway.
    2:{ cbn [existsb]. unfold BaseEngine.sanctioned_frame at 2.
        cbn [BaseEngine.filename BaseEngine.function]. rewrite Hfile.
        by rewrite orb_true_r. }
    split; [|done].
    destruct (BaseEngine.cls_handle_request_impl _ _ _ _) as [answer|e]; [|done].
    cbn zeta. destruct (negb (dict_mem "status" _)) eqn:E.
    + by rewrite dict_mem_set.
    + by apply negb_false_iff in E.
Qed.
End ProxyFacts.

(** [GET /internal/proxy/echo?action=ping&q=x] *)
Lemma extracted_data_names_the_method_witness :
  exists d,
    ServiceProxy._extract_action_and_data
      (ServiceProxy.mk_request "GET" [("action", "ping"); ("q", "x")]) PNone
    = Ok (PStr "ping", PDict d)
    /\ dict_get "request_method" d = Some (PStr "GET")
    /\ dict_get "action" d = None
    /\ dict_get "q" d = Some (PStr "x").
Proof.
  destruct (extracted_data_names_the_method
              (ServiceProxy.mk_request "GET" [("action", "ping"); ("q", "x")])
              PNone) as [Hget _].
  destruct (Hget eq_refl) as (d & Hextract & Hmethod & Haction & Hother).
  exists d. split_and!; [exact Hextract|exact Hmethod|exact Haction|].
  rewrite Hother; [reflexivity|discriminate|discriminate].
Defined.

(** [POST /internal/proxy/<echo_id>] with body [{"action": "ping"}]. *)
Lemma proxy_request_outcomes_witness :
  ServiceProxy.proxy_request Samples.base_py Samples.service_proxy_py
    Samples.running_registry [] Samples.echo_id
    (ServiceProxy.mk_request "POST" []) (PDict [("action", PStr "ping")])
  = Some (ServiceProxy.Returned
            (PDict [("action", PStr "ping"); ("status", PStr "success")])).
Proof.
  destruct (proxy_request_outcomes Samples.base_py Samples.service_proxy_py
              Samples.running_registry [] Samples.echo_id
              (ServiceProxy.mk_request "POST" [])
              (PDict [("action", PStr "ping")])
              (PStr "ping") (PDict [("request_method", PStr "POST")]))
    as (_ & _ & _ & Hcall).
  - reflexivity.
  - reflexivity.
  - edestruct (Hcall "ping" [("request_method", PStr "POST")])
      as (result & Hresult & _ & Hvalue).
    + reflexivity.
    + reflexivity.
    + reflexivity.
    + vm_compute. reflexivity.
    + vm_compute. reflexivity.
    + rewrite Hresult, Hvalue. reflexivity.
Defined.

(** ** Looking up routes and mapping services *)

Section MapperFacts.
Import APIMapper.
Variable h : host.
Variable w : world.

(** X13: after an [add_api_route] that returned [True], [get_api_info] finds
    the new entry under the target path for exactly the requested methods,
    the entry names the registering service, and the answers for every other
    path are as before. *)
Theorem registered_route_is_found
    (self self' : t) (service_id path : string) (endpoint : endpoint) (kwargs : dict) :
  add_api_route h w self service_id path endpoint kwargs = (true, self') ->
  exists info,
    requested_methods h kwargs = Ok (ai_methods info)
    /\ ai_service_id info = service_id
    /\ (forall method,
          get_api_info self' (target_path self service_id path) method
          = if str_in method (ai_methods info) then Some info else None)
    /\ (forall other method,
          other <> target_path self service_id path ->
          get_api_info self' other method = get_api_info self other method).
Proof.
  intros (methods & info & Hm & Hsid & Hmeth & _ & Hreg)%add_api_route_success.
  exists info. split_and!.
  - by rewrite Hmeth.
  - done.
  - intros method. unfold get_api_info. by rewrite Hreg, lookup_insert_eq.
  - intros other method Hne. unfold get_api_info.
    by rewrite Hreg, lookup_insert_ne.
Qed.

(** X14: an [add_api_route] that returns [False], for whatever reason,
    leaves the API registry, the registered APIs, the main router and the
    result of [list_apis] as they were. *)
Theorem refused_route_changes_no_listing
    (self self' : t) (service_id path : string) (endpoint : endpoint) (kwargs : dict) :
  add_api_route h w self service_id path endpoint kwargs = (false, self') ->
  api_registry self' = api_registry self
  /\ registered_apis self' = registered_apis self
  /\ main_router self' = main_router self
  /\ list_apis self' = list_apis self.
Proof.
  unfold add_api_route.
  assert (api_registry (snd (router_for self service_id)) = api_registry self
          /\ registered_apis (snd (router_for self service_id)) = registered_apis self
          /\ main_router (snd (router_for self service_id)) = main_router self)
    as (Hreg & Hapis & Hmain).
  { unfold router_for. by destruct (routers self !! service_id). }
  destruct (router_for self service_id) as [router self1]. cbn [snd] in *.
  assert (forall s, (false, s) = (false, self') ->
            api_registry s = api_registry self1 ->
            registered_apis s = registered_apis self1 ->
            main_router s = main_router self1 ->
            api_registry self' = api_registry self
            /\ registered_apis self' = registered_apis self
            /\ main_router self' = main_router self
            /\ list_apis self' = list_apis self) as Hdone.
  { intros s [= <-] H1 H2 H3. unfold list_apis.
    rewrite H1, H2, H3, Hreg. done. }
  destruct (requested_methods h kwargs) as [methods|]; [|by intros H; eapply Hdone].
  destruct (_check_path_conflict _ _ _ _); [by intros H; eapply Hdone|].
  destruct (router_add_api_route _ _ _ _ _) as [router'|];
    [|by intros H; eapply Hdone].
  destruct (__name__ endpoint) as [name|]; [done|].
  intros H. by eapply Hdone.
Qed.

(** X15: [map_business_apis] never writes the API registry: whatever the
    business service declares and whether or not its routes load, the
    registry, the registered APIs and the result of [list_apis] are the same
    before and after.  (A route module populates the router handed to it,
    and nothing else.) *)
Theorem business_apis_never_listed (business_info : dict) (self : t) :
  api_registry (snd (map_business_apis w business_info self)) = api_registry self
  /\ registered_apis (snd (map_business_apis w business_info self))
     = registered_apis self
  /\ list_apis (snd (map_business_apis w business_info self)) = list_apis self.
Proof.
  assert (api_registry (snd (map_business_apis w business_info self))
          = api_registry self
          /\ registered_apis (snd (map_business_apis w business_info self))
             = registered_apis self) as [H1 H2].
  { unfold map_business_apis.
    destruct (negb _ || negb _); [done|].
    destruct (dict_get_default "service_id" PNone business_info); try done.
    destruct (dict_get_default "business_path" PNone business_info); try done.
    destruct (bind _ _) as [apis|]; [|done].
    unfold create_router. cbn zeta.
    destruct (routes (load_route_module w _ _ _ _)) eqn:E; done. }
  split_and!; [done|done|]. unfold list_apis. by rewrite H1.
Qed.

Lemma map_service_reports_once service result self :
  exists result' self',
    map_service h w service result self = (Ok result', self')
    /\ (if is_mapped service
        then result' = (fst result ++ [s_service_id service], snd result)
             \/ result' = (fst result, snd result ++ [s_service_id service])
        else result' = result).
Proof.
  unfold map_service, try_except, is_mapped.
  destruct (String.eqb (s_type service) "business") eqn:Hb; cbn [orb].
  - unfold _map_business_service.
    destruct (map_business_apis w (s_info service) self) as [[] self1];
      eexists _, _; (split; [reflexivity|]); [by left|by right].
  - destruct (String.eqb (s_type service) "engine") eqn:He.
    + destruct (_map_engine_service h w (s_service_id service) (s_info service)
                  result self) as [[result'|e] self1] eqn:Hmap.
      * eexists _, _. split; [reflexivity|]. left.
        unfold _map_engine_service in Hmap.
        unfold se_bind, modify, lift, ret in Hmap.
        destruct (iterate _) as [apis|]; [|done].
        destruct (register_engine_apis _ _ _ _ _ _) as [[[]|] self2]; [|done].
        by injection Hmap as <- _.
      * eexists _, _. split; [reflexivity|]. by right.
    + eexists _, _. split; [reflexivity|]. by destruct result.
Qed.

Lemma map_services_reports_once services result self :
  let out := fst (map_services h w services result self) in
  fst out ++ snd out
  ≡ₚ (fst result ++ snd result)
     ++ map s_service_id (filter (fun s => is_mapped s = true) services).
Proof.
  cbn zeta. revert result self.
  induction services as [|service services IH]; intros result self.
  - cbn. by rewrite app_nil_r.
  - cbn [map_services].
    destruct (map_service_reports_once service result self)
      as (result' & self' & -> & Hres).
    rewrite IH.
    destruct (is_mapped service) eqn:Hm.
    + rewrite filter_cons_True by done. cbn [map].
      destruct Hres as [-> | ->]; cbn [fst snd].
      * rewrite <- !app_assoc. apply Permutation_app_head.
        cbn [app]. rewrite Permutation_middle. done.
      * rewrite <- !app_assoc. do 2 apply Permutation_app_head.
        done.
    + rewrite filter_cons_False by (by rewrite Hm). by subst.
Qed.

(** X16: [map_all_apis] reports every service of type [business] or [engine]
    exactly once, as a success or as a failure, and reports no other
    service. *)
Theorem map_all_apis_reports_each_service_once (services : list service) (self : t) :
  let result := fst (map_all_apis h w services self) in
  fst result ++ snd result
  ≡ₚ map s_service_id (filter (fun s => is_mapped s = true) services).
Proof.
  cbn zeta. unfold map_all_apis.
  by rewrite map_services_reports_once.
Qed.
End MapperFacts.

(** Service [svc-a] registers [GET /api/foo]. *)
Lemma registered_route_is_found_witness :
  exists info,
    APIMapper.get_api_info
      (snd (APIMapper.add_api_route ascii_host Samples.plain_world
              APIMapper.__init__ "svc-a" "/api/foo"
              (APIMapper.mk_endpoint (Some "get_foo"))
              [("methods", PList [PStr "GET"])]))
      "/api/foo" "GET" = Some info
    /\ APIMapper.ai_service_id info = "svc-a"
    /\ APIMapper.get_api_info
         (snd (APIMapper.add_api_route ascii_host Samples.plain_world
                 APIMapper.__init__ "svc-a" "/api/foo"
                 (APIMapper.mk_endpoint (Some "get_foo"))
                 [("methods", PList [PStr "GET"])]))
         "/api/foo" "POST" = None.
Proof.
  destruct (registered_route_is_found ascii_host Samples.plain_world
              APIMapper.__init__
              (snd (APIMapper.add_api_route ascii_host Samples.plain_world
                      APIMapper.__init__ "svc-a" "/api/foo"
                      (APIMapper.mk_endpoint (Some "get_foo"))
                      [("methods", PList [PStr "GET"])]))
              "svc-a" "/api/foo" (APIMapper.mk_endpoint (Some "get_foo"))
              [("methods", PList [PStr "GET"])])
    as (info & Hmethods & Hsid & Hfound & _).
  - vm_compute. reflexivity.
  - change (Ok ["GET"] = Ok (APIMapper.ai_methods info)) in Hmethods.
    injection Hmethods as Hmethods.
    exists info. split_and!.
    + change "/api/foo" with (APIMapper.target_path APIMapper.__init__ "svc-a" "/api/foo").
      rewrite Hfound, <- Hmethods. reflexivity.
    + exact Hsid.
    + change "/api/foo" with (APIMapper.target_path APIMapper.__init__ "svc-a" "/api/foo").
      rewrite Hfound, <- Hmethods. reflexivity.
Defined.

(** Service [svc-b] then asks for [get, post] on [api/foo/] and is
    refused. *)
Lemma refused_route_changes_no_listing_witness :
  APIMapper.list_apis
    (snd (APIMapper.add_api_route ascii_host Samples.plain_world
            (snd (APIMapper.add_api_route ascii_host Samples.plain_world
                    APIMapper.__init__ "svc-a" "/api/foo"
                    (APIMapper.mk_endpoint (Some "get_foo"))
                    [("methods", PList [PStr "GET"])]))
            "svc-b" "api/foo/" (APIMapper.mk_endpoint (Some "other_foo"))
            [("methods", PList [PStr "get"; PStr "post"])]))
  = APIMapper.list_apis
      (snd (APIMapper.add_api_route ascii_host Samples.plain_world
              APIMapper.__init__ "svc-a" "/api/foo"
              (APIMapper.mk_endpoint (Some "get_foo"))
              [("methods", PList [PStr "GET"])])).
Proof.
  apply (refused_route_changes_no_listing ascii_host Samples.plain_world
           (snd (APIMapper.add_api_route ascii_host Samples.plain_world
                   APIMapper.__init__ "svc-a" "/api/foo"
                   (APIMapper.mk_endpoint (Some "get_foo"))
                   [("methods", PList [PStr "GET"])]))
           _ "svc-b" "api/foo/" (APIMapper.mk_endpoint (Some "other_foo"))
           [("methods", PList [PStr "get"; PStr "post"])]).
  vm_compute. reflexivity.
Defined.

(** ** Clearing the mapper *)

Section ClearedMapper.
Import APIMapper.
Variable h : host.
Variable w : world.

(** X27: after [clear_apis] nothing is listed or found, and no registration
    is refused for a conflict any more: a route that FastAPI accepts, with
    readable methods and a named endpoint, is registered by [add_api_route]
    whatever the mapper held before, and is then the only route listed.  The
    collected [registered_apis] are not cleared. *)
Theorem clear_apis_lifts_every_conflict
    (self : t) (service_id path : string) (endpoint : endpoint) (kwargs : dict)
    (methods : list string) (name : string) (router : APIRouter) :
  requested_methods h kwargs = Ok methods ->
  __name__ endpoint = Some name ->
  router_add_api_route w (mk_router "" []) (_normalize_path path) endpoint kwargs
  = Ok router ->
  list_apis (clear_apis self) = []
  /\ (forall p method, get_api_info (clear_apis self) p method = None)
  /\ registered_apis (clear_apis self) = registered_apis self
  /\ exists info self',
       add_api_route h w (clear_apis self) service_id path endpoint kwargs
       = (true, self')
       /\ list_apis self' = [info]
       /\ ai_service_id info = service_id
       /\ ai_full_path info = _normalize_path path
       /\ ai_methods info = methods.
Proof.
  intros Hmethods Hname Hrouter. split_and!.
  - unfold list_apis, clear_apis. cbn [api_registry].
    by rewrite map_to_list_empty.
  - intros p method. unfold get_api_info, clear_apis. cbn [api_registry].
    by rewrite lookup_empty.
  - reflexivity.
  - unfold add_api_route, router_for, clear_apis. cbn [routers].
    rewrite lookup_empty. unfold create_router.
    change (_normalize_path "") with "".
    rewrite Hmethods. unfold _check_path_conflict, set_routers.
    cbn [api_registry]. rewrite lookup_empty.
    rewrite Hrouter, Hname.
    eexists _, _. split; [reflexivity|].
    unfold list_apis, set_api_registry. cbn [api_registry].
    rewrite insert_empty, map_to_list_singleton. by split_and!.
Qed.
End ClearedMapper.

(** The mapper in which [svc-a] owns [GET /api/foo] is cleared; [svc-b]
    then registers the route that was refused before. *)
Lemma clear_apis_lifts_every_conflict_witness :
  exists self',
    APIMapper.add_api_route ascii_host Samples.plain_world
      (APIMapper.clear_apis
         (snd (APIMapper.add_api_route ascii_host Samples.plain_world
                 APIMapper.__init__ "svc-a" "/api/foo"
                 (APIMapper.mk_endpoint (Some "get_foo"))
                 [("methods", PList [PStr "GET"])])))
      "svc-b" "api/foo/" (APIMapper.mk_endpoint (Some "other_foo"))
      [("methods", PList [PStr "get"; PStr "post"])]
    = (true, self').
Proof.
  edestruct (clear_apis_lifts_every_conflict ascii_host Samples.plain_world
               (snd (APIMapper.add_api_route ascii_host Samples.plain_world
                       APIMapper.__init__ "svc-a" "/api/foo"
                       (APIMapper.mk_endpoint (Some "get_foo"))
                       [("methods", PList [PStr "GET"])]))
               "svc-b" "api/foo/" (APIMapper.mk_endpoint (Some "other_foo"))
               [("methods", PList [PStr "get"; PStr "post"])])
    as (_ & _ & _ & info & self' & Hadd & _).
  - vm_compute. reflexivity.
  - reflexivity.
  - vm_compute. reflexivity.
  - exists self'. exact Hadd.
Defined.

(** ** Health and removal of services *)

Section RegistryHealth.
Import ServiceRegistry.

Lemma db_update_status_spec now sid st reason self :
  db_update_status now (PStr sid) st reason self
  = match db_manager self with
    | None =>
        (Raise (mk_exn AttributeError "'NoneType' object has no attribute"), self)
    | Some db =>
        (Ok (fst (DB.update_service_status db now sid st reason)),
         set_db self (snd (DB.update_service_status db now sid st reason)))
    end.
Proof.
  unfold db_update_status, with_db. destruct (db_manager self) as [db|]; [|done].
  by destruct (DB.update_service_status db now sid st reason).
Qed.

(** X17: if [update_service_health] returns [False], the registry is
    unchanged.  If it returns [True] for a service held in memory (together
    with its instance, if it is an engine), [check_service_health]
    afterwards answers the health that was set. *)
Theorem updated_health_is_what_the_check_reports
    (now : Z) (service_id : string) (is_healthy : bool) (reason : pyval)
    (self self' : t) (updated : bool) :
  update_service_health now service_id is_healthy reason self = (Ok updated, self') ->
  (updated = false ->
   engines self' = engines self /\ businesses self' = businesses self
   /\ services self' = services self /\ db_manager self' = db_manager self)
  /\ (updated = true ->
      forall service_info,
        services self !! service_id = Some service_info ->
        (type service_info = "engine" -> is_Some (engines self !! service_id)) ->
        check_service_health self' service_id = is_healthy).
Proof.
  unfold update_service_health, se_bind. rewrite db_update_status_spec.
  destruct (db_manager self) as [db|] eqn:Hdb; [|done].
  unfold DB.update_service_status.
  destruct (db !! service_id) as [r|] eqn:Hrow; cbn [fst snd].
  - unfold modify, ret. intros [= <- <-]. split; [done|].
    intros _ service_info Hsvc Hengine.
    unfold check_service_health, _check_memory_service_health.
    unfold set_db. cbn [services engines]. rewrite Hsvc. cbn [services engines].
    rewrite lookup_insert_eq. cbn [info type].
    assert (dict_get_default "status" PNone
              (set_health is_healthy reason (info service_info))
            = PStr (if is_healthy then "valid" else "invalid")) as ->.
    { unfold set_health, dict_get_default.
      destruct (truthy reason).
      - by rewrite dict_get_set_ne, dict_get_set_eq.
      - by rewrite dict_get_set_eq. }
    destruct is_healthy; cbn [eq_str String.eqb Ascii.eqb Bool.eqb negb]; [|done].
    destruct (String.eqb_spec (type service_info) "engine") as [Ht|]; [|done].
    cbn [negb]. destruct (Hengine Ht) as [engine ->].
    by rewrite lookup_insert_eq.
  - unfold ret. intros [= <- <-]. split; [|done]. intros _.
    unfold set_db. cbn. by split_and!.
Qed.

(** X18: after [unregister_service] the id is no longer found as a service,
    an engine or a business and is not healthy, while every other id is
    looked up as before.  With a descriptor store the call returns [True]
    and [is_service_allowed] refuses every pair that involves the id;
    without one the call raises [AttributeError], the entries in memory
    being removed all the same. *)
Theorem unregistered_service_is_gone (service_id : string) (self : t) :
  let out := unregister_service service_id self in
  get_service (snd out) service_id = None
  /\ get_engine (snd out) service_id = None
  /\ get_business (snd out) service_id = None
  /\ check_service_health (snd out) service_id = false
  /\ (forall other, other <> service_id ->
        get_service (snd out) other = get_service self other
        /\ get_engine (snd out) other = get_engine self other
        /\ get_business (snd out) other = get_business self other)
  /\ (is_Some (db_manager self) ->
      fst out = Ok true
      /\ forall other,
           is_service_allowed (snd out) service_id other = Ok false
           /\ is_service_allowed (snd out) other service_id = Ok false)
  /\ (db_manager self = None ->
      exists e, fst out = Raise e /\ exn_cls e = AttributeError).
Proof.
  cbn zeta. unfold unregister_service, se_bind, modify, with_db, ret.
  cbn [db_manager].
  destruct (db_manager self) as [db|] eqn:Hdb.
  - pose proof (lookup_delete_eq db service_id) as Hgone.
    assert (snd (DB.delete_service db service_id) !! service_id = None) as Hrow.
    { unfold DB.delete_service. destruct (db !! service_id) eqn:E; done. }
    destruct (DB.delete_service db service_id) as [deleted db'] eqn:Hdel.
    cbn [fst snd] in *. unfold get_service, get_engine, get_business, set_db.
    cbn [services engines businesses].
    rewrite !lookup_delete_eq. split_and!; try done.
    + unfold check_service_health, _check_memory_service_health,
        _check_db_service_health, DB.get_service.
      cbn [services db_manager]. by rewrite lookup_delete_eq, Hrow.
    + intros other Hne. by rewrite !lookup_delete_ne.
    + intros _. split; [done|]. intros other.
      unfold is_service_allowed, DB.get_service. cbn [db_manager].
      rewrite Hrow. by destruct (db' !! other).
  - cbn [fst snd]. unfold get_service, get_engine, get_business.
    cbn [services engines businesses]. rewrite !lookup_delete_eq.
    split_and!; try done.
    + unfold check_service_health, _check_memory_service_health,
        _check_db_service_health.
      cbn [services db_manager]. by rewrite lookup_delete_eq.
    + intros other Hne. by rewrite !lookup_delete_ne.
    + intros _. by eexists.
Qed.

(** X19: [is_service_allowed] is symmetric in its two arguments, and it
    returns [True] exactly when both ids are in the descriptor store and at
    least one of them is a business service. *)
Theorem is_service_allowed_symmetric (self : t) (a b : string) :
  is_service_allowed self a b = is_service_allowed self b a
  /\ (is_service_allowed self a b = Ok true
      <-> exists db source target,
            db_manager self = Some db
            /\ db !! a = Some source /\ db !! b = Some target
            /\ (DB.service_type source = DB.BUSINESS
                \/ DB.service_type target = DB.BUSINESS)).
Proof.
  unfold is_service_allowed, DB.get_service, DB.is_engine.
  destruct (db_manager self) as [db|]; [|split; [done|]; split; [done|]].
  2:{ by intros (? & ? & ? & [=] & _). }
  split.
  - destruct (db !! a) as [ra|], (db !! b) as [rb|]; try done.
    by destruct (DB.service_type ra), (DB.service_type rb).
  - destruct (db !! a) as [ra|] eqn:Ha, (db !! b) as [rb|] eqn:Hb.
    + destruct (DB.service_type ra) eqn:Hta, (DB.service_type rb) eqn:Htb;
        cbn [andb]; (split; [intros H|intros (db' & s & t & [= <-] & Hs & Ht & Hor)]);
        try done; try (eexists db, ra, rb; split_and!; try done; auto; fail).
      rewrite Ha in Hs. rewrite Hb in Ht. injection Hs as <-. injection Ht as <-.
      destruct Hor; congruence.
    + split; [done|]. intros (db' & s & t & [= <-] & Hs & Ht & _). congruence.
    + split; [done|]. intros (db' & s & t & [= <-] & Hs & Ht & _). congruence.
    + split; [done|]. intros (db' & s & t & [= <-] & Hs & Ht & _). congruence.
Qed.

Lemma record_health_reported sid is_healthy reason default result :
  reported (record_health sid is_healthy reason default result)
  ≡ₚ reported result ++ [sid].
Proof.
  unfold reported, record_health. destruct is_healthy; cbn [healthy unhealthy].
  - rewrite <- !app_assoc. apply Permutation_app_head. apply Permutation_app_comm.
  - by rewrite fmap_app, app_assoc.
Qed.

Lemma record_health_healthy sid is_healthy reason default result x :
  x ∈ healthy result ->
  x ∈ healthy (record_health sid is_healthy reason default result).
Proof.
  unfold record_health. destruct is_healthy; cbn [healthy]; [|done].
  intros H. apply elem_of_app. by left.
Qed.

Lemma memory_loop_reported self (entries : list (string * service_entry)) result :
  reported
    (fold_left
       (fun result entry =>
          let verdict :=
            _check_single_memory_service_health self (fst entry) (snd entry) in
          record_health (fst entry) (fst verdict) (snd verdict)
            "Unknown health issue" result)
       entries result)
  ≡ₚ reported result ++ entries.*1.
Proof.
  revert result. induction entries as [|entry entries IH]; intros result.
  - cbn. by rewrite app_nil_r.
  - cbn [fold_left fmap list_fmap]. rewrite IH. cbn zeta.
    rewrite record_health_reported. by rewrite <- app_assoc.
Qed.

Lemma memory_loop_healthy self (entries : list (string * service_entry)) result x :
  x ∈ healthy result
  \/ (exists entry, (x, entry) ∈ entries
        /\ fst (_check_single_memory_service_health self x entry) = true) ->
  x ∈ healthy
        (fold_left
           (fun result entry =>
              let verdict :=
                _check_single_memory_service_health self (fst entry) (snd entry) in
              record_health (fst entry) (fst verdict) (snd verdict)
                "Unknown health issue" result)
           entries result).
Proof.
  revert result. induction entries as [|entry entries IH]; intros result.
  - cbn. intros [H|(? & []%elem_of_nil & _)]. done.
  - cbn [fold_left]. intros [H|(e & Hin & Hv)].
    + apply IH. left. by apply record_health_healthy.
    + apply elem_of_cons in Hin as [<-|Hin].
      * apply IH. left. cbn [fst snd]. rewrite Hv.
        unfold record_health. cbn [healthy]. apply elem_of_app. right.
        by apply list_elem_of_singleton.
      * apply IH. right. eauto.
Qed.

Lemma db_loop_reported db (ids : list string) result :
  reported
    (fold_left (fun result service_id =>
                  _check_single_db_service_health db service_id result)
       ids result)
  ≡ₚ reported result
     ++ filter (fun sid => is_Some (DB.get_service db sid)) ids.
Proof.
  revert result. induction ids as [|sid ids IH]; intros result.
  - cbn. by rewrite app_nil_r.
  - cbn [fold_left]. rewrite IH. unfold _check_single_db_service_health.
    destruct (DB.get_service db sid) as [service|] eqn:Hrow.
    + rewrite filter_cons_True by (rewrite Hrow; eauto).
      destruct (DB.status service); rewrite record_health_reported;
        by rewrite <- app_assoc.
    + rewrite filter_cons_False; [done|]. rewrite Hrow. by intros [? ?].
Qed.

Lemma db_loop_healthy db (ids : list string) result x :
  x ∈ healthy result ->
  x ∈ healthy
        (fold_left (fun result service_id =>
                      _check_single_db_service_health db service_id result)
           ids result).
Proof.
  revert result. induction ids as [|sid ids IH]; intros result H; [done|].
  cbn [fold_left]. apply IH. unfold _check_single_db_service_health.
  destruct (DB.get_service db sid) as [service|]; [|done].
  destruct (DB.status service); by apply record_health_healthy.
Qed.

(** X20: the report of [check_all_services_health] mentions no service
    twice, mentions every service held in memory, and lists as healthy every
    service in memory for which [check_service_health] answers [True]. *)
Theorem every_service_is_reported_once (self : t) :
  let result := check_all_services_health self in
  NoDup (reported result)
  /\ (forall service_id,
        is_Some (services self !! service_id) -> service_id ∈ reported result)
  /\ (forall service_id,
        is_Some (services self !! service_id) ->
        check_service_health self service_id = true ->
        service_id ∈ healthy result).
Proof.
  cbn zeta. unfold check_all_services_health.
  set (memory := _check_memory_services_health self _).
  assert (reported memory ≡ₚ (map_to_list (services self)).*1) as Hmem.
  { unfold memory, _check_memory_services_health. by rewrite memory_loop_reported. }
  assert (forall sid, sid ∈ (map_to_list (services self)).*1
                      <-> is_Some (services self !! sid)) as Hkeys.
  { intros sid. rewrite list_elem_of_fmap. split.
    - intros ([k v] & -> & Hin). apply elem_of_map_to_list in Hin. eauto.
    - intros [v Hv]. exists (sid, v). split; [done|].
      by apply elem_of_map_to_list. }
  split_and!.
  - unfold _check_db_services_health.
    destruct (db_manager self) as [db|].
    + rewrite db_loop_reported, Hmem. apply NoDup_app. split_and!.
      * apply NoDup_fst_map_to_list.
      * intros sid Hin%Hkeys (_ & (Hnone & _)%list_elem_of_filter)%list_elem_of_filter.
        rewrite Hnone in Hin. by destruct Hin.
      * apply NoDup_filter, NoDup_filter, NoDup_remove_dups.
    + rewrite Hmem. apply NoDup_fst_map_to_list.
  - intros sid Hin%Hkeys. rewrite <- Hmem in Hin.
    unfold _check_db_services_health.
    destruct (db_manager self) as [db|]; [|done].
    rewrite db_loop_reported. apply elem_of_app. by left.
  - intros sid [entry Hentry] Hcheck.
    assert (sid ∈ healthy memory) as Hin.
    { unfold memory, _check_memory_services_health.
      apply memory_loop_healthy. right. exists entry.
      split; [by apply elem_of_map_to_list|].
      unfold check_service_health, _check_memory_service_health in Hcheck.
      rewrite Hentry in Hcheck.
      unfold _check_single_memory_service_health.
      destruct (eq_str (dict_get_default "status" PNone (info entry)) "valid");
        cbn [negb] in *; [|done].
      destruct (String.eqb (type entry) "engine"); cbn [negb] in *; [|done].
      destruct (engines self !! sid) as [engine|]; [|done].
      by rewrite Hcheck. }
    unfold _check_db_services_health.
    destruct (db_manager self) as [db|]; [|done]. by apply db_loop_healthy.
Qed.
End RegistryHealth.

(** The discovered engine is reported healthy once its health has been
    updated. *)
Lemma updated_health_is_what_the_check_reports_witness :
  ServiceRegistry.check_service_health Samples.discovered_registry Samples.echo_id
  = false
  /\ ServiceRegistry.check_service_health Samples.running_registry Samples.echo_id
     = true.
Proof.
  split; [reflexivity|].
  edestruct (updated_health_is_what_the_check_reports 1 Samples.echo_id true PNone
               Samples.discovered_registry Samples.running_registry true)
    as [_ Hupdated].
  - vm_compute. reflexivity.
  - eapply Hupdated; [reflexivity|vm_compute; reflexivity|].
    intros _. eexists. vm_compute. reflexivity.
Defined.

(** The store of [two_engines] forgets [permdog]. *)
Lemma unregistered_service_is_gone_witness :
  fst (ServiceRegistry.unregister_service "permdog" Samples.two_engines) = Ok true
  /\ ServiceRegistry.is_service_allowed
       (snd (ServiceRegistry.unregister_service "permdog" Samples.two_engines))
       "permdog" "file-engine" = Ok false.
Proof.
  destruct (unregistered_service_is_gone "permdog" Samples.two_engines)
    as (_ & _ & _ & _ & _ & Hstore & _).
  destruct Hstore as [Hout Hallowed]; [by eexists|].
  split; [exact Hout|]. apply Hallowed.
Defined.

(** The running engine is on the healthy side of the report. *)
Lemma every_service_is_reported_once_witness :
  Samples.echo_id
  ∈ ServiceRegistry.healthy
      (ServiceRegistry.check_all_services_health Samples.running_registry).
Proof.
  destruct (every_service_is_reported_once Samples.running_registry)
    as (_ & _ & Hhealthy).
  apply Hhealthy; [|reflexivity]. eexists. vm_compute. reflexivity.
Defined.

(** ** The health of discovered engines *)

Section DiscoveredEngines.
Import ServiceRegistry.
Variable h : host.
Variables base_py service_proxy_py : string.

Lemma call_db_memory {A} (f : DB.t -> res A * DB.t) self out self' :
  call_db f self = (out, self') ->
  engines self' = engines self /\ services self' = services self.
Proof.
  unfold call_db. destruct (db_manager self) as [db|]; [|by intros [= <- <-]].
  destruct (f db) as [a db']. by intros [= <- <-].
Qed.

Lemma register_engine_to_db_memory md cfg path self out self' :
  _register_engine_to_db h md cfg path self = (out, self') ->
  engines self' = engines self /\ services self' = services self.
Proof.
  unfold _register_engine_to_db, se_bind, lift, raise, ret.
  repeat match goal with
         | |- context [match ?x with _ => _ end] =>
             lazymatch x with
             | call_db _ _ => fail
             | _ => destruct x; try (by intros [= <- <-])
             end
         end.
  all: destruct (call_db _ self) as [[b|e] self1] eqn:Hcall;
    apply call_db_memory in Hcall; by intros [= <- <-].
Qed.

(** X21: an engine that [_start_and_register_engine] has registered is found
    by [get_engine] under its own id, yet [check_service_health] answers
    [False] for it: the status kept in memory is the status of the engine,
    which is never [valid].  [forward_request] therefore answers every call
    to it with the error [Engine <id> is not healthy]. *)
Theorem discovered_engine_is_never_healthy
    (engine : BaseEngine.engine) (engine_config : pyval) (engine_path : string)
    (self self' : t) (engine_metadata : dict)
    (callers : list BaseEngine.frame_info) (action : string) (data : pyval) :
  _start_and_register_engine h engine engine_config engine_path self
  = (Ok engine_metadata, self') ->
  BaseEngine.status (BaseEngine.self engine) <> "valid" ->
  get_engine self' (BaseEngine.service_id (BaseEngine.self engine)) = Some engine
  /\ check_service_health self' (BaseEngine.service_id (BaseEngine.self engine))
     = false
  /\ (BaseEngine.service_id (BaseEngine.self engine) <> "" -> action <> "" ->
      ServiceProxy.forward_request base_py service_proxy_py self' callers
        (BaseEngine.service_id (BaseEngine.self engine)) action data
      = [ ("status", PStr "error");
          ("error",
           PStr ("Engine " +:+ BaseEngine.service_id (BaseEngine.self engine)
                 +:+ " is not healthy"));
          ("engine_id", PStr (BaseEngine.service_id (BaseEngine.self engine))) ]).
Proof.
  intros Hreg Hstatus.
  unfold _start_and_register_engine in Hreg.
  destruct (register_engine_to_memory_spec engine self) as (s1 & Hmem & Heng & _).
  assert (services s1
          = <[BaseEngine.service_id (BaseEngine.self engine) :=
                {| type := "engine";
                   info := BaseEngine.get_metadata (BaseEngine.self engine) |}]>
              (services self)) as Hsvc.
  { cbn in Hmem. by injection Hmem as <-. }
  rewrite (se_bind_ok _ _ _ _ _ Hmem) in Hreg.
  unfold se_bind in Hreg.
  destruct (_register_engine_to_db h _ engine_config engine_path s1)
    as [[[]|e] s2] eqn:Hdb; [|done].
  apply register_engine_to_db_memory in Hdb as [Heng2 Hsvc2].
  injection Hreg as _ <-.
  assert (get_engine
            {| engines := engines s2; businesses := businesses s2;
               services := services s2;
               registered_engines :=
                 registered_engines s2
                   ++ [BaseEngine.get_metadata (BaseEngine.self engine)];
               db_manager := db_manager s2 |}
            (BaseEngine.service_id (BaseEngine.self engine)) = Some engine) as Hget.
  { unfold get_engine. cbn [engines]. by rewrite Heng2, Heng, lookup_insert_eq. }
  assert (check_service_health
            {| engines := engines s2; businesses := businesses s2;
               services := services s2;
               registered_engines :=
                 registered_engines s2
                   ++ [BaseEngine.get_metadata (BaseEngine.self engine)];
               db_manager := db_manager s2 |}
            (BaseEngine.service_id (BaseEngine.self engine)) = false) as Hcheck.
  { unfold check_service_health, _check_memory_service_health. cbn [services].
    rewrite Hsvc2, Hsvc, lookup_insert_eq. cbn [info].
    cbn [BaseEngine.get_metadata dict_get_default dict_get String.eqb Ascii.eqb
         Bool.eqb eq_str].
    by apply String.eqb_neq in Hstatus as ->. }
  split_and!; [done|done|].
  intros Hid Haction. unfold ServiceProxy.forward_request.
  apply String.eqb_neq in Hid, Haction.
  cbn [truthy]. rewrite Hid, Haction. cbn [negb].
  by rewrite Hget, Hcheck.
Qed.
End DiscoveredEngines.

(** [EchoEngine] after a successful [start()]. *)
Lemma discovered_engine_is_never_healthy_witness :
  ServiceProxy.forward_request Samples.base_py Samples.service_proxy_py
    (snd (ServiceRegistry._start_and_register_engine ascii_host
            (ServiceRegistry._start_engine_safely Samples.echo_engine)
            (PDict (Samples.manifest "echo-engine")) "/srv/engines/echo/echo.py"
            Samples.fresh_registry))
    [] Samples.echo_id "ping" (PDict [])
  = [ ("status", PStr "error");
      ("error", PStr ("Engine " +:+ Samples.echo_id +:+ " is not healthy"));
      ("engine_id", PStr Samples.echo_id) ].
Proof.
  destruct (discovered_engine_is_never_healthy ascii_host
               Samples.base_py Samples.service_proxy_py
               (ServiceRegistry._start_engine_safely Samples.echo_engine)
               (PDict (Samples.manifest "echo-engine")) "/srv/engines/echo/echo.py"
               Samples.fresh_registry
               (snd (ServiceRegistry._start_and_register_engine ascii_host
                       (ServiceRegistry._start_engine_safely Samples.echo_engine)
                       (PDict (Samples.manifest "echo-engine"))
                       "/srv/engines/echo/echo.py" Samples.fresh_registry))
               (BaseEngine.get_metadata
                  (BaseEngine.self
                     (ServiceRegistry._start_engine_safely Samples.echo_engine)))
               [] "ping" (PDict []))
    as (_ & _ & Hforward).
  - vm_compute. reflexivity.
  - vm_compute. discriminate.
  - apply Hforward; discriminate.
Defined.

(** ** Discovery answers for every directory *)

Section DiscoveryNeverRaises.
Import ServiceRegistry.
Variable h : host.

Lemma keeps_db_ret {A} (a : A) : keeps_db (ret a).
Proof. by intros self. Qed.

Lemma keeps_db_lift {A} (r : res A) : keeps_db (lift r).
Proof. by intros self. Qed.

Lemma keeps_db_raise {A} e : keeps_db (raise e : M A).
Proof. by intros self. Qed.

Lemma keeps_db_bind {A B} (m : M A) (k : A -> M B) :
  keeps_db m -> (forall a, keeps_db (k a)) -> keeps_db (se_bind m k).
Proof.
  intros Hm Hk self Hdb. unfold se_bind. specialize (Hm self Hdb).
  destruct (m self) as [[a|e] s1]; cbn [snd] in *; [|done]. by apply Hk.
Qed.

Lemma keeps_db_try {A} (m : M A) (handler : exn -> M A) :
  keeps_db m -> (forall e, keeps_db (handler e)) -> keeps_db (try_except m handler).
Proof.
  intros Hm Hk self Hdb. unfold try_except. specialize (Hm self Hdb).
  destruct (m self) as [[a|e] s1]; cbn [snd] in *; [done|]. by apply Hk.
Qed.

Lemma keeps_db_with_db {A} (f : DB.t -> A * DB.t) : keeps_db (with_db f).
Proof.
  intros self [db Hdb]. unfold with_db. rewrite Hdb.
  destruct (f db). cbn. eauto.
Qed.

Lemma keeps_db_call_db {A} (f : DB.t -> res A * DB.t) : keeps_db (call_db f).
Proof.
  intros self [db Hdb]. unfold call_db. rewrite Hdb.
  destruct (f db). cbn. eauto.
Qed.

Lemma keeps_db_update now sid st reason : keeps_db (db_update_status now sid st reason).
Proof. apply keeps_db_with_db. Qed.

Ltac keeps :=
  repeat
    lazymatch goal with
    | |- keeps_db (se_bind _ _) => apply keeps_db_bind; [|intros ?]
    | |- keeps_db (try_except _ _) => apply keeps_db_try; [|intros ?]
    | |- keeps_db (ret _) => apply keeps_db_ret
    | |- keeps_db (lift _) => apply keeps_db_lift
    | |- keeps_db (raise _) => apply keeps_db_raise
    | |- keeps_db (with_db _) => apply keeps_db_with_db
    | |- keeps_db (call_db _) => apply keeps_db_call_db
    | |- keeps_db (db_update_status _ _ _ _) => apply keeps_db_update
    | |- keeps_db (match ?x with _ => _ end) => destruct x
    end.

Lemma keeps_db_error_result ev sid name reason :
  keeps_db (_build_engine_error_result ev sid name reason).
Proof. unfold _build_engine_error_result. keeps. Qed.

Lemma keeps_db_find_config ev dir name : keeps_db (_find_engine_config_file ev dir name).
Proof. unfold _find_engine_config_file. keeps. Qed.

Lemma keeps_db_load_config ev path name :
  keeps_db (_load_and_validate_engine_config h ev path name).
Proof. unfold _load_and_validate_engine_config. keeps. Qed.

Lemma keeps_db_find_class ev classes sid : keeps_db (_find_engine_class ev classes sid).
Proof. unfold _find_engine_class. keeps. Qed.

Lemma keeps_db_load_engine ev cfg path name :
  keeps_db (_load_and_create_engine ev cfg path name).
Proof.
  unfold _load_and_create_engine. keeps. apply keeps_db_find_class.
Qed.

Lemma keeps_db_register_memory md engine : keeps_db (_register_engine_to_memory md engine).
Proof.
  unfold _register_engine_to_memory. keeps. by intros self.
Qed.

Lemma keeps_db_register_db md cfg path : keeps_db (_register_engine_to_db h md cfg path).
Proof. unfold _register_engine_to_db. keeps. Qed.

Lemma keeps_db_start_register engine cfg path :
  keeps_db (_start_and_register_engine h engine cfg path).
Proof.
  unfold _start_and_register_engine. keeps.
  - apply keeps_db_register_memory.
  - apply keeps_db_register_db.
  - by intros self.
Qed.

Lemma keeps_db_body ev name path json_path :
  keeps_db (process_engine_body h ev name path json_path).
Proof.
  unfold process_engine_body.
  apply keeps_db_bind; [apply keeps_db_load_config|]. intros [cfg|].
  - destruct (negb (truthy cfg)); [apply keeps_db_error_result|].
    apply keeps_db_bind; [apply keeps_db_load_engine|]. intros [engine|].
    + apply keeps_db_bind; [apply keeps_db_start_register|]. intros md. keeps.
    + apply keeps_db_error_result.
  - apply keeps_db_error_result.
Qed.

Lemma error_result_ok ev sid name reason self :
  is_Some (db_manager self) ->
  exists entry self',
    _build_engine_error_result ev sid name reason self = (Ok entry, self')
    /\ entry_status entry = Some (PStr "invalid")
    /\ is_Some (db_manager self')
    /\ engines self' = engines self /\ services self' = services self.
Proof.
  intros [db Hdb]. unfold _build_engine_error_result, se_bind, ret.
  unfold db_update_status, with_db. rewrite Hdb.
  destruct (DB.update_service_status db (now ev) sid DB.INVALID (PStr reason))
    as [b db'].
  eexists _, _. split; [reflexivity|]. cbn. split_and!; eauto.
Qed.

Lemma body_status ev name path json_path self entry self' :
  process_engine_body h ev name path json_path self = (Ok entry, self') ->
  entry_status entry = Some (PStr "valid")
  \/ entry_status entry = Some (PStr "invalid").
Proof.
  unfold process_engine_body, se_bind.
  destruct (_load_and_validate_engine_config h ev json_path name self)
    as [[[cfg|]|] s1]; [| |done].
  - destruct (negb (truthy cfg)).
    { unfold _build_engine_error_result, se_bind, ret.
      destruct (db_update_status _ _ _ _ _) as [[?|?] ?]; [|done].
      intros [= <- _]. by right. }
    destruct (_load_and_create_engine ev cfg path name s1) as [[[engine|]|] s2];
      [| |done].
    + destruct (_start_and_register_engine h engine cfg path s2) as [[md|] s3];
        [|done].
      unfold lift, ret.
      destruct (py_getitem (PDict md) "service_id"); [|done].
      destruct (py_getitem (PDict md) "service_name"); [|done].
      destruct (py_getitem (PDict md) "version"); [|done].
      destruct (py_getitem (PDict md) "engine_type"); [|done].
      intros [= <- _]. by left.
    + unfold _build_engine_error_result, se_bind, ret.
      destruct (db_update_status _ _ _ _ _) as [[?|?] ?]; [|done].
      intros [= <- _]. by right.
  - unfold _build_engine_error_result, se_bind, ret.
    destruct (db_update_status _ _ _ _ _) as [[?|?] ?]; [|done].
    intros [= <- _]. by right.
Qed.

Lemma process_engine_ok ev name path self :
  is_Some (db_manager self) ->
  exists entry self',
    _process_engine h ev name path self = (Ok entry, self')
    /\ (entry_status entry = Some (PStr "valid")
        \/ entry_status entry = Some (PStr "invalid"))
    /\ is_Some (db_manager self').
Proof.
  intros Hdb. unfold _process_engine, se_bind.
  pose proof (keeps_db_find_config ev (_get_engine_dir ev path) name self Hdb) as Hdb1.
  assert (exists o s1, _find_engine_config_file ev (_get_engine_dir ev path) name self
                       = (Ok o, s1)) as (o & s1 & Hfind).
  { unfold _find_engine_config_file.
    destruct (find_config_file ev _ name); [by eexists _, _|].
    unfold se_bind, ret. destruct Hdb as [db Hdb].
    unfold db_update_status, with_db. rewrite Hdb.
    destruct (DB.update_service_status _ _ _ _ _). by eexists _, _. }
  rewrite Hfind in *. cbn [snd] in Hdb1.
  destruct o as [json_path|].
  - unfold try_except.
    pose proof (keeps_db_body ev name path json_path s1 Hdb1) as Hdb2.
    destruct (process_engine_body h ev name path json_path s1)
      as [[entry|e] s2] eqn:Hbody; cbn [snd] in Hdb2.
    + eexists _, _. split; [reflexivity|]. split; [|done].
      by eapply body_status.
    + destruct (exn_cls e);
        match goal with
        | |- context [_build_engine_error_result ev ?a ?b ?c s2] =>
            destruct (error_result_ok ev a b c s2 Hdb2)
              as (entry & s3 & -> & Hst & Hdb3 & _)
        end; eexists _, _; (split; [reflexivity|]); split; auto.
  - destruct (error_result_ok ev name name
                (missing_config_reason (_get_engine_dir ev path)) s1 Hdb1)
      as (entry & s3 & -> & Hst & Hdb3 & _).
    eexists _, _. split; [reflexivity|]. split; auto.
Qed.

(** X22: with a descriptor store in place [discover_engines] does not raise:
    it returns one entry for each engine directory, each with status [valid]
    or [invalid], and the store is still in place afterwards. *)
Theorem discover_engines_answers_for_every_directory
    (found : list (string * string * env)) (self : t) :
  is_Some (db_manager self) ->
  exists entries self',
    discover_engines h found self = (Ok entries, self')
    /\ length entries = length found
    /\ Forall (fun entry =>
                 entry_status entry = Some (PStr "valid")
                 \/ entry_status entry = Some (PStr "invalid")) entries
    /\ is_Some (db_manager self').
Proof.
  revert self. induction found as [|[[name file] ev] found IH]; intros self Hdb.
  - eexists _, _. split; [reflexivity|]. by split_and!.
  - cbn [discover_engines]. unfold se_bind.
    destruct (process_engine_ok ev name file self Hdb)
      as (entry & s1 & -> & Hst & Hdb1).
    destruct (IH s1 Hdb1) as (entries & s2 & -> & Hlen & Hall & Hdb2).
    eexists _, _. split; [reflexivity|]. cbn [length]. split_and!; auto.
Qed.

Import Standards.

Lemma engine_sections_rejected (d : dict) :
  dict_mem "database" d = true \/ dict_mem "apis" d = true ->
  accepted (Standards.validate_engine_json h (PDict d)) = false.
Proof.
  intros Hsections. unfold Standards.validate_engine_json.
  destruct (check_required_fields_dict d
              (Standards.REQUIRED_FIELDS Standards.EngineStandard)) as [v Hv].
  rewrite Hv. cbn [bind].
  rewrite (check_required_fields_truthy _ _ _ Hv). cbn [negb].
  unfold Standards._check_engine_type. cbn [py_get bind].
  destruct (dict_get_default "engine_type" (PStr "") d) as [| | |t| |]; try done.
  cbn [bind].
  assert (forall K : res pyval,
            accepted K = false ->
            accepted
              (if negb (truthy
                          (if negb (str_in (lower h t)
                                      (Standards.ENGINE_TYPES Standards.EngineStandard))
                           then Standards.verdict false
                                  ("Invalid engine type: " +:+ lower h t +:+
                                   ". Must be one of network, kernel")
                           else Standards.verdict_ok))
               then Ok (Standards.verdict false "Invalid engine type") else K)
            = false) as Hskip.
  { intros K HK. by destruct (negb (str_in _ _)). }
  destruct (negb (str_in _ _)); cbn [bind]; apply Hskip;
    rewrite accepted_optional_sections; unfold dict_mem in Hsections;
    (destruct (dict_get "database" d) as [db|];
     [by rewrite accepted_engine_database|]);
    (destruct (dict_get "apis" d) as [apis|];
     [by rewrite accepted_engine_apis|]);
    by destruct Hsections.
Qed.

Ltac raised :=
  eexists _, _; split; [reflexivity|]; split; [right; by eexists|done].

Lemma rejected_config_not_loaded ev json_path name cfg self :
  load_json_file ev json_path = Ok cfg ->
  accepted (Standards.validate_engine_json h cfg) = false ->
  exists out s1,
    _load_and_validate_engine_config h ev json_path name self = (out, s1)
    /\ (out = Ok None \/ exists e, out = Raise e)
    /\ engines s1 = engines self /\ services s1 = services self.
Proof.
  intros Hload Hrej. unfold _load_and_validate_engine_config, se_bind, lift.
  rewrite Hload. unfold accepted in Hrej.
  destruct (Standards.validate_engine_json h cfg) as [v|e]; [|raised].
  destruct (py_getitem v "valid") as [valid|e]; [|raised].
  rewrite Hrej. cbn [negb].
  destruct (py_get cfg "service_id" (PStr name)) as [sid|e]; [|raised].
  destruct (py_getitem v "reason") as [reason|e]; [|raised].
  unfold db_update_status, with_db, ret.
  destruct (db_manager self) as [db|]; [|raised].
  destruct (match sid with
            | PStr sid0 => DB.update_service_status db (now ev) sid0 DB.INVALID reason
            | _ => (false, db)
            end) as [b db'].
  eexists _, _. split; [reflexivity|]. cbn. eauto.
Qed.

(** X23: an engine directory whose manifest is a dictionary with a
    [database] or an [apis] key is not registered: [_process_engine] returns
    an entry with status [invalid] and leaves the engines and the services
    in memory as they were. *)
Theorem engine_manifest_with_sections_is_not_registered
    (ev : env) (engine_name engine_path engine_json_path : string)
    (manifest : dict) (self : t) :
  is_Some (db_manager self) ->
  find_config_file ev (_get_engine_dir ev engine_path) engine_name
  = Some engine_json_path ->
  load_json_file ev engine_json_path = Ok (PDict manifest) ->
  dict_mem "database" manifest = true \/ dict_mem "apis" manifest = true ->
  exists entry self',
    _process_engine h ev engine_name engine_path self = (Ok entry, self')
    /\ entry_status entry = Some (PStr "invalid")
    /\ engines self' = engines self
    /\ services self' = services self.
Proof.
  intros Hdb Hfind Hload Hsections.
  unfold _process_engine, _find_engine_config_file. rewrite Hfind.
  cbn [ret se_bind]. unfold try_except.
  pose proof (keeps_db_body ev engine_name engine_path engine_json_path self Hdb)
    as Hkeep.
  unfold process_engine_body, se_bind in *.
  destruct (rejected_config_not_loaded ev engine_json_path engine_name
              (PDict manifest) self Hload (engine_sections_rejected _ Hsections))
    as (out & s1 & Hcfg & Hout & Heng & Hsvc).
  rewrite Hcfg in *. cbn [snd] in Hkeep.
  destruct Hout as [-> | [e ->]].
  - destruct (error_result_ok ev engine_name engine_name "Unknown error" s1)
      as (entry & s2 & Herr & Hst & _ & Heng2 & Hsvc2).
    { unfold _build_engine_error_result, se_bind in Hkeep.
      by apply (keeps_db_load_config ev engine_json_path engine_name self) in Hdb;
        rewrite Hcfg in Hdb. }
    rewrite Herr. eexists _, _. split; [reflexivity|].
    split_and!; [done|congruence|congruence].
  - assert (is_Some (db_manager s1)) as Hdb1.
    { by apply (keeps_db_load_config ev engine_json_path engine_name self) in Hdb;
        rewrite Hcfg in Hdb. }
    destruct (exn_cls e);
      match goal with
      | |- context [_build_engine_error_result ev ?a ?b ?c s1] =>
          destruct (error_result_ok ev a b c s1 Hdb1)
            as (entry & s2 & -> & Hst & _ & Heng2 & Hsvc2)
      end; eexists _, _; (split; [reflexivity|]);
      split_and!; congruence.
Qed.
End DiscoveryNeverRaises.

(** Two engine directories, one of them with a documented manifest. *)
Lemma discover_engines_answers_for_every_directory_witness :
  exists entries self',
    ServiceRegistry.discover_engines ascii_host
      [ ("echo", "/srv/engines/echo/echo.py",
         Samples.engine_dir "echo-engine" Samples.EchoEngine);
        ("docs", "/srv/engines/docs/docs.py", Samples.documented_engine_dir) ]
      Samples.fresh_registry = (Ok entries, self')
    /\ length entries = 2%nat.
Proof.
  destruct (discover_engines_answers_for_every_directory ascii_host
              [ ("echo", "/srv/engines/echo/echo.py",
                 Samples.engine_dir "echo-engine" Samples.EchoEngine);
                ("docs", "/srv/engines/docs/docs.py",
                 Samples.documented_engine_dir) ]
              Samples.fresh_registry)
    as (entries & self' & Hrun & Hlength & _).
  - by eexists.
  - exists entries, self'. split; [exact Hrun|exact Hlength].
Defined.

(** The directory [/srv/engines/docs], whose manifest has an [apis]
    section. *)
Lemma engine_manifest_with_sections_is_not_registered_witness :
  exists entry self',
    ServiceRegistry._process_engine ascii_host Samples.documented_engine_dir
      "docs" "/srv/engines/docs/docs.py" Samples.fresh_registry = (Ok entry, self')
    /\ ServiceRegistry.entry_status entry = Some (PStr "invalid")
    /\ ServiceRegistry.engines self' = ∅.
Proof.
  destruct (engine_manifest_with_sections_is_not_registered ascii_host
              Samples.documented_engine_dir "docs" "/srv/engines/docs/docs.py"
              "/srv/engines/docs/engine.json" Samples.documented_manifest
              Samples.fresh_registry)
    as (entry & self' & Hrun & Hstatus & Hengines & _).
  - by eexists.
  - reflexivity.
  - reflexivity.
  - right. reflexivity.
  - exists entry, self'. split_and!; [exact Hrun|exact Hstatus|exact Hengines].
Defined.

(** ** Registration with the inner communicator *)

Section GatewayRegistration.
Import LinkGateway.

(** X24: [_register_engines_to_inner_comm] hands every engine of the
    registry to the inner communicator with its direct-call flag set, the
    registry holding the same instance; from then on [handle_request] of
    that engine runs the handler whatever the call stack is. *)
Theorem registered_engines_accept_every_caller
    (registry : ServiceRegistry.t) (inner_comm : InnerCommunicator.t)
    (engine_id : string) (engine : BaseEngine.engine) :
  ServiceRegistry.engines registry !! engine_id = Some engine ->
  let after := _register_engines_to_inner_comm registry inner_comm in
  exists marked,
    ServiceRegistry.get_engine (fst after) engine_id = Some marked
    /\ InnerCommunicator.get_engine (snd after) engine_id = Some marked
    /\ BaseEngine.cls marked = BaseEngine.cls engine
    /\ BaseEngine.self marked
       = BaseEngine.set_allow_direct_call (BaseEngine.self engine) true
    /\ forall stack action data,
         BaseEngine.handle_request marked stack action data
         = BaseEngine.cls_handle_request_impl (BaseEngine.cls marked)
             (BaseEngine.self marked) action data.
Proof.
  intros Hengine. cbn zeta. unfold _register_engines_to_inner_comm.
  unfold ServiceRegistry.get_engine, InnerCommunicator.get_engine.
  cbn [fst snd ServiceRegistry.engines InnerCommunicator.engine_registry].
  eexists. split_and!.
  - rewrite lookup_fmap, Hengine. reflexivity.
  - apply lookup_union_Some_l. rewrite lookup_fmap, Hengine. reflexivity.
  - reflexivity.
  - reflexivity.
  - intros stack action data.
    unfold BaseEngine.handle_request, BaseEngine._validate_caller.
    cbn [BaseEngine.self BaseEngine.with_self BaseEngine.set_allow_direct_call
         BaseEngine._allow_direct_call].
    by destruct (existsb _ _).
Qed.
End GatewayRegistration.

(** The discovered engine, called from a business service after the
    gateway has registered it with the inner communicator. *)
Lemma registered_engines_accept_every_caller_witness :
  exists marked,
    InnerCommunicator.get_engine
      (snd (LinkGateway._register_engines_to_inner_comm
              Samples.discovered_registry Samples.one_engine))
      Samples.echo_id = Some marked
    /\ BaseEngine.handle_request marked
         [BaseEngine.mk_frame "/srv/business/blog.py" "publish"] "ping" []
       = Ok (PDict [("action", PStr "ping")]).
Proof.
  edestruct (registered_engines_accept_every_caller Samples.discovered_registry
               Samples.one_engine Samples.echo_id)
    as (marked & _ & Hcomm & Hcls & _ & Hcall).
  - vm_compute. reflexivity.
  - exists marked. split; [exact Hcomm|].
    rewrite Hcall, Hcls. reflexivity.
Defined.

(** ** Business services: [_process_business] *)

Section BusinessFacts.
Import ServiceRegistry.
Variable h : host.
Variable bw : business_env.

(** X25: when [_process_business] returns an entry with status [valid], the
    manifest read from [service.json] is a dictionary that has a
    [service_id], a [service_name], a [version] and a true [database]
    section; the entry records the path of the directory, and for a
    [service_id] that is a string the service is registered under that id,
    in the services and in the businesses, with the entry returned. *)
Theorem valid_business_has_its_required_fields
    (business_name business_path : string) (self self' : t) (entry : dict) :
  _process_business h bw business_name business_path self = (Ok entry, self') ->
  entry_status entry = Some (PStr "valid") ->
  exists manifest database,
    read_service_json bw = Ok (PDict manifest)
    /\ dict_mem "service_id" manifest = true
    /\ dict_mem "service_name" manifest = true
    /\ dict_mem "version" manifest = true
    /\ dict_get "database" manifest = Some database
    /\ truthy database = true
    /\ dict_get "business_path" entry = Some (PStr business_path)
    /\ forall service_id,
         dict_get "service_id" manifest = Some (PStr service_id) ->
         get_service self' service_id = Some {| type := "business"; info := entry |}
         /\ get_business self' service_id = Some entry.
Proof.
  unfold _process_business.
  destruct (negb (service_json_exists bw)).
  { unfold se_bind, ret. destruct (db_update_status _ _ _ _ _) as [[?|?] ?]; [|done].
    by intros [= <- _]. }
  unfold try_except.
  destruct (process_business_body h bw business_name business_path self)
    as [[entry'|e] s1] eqn:Hbody.
  2:{ unfold se_bind, ret. destruct (db_update_status _ _ _ _ _) as [[?|?] ?]; [|done].
      by intros [= <- _]. }
  intros [= -> ->] Hvalid.
  unfold process_business_body in Hbody.
  unfold se_bind at 1 in Hbody. unfold lift at 1 in Hbody.
  destruct (read_service_json bw) as [service_info|] eqn:Hread; [|done].
  unfold se_bind at 1 in Hbody. unfold lift at 1 in Hbody.
  destruct (Standards.validate_service_json h service_info) as [vr|]; [|done].
  unfold se_bind at 1 in Hbody. unfold lift at 1 in Hbody.
  destruct (py_getitem vr "valid") as [valid|]; [|done].
  destruct (negb (truthy valid)).
  { unfold se_bind, lift, ret in Hbody.
    destruct (py_get service_info "service_id" _); [|done].
    destruct (py_getitem vr "reason"); [|done].
    destruct (db_update_status _ _ _ _ _) as [[?|?] ?]; [|done].
    destruct (py_get service_info "service_name" _); [|done].
    injection Hbody as <- _. done. }
  unfold se_bind at 1 in Hbody. unfold lift at 1 in Hbody.
  destruct service_info as [| | | | |manifest];
    try (unfold se_bind, lift, ret in Hbody; cbn [py_in py_getitem] in Hbody;
         try done;
         repeat match type of Hbody with
                | context [match ?x with _ => _ end] => destruct x; try done
                end; fail).
  exists manifest. revert Hbody. cbn [py_in py_getitem py_get].
  unfold dict_mem.
  destruct (dict_get "database" manifest) as [database|] eqn:Hdb; cbn [negb].
  - unfold se_bind, lift, ret.
    destruct (truthy database) eqn:Htruthy; cbn [negb].
    + destruct (dict_get "service_id" manifest) as [sid|] eqn:Hsid; [|done].
      destruct (dict_get "service_name" manifest) as [sname|] eqn:Hname; [|done].
      destruct (dict_get "version" manifest) as [ver|] eqn:Hver; [|done].
      destruct sid as [| | |sid| |]; try done.
      unfold modify, call_db. cbn [db_manager].
      destruct (db_manager self) as [db|]; [|done].
      match goal with
      | |- context [let '(a, db') := ?x in _] => destruct x as [[b|e] db']
      end; [|done].
      intros [= <- <-].
      exists database; (split_and!; try done).
      intros service_id [= <-]; unfold get_service, get_business, set_db;
        cbn [services businesses]; by rewrite !lookup_insert_eq.
    + destruct (dict_get "service_id" manifest) as [sid|]; [|done].
      destruct (db_update_status _ _ _ _ _) as [[?|?] ?]; [|done].
      destruct (dict_get "service_name" manifest); [|done].
      destruct (dict_get "version" manifest); [|done].
      intros [= <- _]. done.
  - unfold se_bind, lift, ret.
    destruct (dict_get "service_id" manifest) as [sid|]; [|done].
    destruct (db_update_status _ _ _ _ _) as [[?|?] ?]; [|done].
    destruct (dict_get "service_name" manifest); [|done].
    destruct (dict_get "version" manifest); [|done].
    intros [= <- _]. done.
Qed.
End BusinessFacts.

(** The directory [/srv/business/blog]. *)
Lemma valid_business_has_its_required_fields_witness :
  exists entry self',
    ServiceRegistry._process_business ascii_host Samples.blog_dir
      "blog" "/srv/business/blog" Samples.fresh_registry = (Ok entry, self')
    /\ ServiceRegistry.get_business self' "blog" = Some entry.
Proof.
  edestruct (valid_business_has_its_required_fields ascii_host Samples.blog_dir
               "blog" "/srv/business/blog" Samples.fresh_registry)
    as (manifest & database & Hread & _ & _ & _ & _ & _ & _ & Hkept).
  - vm_compute. reflexivity.
  - reflexivity.
  - injection Hread as <-.
    eexists _, _. split; [vm_compute; reflexivity|].
    by apply Hkept.
Defined.

(** ** Services loaded from the descriptor store *)

Section StoreFacts.
Import ServiceRegistry.
Variable json_loads : string -> res pyval.

Lemma decode_column_pure (column : option string) (key : string)
    (fallback : pyval) (business_info : dict) (self : t) :
  exists r,
    match column with
    | Some column =>
        if truthy (PStr column)
        then value <- lift (loads_or json_loads column fallback) ;;
             ret (dict_set key value business_info)
        else ret business_info
    | None => ret business_info
    end self = (r, self).
Proof.
  destruct column as [column|]; [|by eexists].
  destruct (truthy (PStr column)); [|by eexists].
  unfold se_bind, lift, ret. destruct (loads_or _ _ _); by eexists.
Qed.

Lemma process_business_service_spec row sid self :
  exists out self',
    _process_business_service json_loads row sid self = (out, self')
    /\ engines self' = engines self
    /\ forall key, sid <> key -> services self' !! key = services self !! key.
Proof.
  unfold _process_business_service. unfold se_bind at 1.
  destruct (decode_column_pure (DB.database_config row) "database" (PDict [])
              (row_info row) self) as [r1 ->].
  destruct r1 as [info1|]; [|by eexists _, _]. unfold se_bind at 1.
  destruct (decode_column_pure (DB.api_config row) "apis" (PList [])
              info1 self) as [r2 ->].
  destruct r2 as [info2|]; [|by eexists _, _].
  eexists _, _. split; [reflexivity|]. cbn [engines services]. split; [done|].
  intros key Hne. by rewrite lookup_insert_ne.
Qed.

Lemma process_db_service_engines row self :
  engines (_process_db_service json_loads row self) = engines self.
Proof.
  unfold _process_db_service. destruct (negb _); [done|].
  unfold try_except.
  destruct (DB.service_type row); [|done].
  destruct (process_business_service_spec row (DB.service_id row) self)
    as (out & s1 & -> & H & _).
  by destruct out.
Qed.

Lemma process_db_service_other row self key :
  DB.service_id row <> key ->
  services (_process_db_service json_loads row self) !! key = services self !! key.
Proof.
  intros Hne. unfold _process_db_service. destruct (negb _); [done|].
  unfold try_except.
  destruct (DB.service_type row).
  - destruct (process_business_service_spec row (DB.service_id row) self)
      as (out & s1 & -> & _ & H). specialize (H key Hne).
    by destruct out.
  - cbn [_process_engine_service modify snd services].
    by rewrite lookup_insert_ne.
Qed.

Lemma process_db_service_engine row self :
  DB.service_id row <> "" ->
  DB.service_type row = DB.ENGINE ->
  exists entry,
    services (_process_db_service json_loads row self) !! DB.service_id row
    = Some entry
    /\ type entry = "engine"
    /\ dict_get "status" (info entry)
       = Some (PStr (DB.status_value (DB.status row))).
Proof.
  intros Hid%String.eqb_neq Ht. unfold _process_db_service.
  cbn [truthy]. rewrite Hid, Ht. cbn [negb].
  cbn [try_except _process_engine_service modify snd services].
  rewrite lookup_insert_eq. eexists. split; [reflexivity|]. split; [done|].
  cbn [info]. by rewrite dict_get_set_ne.
Qed.

Lemma load_fold_engines rows self :
  engines (fold_left (fun self row => _process_db_service json_loads row self)
             rows self) = engines self.
Proof.
  revert self. induction rows as [|row rows IH]; intros self; [done|].
  cbn [fold_left]. by rewrite IH, process_db_service_engines.
Qed.

Lemma load_fold_other rows self key :
  key ∉ map DB.service_id rows ->
  services (fold_left (fun self row => _process_db_service json_loads row self)
              rows self) !! key = services self !! key.
Proof.
  revert self. induction rows as [|row rows IH]; intros self Hnotin; [done|].
  cbn [fold_left map] in *. apply not_elem_of_cons in Hnotin as [Hne Hnotin].
  rewrite IH by done. by apply process_db_service_other.
Qed.

(** X26: [_load_services_from_db] restores no engine instance: an engine row
    of the store becomes a service of type [engine] for which [get_engine]
    finds nothing and [check_service_health] answers [False], whatever
    status the row records. *)
Theorem engines_loaded_from_the_store_are_unhealthy
    (self : t) (db : DB.t) (service_id : string) (row : DB.row) :
  db_manager self = Some db ->
  DB.keyed db ->
  db !! service_id = Some row ->
  service_id <> "" ->
  DB.service_type row = DB.ENGINE ->
  let loaded := _load_services_from_db json_loads self in
  engines loaded = ∅
  /\ (exists entry,
        get_service loaded service_id = Some entry /\ type entry = "engine")
  /\ get_engine loaded service_id = None
  /\ check_service_health loaded service_id = false.
Proof.
  intros Hdb Hkeyed Hrow Hid Htype. cbn zeta.
  unfold _load_services_from_db. cbn [db_manager]. rewrite Hdb.
  set (start := {| engines := ∅; businesses := ∅; services := ∅;
                   registered_engines := registered_engines self;
                   db_manager := Some db |}).
  assert (exists entry,
            services (fold_left
                        (fun self row => _process_db_service json_loads row self)
                        (DB.list_services db) start) !! service_id = Some entry
            /\ type entry = "engine"
            /\ dict_get "status" (info entry)
               = Some (PStr (DB.status_value (DB.status row)))) as Hentry.
  { unfold DB.list_services.
    assert ((service_id, row) ∈ map_to_list db) as Hin
      by by apply elem_of_map_to_list.
    assert (NoDup (map DB.service_id (map_to_list db).*2)) as Hnodup.
    { assert (map DB.service_id (map_to_list db).*2 = (map_to_list db).*1) as ->.
      { assert (forall k r, (k, r) ∈ map_to_list db -> DB.service_id r = k) as Hl.
        { intros k r Hkr. apply Hkeyed. by apply elem_of_map_to_list. }
        revert Hl. generalize (map_to_list db) as l.
        induction l as [|[k r] l IHl]; intros Hl; [done|].
        cbn. f_equal.
        - apply Hl. apply elem_of_cons. by left.
        - apply IHl. intros k' r' Hin'. apply Hl. apply elem_of_cons. by right. }
      apply NoDup_fst_map_to_list. }
    assert (row ∈ (map_to_list db).*2) as Hrowin.
    { apply list_elem_of_fmap. by exists (service_id, row). }
    assert (DB.service_id row = service_id) as Hsid by by apply Hkeyed.
    revert Hnodup Hrowin. generalize ((map_to_list db).*2) as rows.
    generalize start as s0. clear Hin.
    intros s0 rows. revert s0.
    induction rows as [|r rows IH]; intros s0 Hnodup Hin.
    { by apply elem_of_nil in Hin. }
    cbn [fold_left map] in *. apply NoDup_cons in Hnodup as [Hfresh Hnodup].
    apply elem_of_cons in Hin as [<-|Hin].
    - rewrite load_fold_other by by rewrite <- Hsid.
      rewrite <- Hsid. apply process_db_service_engine; [by rewrite Hsid|done].
    - by apply IH. }
  destruct Hentry as (entry & Hentry & Htype' & Hstatus).
  assert (engines (fold_left
                     (fun self row => _process_db_service json_loads row self)
                     (DB.list_services db) start) = ∅) as Hengines.
  { by rewrite load_fold_engines. }
  split_and!.
  - done.
  - exists entry. by split.
  - unfold get_engine. by rewrite Hengines.
  - unfold check_service_health, _check_memory_service_health.
    rewrite Hentry, Hengines, Htype'.
    cbn [String.eqb Ascii.eqb Bool.eqb negb].
    by destruct (negb (eq_str _ _)).
Qed.
End StoreFacts.

(** [add_service] keeps every row under its own [service_id]. *)
Lemma add_service_keyed (db : DB.t) (i : DB.engine_info) :
  (forall key r, db !! key = Some r -> DB.service_id r = key) ->
  forall key r, snd (DB.add_service db i) !! key = Some r -> DB.service_id r = key.
Proof.
  intros Hkeyed key r. unfold DB.add_service.
  destruct (_ && _); cbn [snd]; [|by apply Hkeyed].
  intros [[<- <-]|[_ Hrow]]%lookup_insert_Some; [reflexivity|by apply Hkeyed].
Qed.

(** The store of [two_engines] records [permdog] as valid; loaded from the
    store alone, it is not healthy. *)
Lemma engines_loaded_from_the_store_are_unhealthy_witness :
  ServiceRegistry.check_service_health
    (ServiceRegistry._load_services_from_db (fun _ => Ok (PDict []))
       Samples.two_engines) "permdog" = false.
Proof.
  edestruct (engines_loaded_from_the_store_are_unhealthy (fun _ => Ok (PDict []))
               Samples.two_engines
               (snd (DB.add_service
                       (snd (DB.add_service ∅ (Samples.engine_row "file-engine")))
                       (Samples.engine_row "permdog")))
               "permdog")
    as (_ & _ & _ & Hcheck).
  - reflexivity.
  - refine (add_service_keyed _ _ (add_service_keyed _ _ _)).
    intros key r Hrow. by rewrite lookup_empty in Hrow.
  - vm_compute. reflexivity.
  - discriminate.
  - reflexivity.
  - exact Hcheck.
Defined.

(** ** Engine routes after discovery *)

Section DiscoveredEngineRoutes.
Import ServiceRegistry.
Variable h : host.
Variable w : APIMapper.world.

Lemma undocumented_same_services self self' :
  services self' = services self -> undocumented self -> undocumented self'.
Proof. intros Hs Hu sid entry. rewrite Hs. apply Hu. Qed.

Lemma keeps_undocumented_ret {A} (a : A) : keeps_undocumented (ret a).
Proof. by intros self. Qed.

Lemma keeps_undocumented_lift {A} (r : res A) : keeps_undocumented (lift r).
Proof. by intros self. Qed.

Lemma keeps_undocumented_raise {A} e : keeps_undocumented (raise e : M A).
Proof. by intros self. Qed.

Lemma keeps_undocumented_bind {A B} (m : M A) (k : A -> M B) :
  keeps_undocumented m -> (forall a, keeps_undocumented (k a)) ->
  keeps_undocumented (se_bind m k).
Proof.
  intros Hm Hk self Hu. unfold se_bind. specialize (Hm self Hu).
  destruct (m self) as [[a|e] s1]; cbn [snd] in *; [|done]. by apply Hk.
Qed.

Lemma keeps_undocumented_try {A} (m : M A) (handler : exn -> M A) :
  keeps_undocumented m -> (forall e, keeps_undocumented (handler e)) ->
  keeps_undocumented (try_except m handler).
Proof.
  intros Hm Hk self Hu. unfold try_except. specialize (Hm self Hu).
  destruct (m self) as [[a|e] s1]; cbn [snd] in *; [done|]. by apply Hk.
Qed.

Lemma keeps_undocumented_with_db {A} (f : DB.t -> A * DB.t) :
  keeps_undocumented (with_db f).
Proof.
  intros self Hu. unfold with_db.
  destruct (db_manager self) as [db|]; [|done]. by destruct (f db).
Qed.

Lemma keeps_undocumented_call_db {A} (f : DB.t -> res A * DB.t) :
  keeps_undocumented (call_db f).
Proof.
  intros self Hu. unfold call_db.
  destruct (db_manager self) as [db|]; [|done]. by destruct (f db).
Qed.

Ltac undocumented_steps :=
  repeat
    lazymatch goal with
    | |- keeps_undocumented (se_bind _ _) => apply keeps_undocumented_bind; [|intros ?]
    | |- keeps_undocumented (try_except _ _) => apply keeps_undocumented_try; [|intros ?]
    | |- keeps_undocumented (ret _) => apply keeps_undocumented_ret
    | |- keeps_undocumented (lift _) => apply keeps_undocumented_lift
    | |- keeps_undocumented (raise _) => apply keeps_undocumented_raise
    | |- keeps_undocumented (with_db _) => apply keeps_undocumented_with_db
    | |- keeps_undocumented (call_db _) => apply keeps_undocumented_call_db
    | |- keeps_undocumented (db_update_status _ _ _ _) => apply keeps_undocumented_with_db
    | |- keeps_undocumented (match ?x with _ => _ end) => destruct x
    end.

Lemma keeps_undocumented_error_result ev sid name reason :
  keeps_undocumented (_build_engine_error_result ev sid name reason).
Proof. unfold _build_engine_error_result. undocumented_steps. Qed.

Lemma keeps_undocumented_find_config ev dir name :
  keeps_undocumented (_find_engine_config_file ev dir name).
Proof. unfold _find_engine_config_file. undocumented_steps. Qed.

Lemma keeps_undocumented_load_config ev path name :
  keeps_undocumented (_load_and_validate_engine_config h ev path name).
Proof. unfold _load_and_validate_engine_config. undocumented_steps. Qed.

Lemma keeps_undocumented_load_engine ev cfg path name :
  keeps_undocumented (_load_and_create_engine ev cfg path name).
Proof.
  unfold _load_and_create_engine. undocumented_steps.
  unfold _find_engine_class. undocumented_steps.
Qed.

(** The entry that [_register_engine_to_memory] writes holds the metadata
    it was given. *)
Lemma keeps_undocumented_register_memory md engine :
  dict_mem "apis" md = false ->
  keeps_undocumented (_register_engine_to_memory md engine).
Proof.
  intros Hmd. unfold _register_engine_to_memory. undocumented_steps.
  intros self Hu sid entry. cbn [snd services].
  intros [[<- <-]|[_ Hold]]%lookup_insert_Some Htype; [exact Hmd|].
  by eapply Hu.
Qed.

Lemma keeps_undocumented_start_register engine cfg path :
  keeps_undocumented (_start_and_register_engine h engine cfg path).
Proof.
  unfold _start_and_register_engine. undocumented_steps.
  - by apply keeps_undocumented_register_memory.
  - unfold _register_engine_to_db. undocumented_steps.
  - by intros self.
Qed.

Lemma keeps_undocumented_process_engine ev name path :
  keeps_undocumented (_process_engine h ev name path).
Proof.
  unfold _process_engine.
  apply keeps_undocumented_bind; [apply keeps_undocumented_find_config|].
  intros [json_path|]; [|apply keeps_undocumented_error_result].
  apply keeps_undocumented_try.
  - unfold process_engine_body.
    apply keeps_undocumented_bind; [apply keeps_undocumented_load_config|].
    intros [cfg|]; [|apply keeps_undocumented_error_result].
    destruct (negb (truthy cfg)); [apply keeps_undocumented_error_result|].
    apply keeps_undocumented_bind; [apply keeps_undocumented_load_engine|].
    intros [engine|]; [|apply keeps_undocumented_error_result].
    apply keeps_undocumented_bind; [apply keeps_undocumented_start_register|].
    intros md. undocumented_steps.
  - intros e. destruct (exn_cls e); apply keeps_undocumented_error_result.
Qed.

Lemma keeps_undocumented_discover_engines found :
  keeps_undocumented (discover_engines h found).
Proof.
  induction found as [|[[name file] ev] found IH]; cbn [discover_engines].
  - apply keeps_undocumented_ret.
  - apply keeps_undocumented_bind; [apply keeps_undocumented_process_engine|].
    intros entry. apply keeps_undocumented_bind; [exact IH|].
    intros result. apply keeps_undocumented_ret.
Qed.

(** An engine without an [apis] entry: [_map_engine_service] creates its
    router, runs the loop of [_register_engine_api] over no entry and
    reports the engine as a success. *)
Lemma map_engine_service_without_apis sid (info : dict) result self :
  dict_mem "apis" info = false ->
  APIMapper._map_engine_service h w sid info result self
  = (Ok (fst result ++ [sid], snd result),
     snd (APIMapper.create_router self sid
            (APIMapper._normalize_path (APIMapper.api_prefix_of sid)))).
Proof.
  unfold dict_mem, APIMapper._map_engine_service, dict_get_default.
  by destruct (dict_get "apis" info).
Qed.

Lemma map_service_undocumented (service : APIMapper.service) result self :
  (APIMapper.is_engine_service service = true ->
   dict_mem "apis" (APIMapper.s_info service) = false) ->
  exists result' self',
    APIMapper.map_service h w service result self = (Ok result', self')
    /\ APIMapper.api_registry self' = APIMapper.api_registry self
    /\ (forall sid, sid ∈ fst result -> sid ∈ fst result')
    /\ (APIMapper.is_engine_service service = true ->
        APIMapper.s_service_id service ∈ fst result').
Proof.
  unfold APIMapper.is_engine_service, APIMapper.map_service, try_except.
  intros Hundoc.
  destruct (String.eqb (APIMapper.s_type service) "business") eqn:Hb.
  - apply String.eqb_eq in Hb. rewrite Hb.
    unfold APIMapper._map_business_service.
    assert (APIMapper.api_registry
              (snd (APIMapper.map_business_apis w (APIMapper.s_info service) self))
            = APIMapper.api_registry self) as Hreg.
    { unfold APIMapper.map_business_apis.
      destruct (negb _ || negb _); [done|].
      destruct (dict_get_default "service_id" PNone _); try done.
      destruct (dict_get_default "business_path" PNone _); try done.
      destruct (bind _ _) as [apis|]; [|done].
      unfold APIMapper.create_router. cbn zeta.
      by destruct (APIMapper.routes (APIMapper.load_route_module w _ _ _ _)). }
    destruct (APIMapper.map_business_apis w (APIMapper.s_info service) self)
      as [[] self1]; cbn [snd] in Hreg;
      eexists _, _; (split; [reflexivity|]); cbn [fst];
      (split_and!; [done| |done]); intros sid Hin; [|done].
    apply elem_of_app. by left.
  - destruct (String.eqb (APIMapper.s_type service) "engine") eqn:He.
    + rewrite map_engine_service_without_apis by by apply Hundoc.
      eexists _, _. split; [reflexivity|]. cbn [fst]. split_and!.
      * done.
      * intros sid Hin. apply elem_of_app. by left.
      * intros _. apply elem_of_app. right. by apply list_elem_of_singleton.
    + eexists _, _. split; [reflexivity|]. by split_and!.
Qed.

Lemma map_services_undocumented (services : list APIMapper.service) result self :
  Forall (fun service =>
            APIMapper.is_engine_service service = true ->
            dict_mem "apis" (APIMapper.s_info service) = false) services ->
  let out := APIMapper.map_services h w services result self in
  APIMapper.api_registry (snd out) = APIMapper.api_registry self
  /\ (forall sid, sid ∈ fst result -> sid ∈ fst (fst out))
  /\ Forall (fun service =>
               APIMapper.is_engine_service service = true ->
               APIMapper.s_service_id service ∈ fst (fst out)) services.
Proof.
  cbn zeta. intros Hall. revert result self.
  induction Hall as [|service services Hservice Hall IH]; intros result self.
  - cbn. by split_and!.
  - cbn [APIMapper.map_services].
    destruct (map_service_undocumented service result self Hservice)
      as (result' & self' & -> & Hreg & Hkeep & Hin).
    destruct (IH result' self') as (Hreg' & Hkeep' & Hin').
    split_and!.
    + by rewrite Hreg'.
    + intros sid Hsid. by apply Hkeep', Hkeep.
    + constructor; [|done]. intros He. by apply Hkeep', Hin.
Qed.

(** C7: no route of an engine reaches the API registry.  The info that the
    registry keeps for an engine is its metadata, which has no [apis]
    entry: in a registry whose engines have none, [discover_engines] adds
    none, whatever the manifests declare, and [map_apis] then reports every
    engine of the registry as mapped while the API registry, and with it
    the result of [list_apis] and of every [get_api_info], stays empty. *)
Theorem engine_routes_never_recorded
    (found : list (string * string * env)) (registry : t)
    (api_mapper : APIMapper.t) :
  undocumented registry ->
  is_Some (db_manager registry) ->
  let discovered := snd (discover_engines h found registry) in
  let out := LinkGateway.map_apis h w discovered api_mapper in
  undocumented discovered
  /\ (forall service_id entry,
        services discovered !! service_id = Some entry ->
        type entry = "engine" ->
        service_id ∈ fst (fst out))
  /\ APIMapper.api_registry (snd out) = ∅
  /\ APIMapper.list_apis (snd out) = []
  /\ (forall path method, APIMapper.get_api_info (snd out) path method = None).
Proof.
  intros Hundoc Hdb. cbn zeta.
  set (discovered := snd (discover_engines h found registry)).
  assert (undocumented discovered) as Hu
    by by apply keeps_undocumented_discover_engines.
  assert (is_Some (db_manager discovered)) as [db Hdb'].
  { assert (keeps_db (discover_engines h found)) as Hkeeps; [|by apply Hkeeps].
    clear. induction found as [|[[name file] ev] found IH]; cbn [discover_engines].
    - by intros self.
    - intros self Hsome. unfold se_bind.
      destruct (process_engine_ok h ev name file self Hsome)
        as (entry & s1 & -> & _ & Hdb1).
      specialize (IH s1 Hdb1).
      destruct (discover_engines h found s1) as [[result|e] s2];
        cbn [snd] in *; done. }
  assert (APIMapper.api_registry
            (snd (LinkGateway.map_apis h w discovered api_mapper)) = ∅
          /\ forall service_id entry,
               services discovered !! service_id = Some entry ->
               type entry = "engine" ->
               service_id ∈ fst (fst (LinkGateway.map_apis h w discovered api_mapper)))
    as [Hreg Hin].
  { unfold LinkGateway.map_apis, list_services. rewrite Hdb'.
    destruct (map_to_list (services discovered)) as [|first rest] eqn:Hlist.
    { split; [done|]. intros sid entry Hlook.
      apply elem_of_map_to_list in Hlook. rewrite Hlist in Hlook.
      by apply elem_of_nil in Hlook. }
    rewrite <- Hlist. unfold APIMapper.map_all_apis.
    match goal with
    | |- context [APIMapper.map_services h w ?l ?r ?s] =>
        destruct (map_services_undocumented l r s) as (Hreg & _ & Hall)
    end.
    { rewrite !Forall_fmap. apply Forall_forall. intros [sid entry] Hlook.
      apply elem_of_map_to_list in Hlook. cbn.
      unfold APIMapper.is_engine_service. cbn. intros He%String.eqb_eq.
      rewrite He. cbn. by eapply Hu. }
    split; [by rewrite Hreg|].
    intros sid entry Hlook Htype.
    apply elem_of_map_to_list in Hlook.
    rewrite !Forall_fmap in Hall. rewrite Forall_forall in Hall.
    specialize (Hall _ Hlook). cbn in Hall. apply Hall.
    unfold APIMapper.is_engine_service. cbn. by rewrite Htype. }
  split_and!; [done|done|done| |].
  - unfold APIMapper.list_apis. rewrite Hreg. by rewrite map_to_list_empty.
  - intros path method. unfold APIMapper.get_api_info. by rewrite Hreg.
Qed.
End DiscoveredEngineRoutes.

(** The directory of [EchoEngine]: the engine is registered and [map_apis]
    reports it as mapped; the listing is empty. *)
Lemma engine_routes_never_recorded_witness :
  let discovered :=
    snd (ServiceRegistry.discover_engines ascii_host
           [ ("echo", "/srv/engines/echo/echo.py",
              Samples.engine_dir "echo-engine" Samples.EchoEngine) ]
           Samples.fresh_registry) in
  let out :=
    LinkGateway.map_apis ascii_host Samples.plain_world discovered
      APIMapper.__init__ in
  is_Some (ServiceRegistry.get_engine discovered Samples.echo_id)
  /\ fst out = ([Samples.echo_id], [])
  /\ APIMapper.list_apis (snd out) = [].
Proof.
  destruct (engine_routes_never_recorded ascii_host Samples.plain_world
              [ ("echo", "/srv/engines/echo/echo.py",
                 Samples.engine_dir "echo-engine" Samples.EchoEngine) ]
              Samples.fresh_registry APIMapper.__init__)
    as (_ & _ & _ & Hlist & _).
  - intros service_id entry Hlook. unfold Samples.fresh_registry in Hlook.
    cbn [ServiceRegistry.services] in Hlook. by rewrite lookup_empty in Hlook.
  - by eexists.
  - split_and!.
    + vm_compute. by eexists.
    + vm_compute. reflexivity.
    + exact Hlist.
Defined.
